(** * Download jobs, presigned access and upload-notification debouncing

    A shallow embedding of the job-orchestration code of the repository
    (TypeScript) and the properties its specification states about it.

    - [Str], [Regex], [Uri]: the JavaScript string, regular-expression and
      URI-component primitives the code calls.
    - [Presign]: [parseS3PresignedUrl] (lib/files/bulk-download-presign).
    - [Jobs]: the owner's job listing and the parts-download redirect.
    - [Debounce]: step 4 of the visitor upload route.
    - [Convert]: the DOCX sanitisation fallback of [convertFilesToPdfTask].
    - [Batch]: the download-batch endpoint.
    - [Notify]: [sendDataroomUploadNotificationTask].
    - [Upload]: the whole visitor upload route.
    - [Trusted], [Mailer]: [isTrustedTeam], the notification e-mail helper
      and its endpoint.
    - [Jackson]: the single sign-on set-up of lib/jackson.
    - [DomainSection]: the domain and slug handlers of the link sheet.
    - [Stored]: the storing of a converted file, and the CAD and Keynote
      conversion tasks. *)

From Stdlib Require Import List Ascii String ZArith Lia Bool Arith.
From Stdlib Require Import DecimalString.
Import ListNotations.


(* ================================================================== *)
(** ** JavaScript strings *)
(* ================================================================== *)

(** A JavaScript string is modelled by the list of bytes of its UTF-8
    encoding; on ASCII text (host names, URL paths, tags, ids) a byte is a
    character. *)
Definition str := list ascii.

Definition lit (s : string) : str := list_ascii_of_string s.
Coercion lit : string >-> str.

Declare Scope str_scope.
Delimit Scope str_scope with str.
Bind Scope str_scope with str.
Notation "a +++ b" := (@app ascii (a : str) (b : str))
  (at level 60, right associativity) : str_scope.
Open Scope string_scope.
Open Scope list_scope.
Open Scope str_scope.

Module Str.

Definition eqb (a b : str) : bool :=
  if list_eq_dec ascii_dec a b then true else false.

(** [s.slice(1)] *)
Definition slice1 (s : str) : str := tl s.

(** [s.split(sep)] for a one-character separator: never empty,
    [''.split('/')] is [['']]. *)
Fixpoint split (sep : ascii) (s : str) : list str :=
  match s with
  | [] => [[]]
  | c :: r =>
      if Ascii.eqb c sep then [] :: split sep r
      else match split sep r with
           | h :: t => (c :: h) :: t
           | [] => [[c]]
           end
  end.

(** [parts.join(sep)] *)
Fixpoint join (sep : str) (parts : list str) : str :=
  match parts with
  | [] => []
  | [p] => p
  | p :: rest => p +++ sep +++ join sep rest
  end.

(** [s.startsWith(p)], returning what follows the prefix. *)
Fixpoint stripPrefix (p s : str) : option str :=
  match p, s with
  | [], _ => Some s
  | a :: p', b :: s' => if Ascii.eqb a b then stripPrefix p' s' else None
  | _ :: _, [] => None
  end.

(** [s.endsWith(suffix)] *)
Definition endsWith (s suffix : str) : bool :=
  match stripPrefix (rev suffix) (rev s) with Some _ => true | None => false end.

(** [s.includes(sub)] *)
Fixpoint contains (sub s : str) : bool :=
  match stripPrefix sub s with
  | Some _ => true
  | None => match s with [] => false | _ :: r => contains sub r end
  end.

(** [xs.includes(s)] on an array of strings. *)
Definition includes (xs : list str) (s : str) : bool := existsb (eqb s) xs.

(** [s] has no [sep]. *)
Definition noSep (sep : ascii) (s : str) : bool :=
  forallb (fun c => negb (Ascii.eqb c sep)) s.

(** The number of dots of a host name. *)
Definition dots (s : str) : nat := count_occ ascii_dec s "."%char.

End Str.

(* ================================================================== *)
(** ** Regular expressions of the shape the code uses *)
(* ================================================================== *)

Module Regex.

(** Character classes.  [.] takes no line terminator; on the ASCII
    text of a host name these are the line feed and carriage return. *)
Definition dot (c : ascii) : bool :=
  negb (Ascii.eqb c "010"%char || Ascii.eqb c "013"%char).
Definition notDot (c : ascii) : bool :=   (* the class [[^.]] *)
  negb (Ascii.eqb c "."%char).

(** An anchored pattern [^ a1 a2 ... $] whose atoms are escaped literal
    text or a capturing group [(cls+)]. *)
Inductive atom :=
| Lit (l : str)
| Group (cls : ascii -> bool).

Definition regex := list atom.

(** Greedy [cls+] followed by the continuation [k]: the longest run is
    tried first and given back one character at a time. *)
Fixpoint plus (cls : ascii -> bool) (k : str -> option (list str))
         (s : str) : option (str * list str) :=
  match s with
  | [] => None
  | c :: rest =>
      if cls c then
        match plus cls k rest with
        | Some (cap, caps) => Some (c :: cap, caps)
        | None =>
            match k rest with
            | Some caps => Some ([c], caps)
            | None => None
            end
        end
      else None
  end.

(** [s.match(re)]: [None] for [null], else the captured groups
    [m[1], m[2], ...]. *)
Fixpoint exec (re : regex) {struct re} : str -> option (list str) :=
  match re with
  | [] => fun s => match s with [] => Some [] | _ :: _ => None end
  | Lit l :: re' => fun s =>
      match Str.stripPrefix l s with
      | Some rest => exec re' rest
      | None => None
      end
  | Group cls :: re' => fun s =>
      match plus cls (exec re') s with
      | Some (cap, caps) => Some (cap :: caps)
      | None => None
      end
  end.

(** What it means for [s] to match with captures [caps]. *)
Fixpoint Matches (re : regex) (s : str) (caps : list str) : Prop :=
  match re with
  | [] => s = [] /\ caps = []
  | Lit l :: re' => exists rest, s = l +++ rest /\ Matches re' rest caps
  | Group cls :: re' =>
      exists cap caps' rest,
        caps = cap :: caps' /\ cap <> [] /\ forallb cls cap = true /\
        s = cap +++ rest /\ Matches re' rest caps'
  end.

End Regex.

(* ================================================================== *)
(** ** URI components: [encodeURIComponent], [decodeURIComponent] *)
(* ================================================================== *)

Module Uri.

Definition code (c : ascii) : N := N_of_ascii c.

Definition inRange (lo hi : N) (c : ascii) : bool :=
  (lo <=? code c)%N && (code c <=? hi)%N.

Definition isAlpha (c : ascii) : bool := inRange 65 90 c || inRange 97 122 c.
Definition isDigit (c : ascii) : bool := inRange 48 57 c.

(** The characters [encodeURIComponent] leaves as they are:
    letters, digits and [- _ . ! ~ * ' ( )]. *)
Definition unreserved (c : ascii) : bool :=
  isAlpha c || isDigit c ||
  existsb (Ascii.eqb c)
    ["-"; "_"; "."; "!"; "~"; "*"; "'"; "("; ")"]%char.

Definition hexDigit (n : N) : ascii :=
  if (n <? 10)%N then ascii_of_N (48 + n) else ascii_of_N (55 + n).

Definition hexValue (c : ascii) : option N :=
  if isDigit c then Some (code c - 48)%N
  else if inRange 65 70 c then Some (code c - 55)%N
  else if inRange 97 102 c then Some (code c - 87)%N
  else None.

(** [%XX] for one byte, upper-case digits. *)
Definition escape (c : ascii) : str :=
  ["%"%char; hexDigit (code c / 16); hexDigit (code c mod 16)].

(** [encodeURIComponent(s)]: every byte of the UTF-8 encoding that is not
    an unreserved character is escaped. *)
Definition encodeURIComponent (s : str) : str :=
  flat_map (fun c => if unreserved c then [c] else escape c) s.

(** What a decoder reads: a character that stands for itself, or the
    byte of an escape. *)
Inductive item :=
| Raw (c : ascii)
| Oct (b : ascii).

(** First pass of the decoder: every [%] must start [%XX]. *)
Fixpoint unescape (s : str) : option (list item) :=
  match s with
  | [] => Some []
  | c :: rest =>
      if Ascii.eqb c "%"%char then
        match rest with
        | h :: l :: rest' =>
            match hexValue h, hexValue l, unescape rest' with
            | Some x, Some y, Some items =>
                Some (Oct (ascii_of_N (16 * x + y)) :: items)
            | _, _, _ => None
            end
        | _ => None
        end
      else
        match unescape rest with
        | Some items => Some (Raw c :: items)
        | None => None
        end
  end.

(** Well-formed UTF-8 byte sequences (Unicode, table 3-7). *)
Definition cont (b : ascii) : bool := inRange 128 191 b.

Definition wf2 (b0 b1 : ascii) : bool := inRange 194 223 b0 && cont b1.

Definition wf3 (b0 b1 b2 : ascii) : bool :=
  (Ascii.eqb b0 "224"%char && inRange 160 191 b1 && cont b2) ||
  ((inRange 225 236 b0 || inRange 238 239 b0) && cont b1 && cont b2) ||
  (Ascii.eqb b0 "237"%char && inRange 128 159 b1 && cont b2).

Definition wf4 (b0 b1 b2 b3 : ascii) : bool :=
  (Ascii.eqb b0 "240"%char && inRange 144 191 b1 && cont b2 && cont b3) ||
  (inRange 241 243 b0 && cont b1 && cont b2 && cont b3) ||
  (Ascii.eqb b0 "244"%char && inRange 128 143 b1 && cont b2 && cont b3).

(** Second pass: an escaped byte with its high bit set starts a sequence
    of two to four escaped bytes, which must be the UTF-8 encoding of one
    code point; anything else is a [URIError]. *)
Fixpoint assemble (items : list item) : option str :=
  match items with
  | [] => Some []
  | Raw c :: rest => option_map (cons c) (assemble rest)
  | Oct b0 :: rest =>
      if inRange 0 127 b0 then option_map (cons b0) (assemble rest)
      else if inRange 192 223 b0 then
        match rest with
        | Oct b1 :: r =>
            if wf2 b0 b1
            then option_map (fun t => b0 :: b1 :: t) (assemble r)
            else None
        | _ => None
        end
      else if inRange 224 239 b0 then
        match rest with
        | Oct b1 :: Oct b2 :: r =>
            if wf3 b0 b1 b2
            then option_map (fun t => b0 :: b1 :: b2 :: t) (assemble r)
            else None
        | _ => None
        end
      else if inRange 240 247 b0 then
        match rest with
        | Oct b1 :: Oct b2 :: Oct b3 :: r =>
            if wf4 b0 b1 b2 b3
            then option_map (fun t => b0 :: b1 :: b2 :: b3 :: t) (assemble r)
            else None
        | _ => None
        end
      else None
  end.

(** [decodeURIComponent(s)]; [None] stands for the [URIError] it throws. *)
Definition decodeURIComponent (s : str) : option str :=
  match unescape s with
  | Some items => assemble items
  | None => None
  end.

(** The strings that are the UTF-8 encoding of a JavaScript string
    without lone surrogates, as a test and as an inductive predicate. *)
Fixpoint wellFormed (s : str) : bool :=
  match s with
  | [] => true
  | b0 :: r0 =>
      if inRange 0 127 b0 then wellFormed r0
      else match r0 with
           | b1 :: r1 =>
               if wf2 b0 b1 then wellFormed r1
               else match r1 with
                    | b2 :: r2 =>
                        if wf3 b0 b1 b2 then wellFormed r2
                        else match r2 with
                             | b3 :: r3 => wf4 b0 b1 b2 b3 && wellFormed r3
                             | [] => false
                             end
                    | [] => false
                    end
           | [] => false
           end
  end.

Inductive WellFormed : str -> Prop :=
| wf_nil : WellFormed []
| wf_ascii c s : inRange 0 127 c = true -> WellFormed s -> WellFormed (c :: s)
| wf_two b0 b1 s :
    wf2 b0 b1 = true -> WellFormed s -> WellFormed (b0 :: b1 :: s)
| wf_three b0 b1 b2 s :
    wf3 b0 b1 b2 = true -> WellFormed s -> WellFormed (b0 :: b1 :: b2 :: s)
| wf_four b0 b1 b2 b3 s :
    wf4 b0 b1 b2 b3 = true -> WellFormed s ->
    WellFormed (b0 :: b1 :: b2 :: b3 :: s).

(** What the decoder reads for an encoded byte. *)
Definition itemOf (c : ascii) : item := if unreserved c then Raw c else Oct c.

End Uri.

(* ================================================================== *)
(** ** Exceptions and effects *)
(* ================================================================== *)

(** A thrown JavaScript error: its [name] and [message]. *)
Record error := mkError { errorName : str; message : str }.

(** [new Error(message)] *)
Definition Err (message : str) : error := mkError "Error" message.

(** [String(e)] *)
Definition errorString (e : error) : str :=
  match errorName e, message e with
  | [], m => m
  | n, [] => n
  | n, m => n +++ ": " +++ m
  end.

Inductive result (A : Type) :=
| Ok (a : A)
| Throw (e : error).
Arguments Ok {A} a.
Arguments Throw {A} e.

Definition URIError : error := mkError "URIError" "URI malformed".

(** [opt] or the [URIError] of a failed decoding. *)
Definition orURIError {A} (o : option A) : result A :=
  match o with Some a => Ok a | None => Throw URIError end.

Module Res.

Definition bind {A B} (m : result A) (f : A -> result B) : result B :=
  match m with Ok a => f a | Throw e => Throw e end.

(** [xs.map(f)] where [f] may throw: the first error wins. *)
Fixpoint mapM {A B} (f : A -> result B) (xs : list A) : result (list B) :=
  match xs with
  | [] => Ok []
  | x :: r => bind (f x) (fun y => bind (mapM f r) (fun ys => Ok (y :: ys)))
  end.

End Res.

Declare Scope res_scope.
Delimit Scope res_scope with res.
Notation "'let!' x ':=' m 'in' k" := (Res.bind m (fun x => k))
  (at level 10, x pattern, m at level 100, k at level 200) : res_scope.

(* ================================================================== *)
(** ** Presigned access: lib/files/bulk-download-presign *)
(* ================================================================== *)

Module Presign.
Import Regex.

Record S3KeyInfo := { bucket : str; key : str; region : str }.

(** The two fields of a parsed [URL] the code reads. *)
Record URL := { hostname : str; pathname : str }.

Definition THREE_DAYS_IN_SECONDS : Z := 3 * 24 * 60 * 60.

(** [/^s3\.([^.]+)\.amazonaws\.com$/] *)
Definition pathStyleRe : regex :=
  [Lit "s3."; Group notDot; Lit ".amazonaws.com"].
(** [/^(.+)\.s3\.([^.]+)\.amazonaws\.com$/] *)
Definition virtualRe : regex :=
  [Group dot; Lit ".s3."; Group notDot; Lit ".amazonaws.com"].
(** [/^(.+)\.s3\.amazonaws\.com$/] *)
Definition virtualNoRegionRe : regex :=
  [Group dot; Lit ".s3.amazonaws.com"].

(** [m[i]] of a match array, counting groups from 1. *)
Definition group (m : list str) (i : nat) : str := nth (i - 1) m [].

Section Parse.
Local Open Scope res_scope.

(** [new URL(s)] of the platform: the parsed URL, or the [TypeError] it
    throws on text that is no URL. *)
Variable new_URL : str -> result URL.

Definition parseS3PresignedUrl (presignedUrl : str) : result S3KeyInfo :=
  let! url := new_URL presignedUrl in
  let hostname := hostname url in
  match exec pathStyleRe hostname with
  | Some pathStyleMatch =>
      let region := group pathStyleMatch 1 in
      let pathParts := Str.split "/" (Str.slice1 (pathname url)) in
      let! bucket := orURIError (Uri.decodeURIComponent (hd [] pathParts)) in
      let! keyParts :=
        Res.mapM (fun p => orURIError (Uri.decodeURIComponent p))
                 (tl pathParts) in
      let key := Str.join "/" keyParts in
      Ok {| bucket := bucket; key := key; region := region |}
  | None =>
  match exec virtualRe hostname with
  | Some virtualMatch =>
      let bucket := group virtualMatch 1 in
      let region := group virtualMatch 2 in
      let! key :=
        orURIError (Uri.decodeURIComponent (Str.slice1 (pathname url))) in
      Ok {| bucket := bucket; key := key; region := region |}
  | None =>
  match exec virtualNoRegionRe hostname with
  | Some virtualNoRegionMatch =>
      let bucket := group virtualNoRegionMatch 1 in
      let! key :=
        orURIError (Uri.decodeURIComponent (Str.slice1 (pathname url))) in
      Ok {| bucket := bucket; key := key; region := "us-east-1" |}
  | None => Throw (Err ("Unable to parse S3 URL: " +++ presignedUrl))
  end end end.

End Parse.

(** The object path of a URL: the key with every [/]-separated segment
    escaped. *)
Definition encodePath (key : str) : str :=
  Str.join "/" (map Uri.encodeURIComponent (Str.split "/" key)).

(** The three host/path shapes of the doc comment of
    [parseS3PresignedUrl]. *)
Definition pathStyle (r : S3KeyInfo) : URL :=
  {| hostname := "s3." +++ region r +++ ".amazonaws.com";
     pathname := "/" +++ Uri.encodeURIComponent (bucket r) +++ "/" +++
                 encodePath (key r) |}.

Definition virtualHosted (r : S3KeyInfo) : URL :=
  {| hostname := bucket r +++ ".s3." +++ region r +++ ".amazonaws.com";
     pathname := "/" +++ encodePath (key r) |}.

Definition virtualHostedNoRegion (r : S3KeyInfo) : URL :=
  {| hostname := bucket r +++ ".s3.amazonaws.com";
     pathname := "/" +++ encodePath (key r) |}.

(** A fragment of the platform's URL parser, enough to run the code on
    literal [https] URLs with a lower-case host and an escaped path
    without dot segments: the host runs to the first [/], the path to the
    first [?] or [#]. *)
Fixpoint upTo (stop : ascii -> bool) (s : str) : str * str :=
  match s with
  | [] => ([], [])
  | c :: r => if stop c then ([], s)
              else let (a, b) := upTo stop r in (c :: a, b)
  end.

Definition httpsURL (s : str) : result URL :=
  match Str.stripPrefix "https://" s with
  | Some rest =>
      let (host, after) := upTo (Ascii.eqb "/"%char) rest in
      let (path, _) :=
        upTo (fun c => Ascii.eqb c "?"%char || Ascii.eqb c "#"%char) after in
      match host with
      | [] => Throw (Err "Invalid URL")
      | _ => Ok {| hostname := host;
                   pathname := match path with [] => "/" | _ => path end |}
      end
  | None => Throw (Err "Invalid URL")
  end.

End Presign.


(* ================================================================== *)
(** ** [parseInt(s, 10)] and array indexing *)
(* ================================================================== *)

Module Num.

(** Leading white space of [parseInt]: the ASCII characters and the UTF-8
    encodings of U+00A0, U+1680, U+2000..U+200A, U+2028, U+2029, U+202F,
    U+205F, U+3000 and U+FEFF. *)
Definition asciiWhite (c : ascii) : bool :=
  Uri.inRange 9 13 c || Ascii.eqb c " "%char.

Fixpoint trimStart (s : str) : str :=
  match s with
  | [] => []
  | c :: r =>
      if asciiWhite c then trimStart r
      else
        match Uri.code c, r with
        | 194%N, b1 :: r1 =>
            if Ascii.eqb b1 "160"%char then trimStart r1 else s
        | 225%N, b1 :: b2 :: r2 =>
            if Ascii.eqb b1 "154"%char && Ascii.eqb b2 "128"%char
            then trimStart r2 else s
        | 226%N, b1 :: b2 :: r2 =>
            if (Ascii.eqb b1 "128"%char &&
                (Uri.inRange 128 138 b2 || Uri.inRange 168 169 b2 ||
                 Ascii.eqb b2 "175"%char)) ||
               (Ascii.eqb b1 "129"%char && Ascii.eqb b2 "159"%char)
            then trimStart r2 else s
        | 227%N, b1 :: b2 :: r2 =>
            if Ascii.eqb b1 "128"%char && Ascii.eqb b2 "128"%char
            then trimStart r2 else s
        | 239%N, b1 :: b2 :: r2 =>
            if Ascii.eqb b1 "187"%char && Ascii.eqb b2 "191"%char
            then trimStart r2 else s
        | _, _ => s
        end
  end.

(** The value of the longest prefix of decimal digits, [None] when there
    is none. *)
Fixpoint digits (acc : option Z) (s : str) : option Z :=
  match s with
  | [] => acc
  | c :: r =>
      if Uri.isDigit c then
        let d := Z.of_N (Uri.code c - 48) in
        digits (Some (10 * match acc with Some a => a | None => 0 end + d)%Z) r
      else acc
  end.

(** [parseInt(s, 10)]; [None] is [NaN].  The integer read is kept exact
    (the platform rounds it to a double beyond 2^53). *)
Definition parseInt (s : str) : option Z :=
  match trimStart s with
  | c :: r =>
      if Ascii.eqb c "-"%char then option_map Z.opp (digits None r)
      else if Ascii.eqb c "+"%char then digits None r
      else digits None (c :: r)
  | [] => None
  end.

(** [xs[i]] for a number [i]: [undefined] outside the array. *)
Definition at_ {A} (xs : list A) (i : Z) : option A :=
  if (i <? 0)%Z then None else nth_error xs (Z.to_nat i).

Definition length {A} (xs : list A) : Z := Z.of_nat (List.length xs).

(** [`${n}`] for an integer. *)
Definition toString (n : Z) : str :=
  lit (DecimalString.NilZero.string_of_int (Z.to_int n)).

End Num.

(* ================================================================== *)
(** ** Handlers: responses, log and outgoing calls *)
(* ================================================================== *)

(** What a handler does besides answering, in order. *)
Inductive event :=
| ConsoleError (label : str) (e : error)
| LoggerInfo (msg : str)
| LoggerWarn (msg : str)
| LoggerError (msg : str)
| UpdateStatus (progress : Z) (text : str)
| GetStorageConfig (teamId : str)
| GetSignedUrl (k : Presign.S3KeyInfo) (expiresIn : Z)
| RunsCancel (runId : str)
| TaskTrigger (task : str) (payload : list (str * str))
              (idempotencyKey : str) (tags : list str) (delay : Z)
| LambdaInvoke (functionName : str)
| ConvertRequest (fromFile : bool)
| FetchFile (url : str)
| WriteFile (path : str)
| RunSanitizer (input output : str)
| Unlink (path : str)
| SendNotification (ownerEmail : str) (teamMembers : list (option str))
                   (documentNames : list str).

(** A computation with a trace of events that returns or throws. *)
Definition M (A : Type) : Type := (list event * result A)%type.

Module Eff.

Definition ret {A} (a : A) : M A := ([], Ok a).
Definition throw {A} (e : error) : M A := ([], Throw e).
Definition emit (ev : event) : M unit := ([ev], Ok tt).
Definition lift {A} (r : result A) : M A := ([], r).

Definition bind {A B} (m : M A) (f : A -> M B) : M B :=
  match m with
  | (t, Ok a) => let (t', r) := f a in (t ++ t', r)
  | (t, Throw e) => (t, Throw e)
  end.

(** [try { m } catch (e) { h e }] *)
Definition tryCatch {A} (m : M A) (h : error -> M A) : M A :=
  match m with
  | (t, Throw e) => let (t', r) := h e in (t ++ t', r)
  | ok => ok
  end.

(** [try { m } finally { f }] where [f] does not throw. *)
Definition finally {A} (m : M A) (f : list event) : M A :=
  let (t, r) := m in (t ++ f, r).

(** [Promise.all(xs.map(f))]: every call is started; the result is the
    list of values, or the error of the first call (in array order) that
    failed. *)
Fixpoint all {A B} (f : A -> M B) (xs : list A) : M (list B) :=
  match xs with
  | [] => ret []
  | x :: r =>
      let (t1, r1) := f x in
      let (t2, r2) := all f r in
      (t1 ++ t2,
       match r1, r2 with
       | Ok y, Ok ys => Ok (y :: ys)
       | Throw e, _ => Throw e
       | Ok _, Throw e => Throw e
       end)
  end.

(** [Promise.all([a, b])] *)
Definition both {A B} (a : M A) (b : M B) : M (A * B) :=
  let (t1, r1) := a in
  let (t2, r2) := b in
  (t1 ++ t2,
   match r1, r2 with
   | Ok x, Ok y => Ok (x, y)
   | Throw e, _ => Throw e
   | Ok _, Throw e => Throw e
   end).

Definition trace {A} (m : M A) : list event := fst m.
Definition outcome {A} (m : M A) : result A := snd m.

End Eff.

Declare Scope eff_scope.
Delimit Scope eff_scope with eff.
Notation "'do' x <- m ; k" := (Eff.bind m (fun x => k))
  (at level 10, x pattern, m at level 100, k at level 200) : eff_scope.
Notation "m ;; k" := (Eff.bind m (fun _ => k))
  (at level 100, right associativity) : eff_scope.

(** Truthiness of an optional string: present and not empty. *)
Definition truthy (o : option str) : bool :=
  match o with Some (_ :: _) => true | _ => false end.

(** [xs?.length] as a condition. *)
Definition nonEmpty {A} (o : option (list A)) : bool :=
  match o with Some (_ :: _) => true | _ => false end.

(* ================================================================== *)
(** ** Minting: [generateFreshPresignedUrl] *)
(* ================================================================== *)

Module Mint.
Import Presign.
Local Open Scope eff_scope.

Record StorageConfig := {
  accessKeyId : str;
  secretAccessKey : str;
  lambdaFunctionName : str }.

Record S3Client := {
  clientRegion : str;
  clientAccessKeyId : str;
  clientSecretAccessKey : str }.

Record GetObjectCommand := {
  Bucket : str;
  Key : str;
  ResponseContentDisposition : str;
  ResponseCacheControl : str }.

Definition quote : ascii := "034"%char.

(** [key.split('/').pop() || 'download.zip'] *)
Definition fileName (key : str) : str :=
  match last (Str.split "/" key) [] with
  | [] => "download.zip"
  | name => name
  end.

Section Mint.

(** The team's storage credentials and the SDK's signer. *)
Variable getTeamStorageConfigById : str -> result StorageConfig.
Variable getSignedUrl : S3Client -> GetObjectCommand -> Z -> result str.

Definition generateFreshPresignedUrl
    (teamId : str) (s3Key : S3KeyInfo) (expiresInSeconds : Z) : M str :=
  Eff.emit (GetStorageConfig teamId) ;;
  do config <- Eff.lift (getTeamStorageConfigById teamId) ;
  let client :=
    {| clientRegion := region s3Key;
       clientAccessKeyId := accessKeyId config;
       clientSecretAccessKey := secretAccessKey config |} in
  let command :=
    {| Bucket := bucket s3Key;
       Key := key s3Key;
       ResponseContentDisposition :=
         "attachment; filename=" +++ [quote] +++
         Uri.encodeURIComponent (fileName (key s3Key)) +++ [quote];
       ResponseCacheControl := "no-cache, no-store, must-revalidate" |} in
  Eff.emit (GetSignedUrl s3Key expiresInSeconds) ;;
  Eff.lift (getSignedUrl client command expiresInSeconds).

End Mint.
End Mint.

(* ================================================================== *)
(** ** Download jobs: the owner's listing and the parts redirect *)
(* ================================================================== *)

Module Jobs.
Import Presign.
Local Open Scope eff_scope.
Local Open Scope Z_scope.

Inductive JobStatus := PENDING | PROCESSING | COMPLETED | FAILED.

Definition statusEq (a b : JobStatus) : bool :=
  match a, b with
  | PENDING, PENDING | PROCESSING, PROCESSING
  | COMPLETED, COMPLETED | FAILED, FAILED => true
  | _, _ => false
  end.

(** Modelled from the spec: the [DownloadJob] record of
    lib/redis-download-job-store, which is not among the sources; the
    fields are the ones the two handlers read ([userId] is the spec's
    requesterId, [downloadS3Keys] its objectRefs, [downloadUrls] its
    accessUrls).  Times are epoch milliseconds, the value [new Date(..)]
    gives to the stored timestamp. *)
Record DownloadJob := {
  id : str;
  status : JobStatus;
  teamId : str;
  userId : option str;
  linkId : option str;
  viewerEmail : option str;
  downloadUrls : option (list str);
  downloadS3Keys : option (list S3KeyInfo);
  createdAt : Z;
  expiresAt : option Z }.

(** [{ ...job, downloadUrls: urls }] *)
Definition withDownloadUrls (job : DownloadJob) (urls : list str) :=
  {| id := id job; status := status job; teamId := teamId job;
     userId := userId job; linkId := linkId job;
     viewerEmail := viewerEmail job;
     downloadUrls := Some urls;
     downloadS3Keys := downloadS3Keys job;
     createdAt := createdAt job; expiresAt := expiresAt job |}.

Inductive response :=
| End (code : Z) (text : str)
| JsonError (code : Z) (error : str) (details : option str)
| JsonJobs (code : Z) (jobs : list DownloadJob)
| Redirect (code : Z) (url : option str).

(** The callback of [jobs.filter] in the listing; [now] is the clock
    reading of its [new Date()] / [Date.now()]. *)
Definition isUserJob (userId' : str) (now : Z) (job : DownloadJob) : bool :=
  match userId job with
  | Some u =>
      if Str.eqb u userId' then
        if statusEq (status job) PENDING || statusEq (status job) PROCESSING
        then true
        else
          match statusEq (status job) COMPLETED, expiresAt job with
          | true, Some expires => now <? expires
          | _, _ =>
              if statusEq (status job) FAILED then
                let oneHourAgo := now - 60 * 60 * 1000 in
                oneHourAgo <? createdAt job
              else false
          end
      else false
  | None => false
  end.

(** [xs.filter(p)] where the [i]-th call of [p] reads the clock. *)
Fixpoint filterAt {A} (p : Z -> A -> bool) (clock : nat -> Z) (i : nat)
         (xs : list A) : list A :=
  match xs with
  | [] => []
  | x :: r =>
      if p (clock i) x then x :: filterAt p clock (S i) r
      else filterAt p clock (S i) r
  end.

(** The visibility rule in the specification's words: an owner sees a
    PENDING or PROCESSING job whatever its age, a COMPLETED job while
    [now < expiresAt], and a FAILED job created less than one hour ago. *)
Definition VisibleToOwner (now : Z) (job : DownloadJob) : Prop :=
  status job = PENDING \/
  status job = PROCESSING \/
  (status job = COMPLETED /\
   exists expires, expiresAt job = Some expires /\ now < expires) \/
  (status job = FAILED /\ now - createdAt job < 60 * 60 * 1000).

(** What re-signing leaves of a job: everything but its URLs. *)
Definition sameJob (j j' : DownloadJob) : Prop :=
  id j' = id j /\ status j' = status j /\ userId j' = userId j /\
  createdAt j' = createdAt j /\ expiresAt j' = expiresAt j /\
  downloadS3Keys j' = downloadS3Keys j.

(** The stored key of a part, when there is one to re-sign with. *)
Definition storedKey (job : DownloadJob) (index : Z) : option S3KeyInfo :=
  match downloadS3Keys job, teamId job with
  | Some ks, _ :: _ => Num.at_ ks index
  | _, _ => None
  end.

Section Handlers.

Variable getTeamStorageConfigById : str -> result Mint.StorageConfig.
Variable getSignedUrl :
  Mint.S3Client -> Mint.GetObjectCommand -> Z -> result str.

Definition generateFreshPresignedUrl (team : str) (k : S3KeyInfo) : M str :=
  Mint.generateFreshPresignedUrl getTeamStorageConfigById getSignedUrl
    team k THREE_DAYS_IN_SECONDS.

(** *** pages/api/teams/[teamId]/datarooms/[id]/download/jobs *)

(** [prisma.userTeam.findUnique]: is the user a member of the team. *)
Variable userTeam_findUnique : str -> str -> result (option unit).
(** [downloadJobStore.getDataroomJobs(dataroomId, teamId, limit)] *)
Variable getDataroomJobs : str -> str -> Z -> result (list DownloadJob).

Definition userJobs (user : str) (clock : nat -> Z)
    (jobs : list DownloadJob) : list DownloadJob :=
  filterAt (isUserJob user) clock 0 jobs.

(** The callback of [userJobs.map] that re-signs a completed job. *)
Definition refresh (team : str) (job : DownloadJob) : M DownloadJob :=
  if statusEq (status job) COMPLETED && nonEmpty (downloadS3Keys job)
     && nonEmpty (downloadUrls job)
  then
    Eff.tryCatch
      (do freshUrls <-
         Eff.all (generateFreshPresignedUrl team)
                 (match downloadS3Keys job with Some ks => ks | None => [] end) ;
       Eff.ret (withDownloadUrls job freshUrls))
      (fun _ => Eff.ret job)
  else Eff.ret job.

Definition listJobs (session : option str) (method team dataroomId : str)
    (clock : nat -> Z) : M response :=
  match session with
  | None => Eff.ret (End 401 "Unauthorized")
  | Some user =>
      if Str.eqb method "GET" then
        Eff.tryCatch
          (do teamAccess <- Eff.lift (userTeam_findUnique user team) ;
           match teamAccess with
           | None => Eff.ret (End 403 "Unauthorized to access this team")
           | Some _ =>
               do jobs <- Eff.lift (getDataroomJobs dataroomId team 10) ;
               do jobsWithFreshUrls <-
                 Eff.all (refresh team) (userJobs user clock jobs) ;
               Eff.ret (JsonJobs 200 jobsWithFreshUrls)
           end)
          (fun error =>
             Eff.emit (ConsoleError "Error fetching download jobs:" error) ;;
             Eff.ret (JsonError 500 "Failed to fetch download jobs"
                                (Some (message error))))
      else Eff.ret (End 405 ("Method " +++ method +++ " Not Allowed"))
  end.

(** *** The parts download: [GET ...?linkId&jobId&partIndex] *)

(** [s.toLowerCase().trim()] of the platform. *)
Variable normalize : str -> str.
(** [getDataroomSessionByLinkIdInPagesRouter]: the session's view id. *)
Variable getDataroomSession : str -> result (option str).
(** [prisma.view.findUnique]: the view, with its optional viewerEmail. *)
Variable view_findUnique : str -> result (option (option str)).
(** [downloadJobStore.getJob] *)
Variable getJob : str -> result (option DownloadJob).

Definition optEqb (a b : option str) : bool :=
  match a, b with
  | Some x, Some y => Str.eqb x y
  | None, None => true
  | _, _ => false
  end.

Definition downloadPart (method : str) (qLinkId qJobId partIndex : option str)
    : M response :=
  if negb (Str.eqb method "GET")
  then Eff.ret (End 405 ("Method " +++ method +++ " Not Allowed"))
  else
  match qLinkId, qJobId, partIndex with
  | Some ((_ :: _) as link), Some ((_ :: _) as jobId), Some partIndex =>
    do session <- Eff.lift (getDataroomSession link) ;
    match session with
    | None => Eff.ret (JsonError 401 "Session required" None)
    | Some viewId =>
    do view <- Eff.lift (view_findUnique viewId) ;
    match view with
    | Some (Some ((_ :: _) as email)) =>
      do job <- Eff.lift (getJob jobId) ;
      match job with
      | None =>
          Eff.ret (JsonError 404 "Download job not found or expired" None)
      | Some job =>
        if negb (optEqb (linkId job) (Some link)) ||
           negb (optEqb (option_map normalize (viewerEmail job))
                        (Some (normalize email)))
        then Eff.ret (JsonError 403 "Job does not belong to this viewer" None)
        else
        if negb (statusEq (status job) COMPLETED) ||
           negb (nonEmpty (downloadUrls job))
        then Eff.ret (JsonError 400 "Download not ready" None)
        else
        let urls :=
          match downloadUrls job with Some us => us | None => [] end in
        match Num.parseInt partIndex with
        | None => Eff.ret (JsonError 400 "Invalid part index" None)
        | Some index =>
          if (index <? 0) || (Num.length urls <=? index)
          then Eff.ret (JsonError 400 "Invalid part index" None)
          else
          let s3Key :=
            match downloadS3Keys job with
            | Some ks => Num.at_ ks index
            | None => None
            end in
          do fresh <-
            match s3Key, teamId job with
            | Some k, _ :: _ =>
                Eff.tryCatch
                  (do freshUrl <- generateFreshPresignedUrl (teamId job) k ;
                   Eff.ret (Some (Redirect 302 (Some freshUrl))))
                  (fun error =>
                     Eff.emit (ConsoleError
                       "Failed to generate fresh presigned URL:" error) ;;
                     Eff.ret None)
            | _, _ => Eff.ret None
            end ;
          match fresh with
          | Some redirect => Eff.ret redirect
          | None =>
              let presignedUrl := Num.at_ urls index in
              Eff.ret (Redirect 302 presignedUrl)
          end
        end
      end
    | _ => Eff.ret (JsonError 403 "Viewer email not found" None)
    end
    end
  | _, _, _ =>
      Eff.ret (JsonError 400 "linkId, jobId and partIndex required" None)
  end.

(** A request of a viewer for a part of their own COMPLETED job with
    stored URLs [urls]: it passes every check before the index. *)
Record Ready (link jobId : str) (job : DownloadJob) (urls : list str)
  : Prop := {
  ready_link : link <> [];
  ready_jobId : jobId <> [];
  ready_viewer :
    exists viewId email,
      getDataroomSession link = Ok (Some viewId) /\
      view_findUnique viewId = Ok (Some (Some email)) /\
      email <> [] /\
      option_map normalize (viewerEmail job) = Some (normalize email);
  ready_job : getJob jobId = Ok (Some job);
  ready_owner : linkId job = Some link;
  ready_status : status job = COMPLETED;
  ready_urls : downloadUrls job = Some urls;
  ready_nonEmpty : urls <> [] }.

(** What the handler does once the index is read. *)
Definition afterIndex (job : DownloadJob) (urls : list str)
    (index : option Z) : M response :=
  match index with
  | None => Eff.ret (JsonError 400 "Invalid part index" None)
  | Some index =>
      if (index <? 0) || (Num.length urls <=? index)
      then Eff.ret (JsonError 400 "Invalid part index" None)
      else
        match storedKey job index with
        | Some k =>
            match Eff.outcome (generateFreshPresignedUrl (teamId job) k) with
            | Ok fresh =>
                (Eff.trace (generateFreshPresignedUrl (teamId job) k),
                 Ok (Redirect 302 (Some fresh)))
            | Throw e =>
                (Eff.trace (generateFreshPresignedUrl (teamId job) k) ++
                 [ConsoleError "Failed to generate fresh presigned URL:" e],
                 Ok (Redirect 302 (Num.at_ urls index)))
            end
        | None => ([], Ok (Redirect 302 (Num.at_ urls index)))
        end
  end.

End Handlers.
End Jobs.

(* ================================================================== *)
(** ** Debouncing upload notifications: step 4 of the upload route *)
(* ================================================================== *)

Module Debounce.
Local Open Scope eff_scope.
Local Open Scope Z_scope.

(** A run as [runs.list] returns it. *)
Record Run := { runId : str; tags : option (list str) }.

Record ListQuery := {
  taskIdentifier : list str;
  tag : list str;
  status : list str;
  period : str }.

Definition requiredTags (dataroomId linkId viewerId : str) : list str :=
  [ "dataroom_" +++ dataroomId;
    "link_" +++ linkId;
    "viewer_" +++ viewerId ].

(** [requiredTags.every((tag) => run.tags?.includes(tag))] *)
Definition hasEvery (required : list str) (run : Run) : bool :=
  forallb (fun tag =>
             match tags run with
             | Some ts => Str.includes ts tag
             | None => false
             end) required.

Definition matchingRuns (required : list str) (allRuns : list Run)
    : list Run :=
  filter (hasEvery required) allRuns.

Definition idempotencyKey (teamId dataroomId linkId viewerId docId : str)
    : str :=
  "upload-notification-" +++ teamId +++ "-" +++ dataroomId +++ "-" +++
  linkId +++ "-" +++ viewerId +++ "-" +++ docId.

Definition triggerTags (teamId dataroomId linkId viewerId : str) : list str :=
  [ "team_" +++ teamId;
    "dataroom_" +++ dataroomId;
    "link_" +++ linkId;
    "viewer_" +++ viewerId ].

Definition taskId : str := "send-dataroom-upload-notification".

(** The query of the route for one correlation. *)
Definition pendingQuery (dataroomId linkId viewerId : str) : ListQuery :=
  {| taskIdentifier := [taskId];
     tag := requiredTags dataroomId linkId viewerId;
     status := ["DELAYED" : str; "QUEUED" : str];
     period := "10m" |}.

(** The trigger the route schedules. *)
Definition theTrigger (teamId dataroomId linkId viewerId docId : str)
    (now : Z) : event :=
  TaskTrigger taskId
    [("dataroomId" : str, dataroomId); ("linkId" : str, linkId);
     ("viewerId" : str, viewerId); ("teamId" : str, teamId)]
    (idempotencyKey teamId dataroomId linkId viewerId docId)
    (triggerTags teamId dataroomId linkId viewerId)
    (now + 5 * 60 * 1000).

(** The key tells the combination when the first four ids have no
    hyphen. *)
Definition noHyphen (s : str) : bool := Str.noSep "-" s.

Section Route.

(** [runs.list(query)]: the [data] of the page it answers with, the
    scheduler matching a run that carries any one of the query's tags. *)
Variable runs_list : ListQuery -> result (list Run).
Variable runs_cancel : str -> result unit.

(** Step 4 of [POST]: [now] is the reading of [Date.now()], [docId] the
    id of the dataroom document just created. *)
Definition notifyUpload (enableNotification : bool)
    (teamId dataroomId linkId viewerId docId : str) (now : Z) : M unit :=
  if enableNotification then
    Eff.tryCatch
      (let requiredTags := requiredTags dataroomId linkId viewerId in
       do allRuns <- Eff.lift (runs_list
         {| taskIdentifier := [taskId];
            tag := requiredTags;
            status := ["DELAYED" : str; "QUEUED" : str];
            period := "10m" |}) ;
       let matchingRuns := matchingRuns requiredTags allRuns in
       do _ <- Eff.all (fun run => Eff.emit (RunsCancel (runId run)) ;;
                                   Eff.lift (runs_cancel (runId run)))
                       matchingRuns ;
       Eff.emit (TaskTrigger taskId
         [("dataroomId" : str, dataroomId); ("linkId" : str, linkId);
          ("viewerId" : str, viewerId); ("teamId" : str, teamId)]
         (idempotencyKey teamId dataroomId linkId viewerId docId)
         (triggerTags teamId dataroomId linkId viewerId)
         (now + 5 * 60 * 1000)))
      (fun error =>
         Eff.emit (ConsoleError "Error triggering upload notification:" error))
  else Eff.ret tt.

(** One cancellation of the route's [Promise.all]. *)
Definition cancelOne (run : Run) : M unit :=
  Eff.bind (Eff.emit (RunsCancel (runId run)))
           (fun _ => Eff.lift (runs_cancel (runId run))).

End Route.

(** The runs a trace cancels and the triggers it schedules. *)
Definition cancelled (t : list event) : list str :=
  flat_map (fun ev => match ev with RunsCancel i => [i] | _ => [] end) t.

Definition isTrigger (ev : event) : bool :=
  match ev with TaskTrigger _ _ _ _ _ => true | _ => false end.

Definition triggers (t : list event) : list event := filter isTrigger t.

(** Modelled from the spec: the scheduler's side of an idempotency key
    (the scheduler is a service outside the sources): duplicate delayed
    triggers collapse to one, a trigger whose task and key a pending run
    already carries adding no run. *)
Record Pending := { pTask : str; pKey : str; pDelay : Z }.

Definition schedule (pending : list Pending) (ev : event) : list Pending :=
  match ev with
  | TaskTrigger task _ k _ delay =>
      if existsb (fun p => Str.eqb (pTask p) task && Str.eqb (pKey p) k)
                 pending
      then pending
      else pending ++ [{| pTask := task; pKey := k; pDelay := delay |}]
  | _ => pending
  end.

End Debounce.

(* ================================================================== *)
(** ** Conversion with the DOCX sanitisation fallback *)
(* ================================================================== *)

Module Convert.
Local Open Scope eff_scope.
Local Open Scope Z_scope.

(** A [fetch] response: [jsonMessage] is [(await r.json()).message]
    ([Throw] when the body is no JSON or has no properties), [bytes] is
    [await r.arrayBuffer()]. *)
Record Response := {
  ok : bool;
  status : Z;
  statusText : str;
  contentTypeHeader : option str;
  jsonMessage : result (option str);
  bytes : result str }.

Record Version := {
  originalFile : option str;
  contentType : option str;
  storageType : str }.

Record Document := { name : str; versions : list Version }.

Record ConvertPayload := {
  documentId : str;
  documentVersionId : str;
  teamId : str }.

Definition DOCX : str :=
  "application/vnd.openxmlformats-officedocument.wordprocessingml.document".

Definition CONVERSION_TIMEOUT_MS : Z := 3 * 60 * 1000.

(** [body.message ?? r.statusText], or [r.statusText || 'Unknown error']
    when reading the body fails. *)
Definition failureMessage (r : Response) : str :=
  match jsonMessage r with
  | Ok (Some m) => m
  | Ok None => statusText r
  | Throw _ =>
      match statusText r with [] => "Unknown error" | t => t end
  end.

Section Task.

Variable team_findUnique : str -> result (option unit).
Variable document_findUnique : ConvertPayload -> result (option Document).
Variable getFile : str -> str -> result str.
(** The two requests to the conversion backend: by download URL, and with
    the file uploaded. *)
Variable convertFromUrl : str -> result Response.
Variable convertFile : str -> str -> str -> result Response.
Variable fetchFile : str -> result Response.
Variable writeFile : str -> str -> result unit.
Variable readFile : str -> result str.
(** [python.runScript] of the sanitizer: its stderr. *)
Variable runSanitizer : str -> str -> result str.
(** What the task does with the converted bytes (storing them and
    triggering the next task; no conversion request is made there). *)
Variable saveConverted : Document -> Version -> str -> result unit.

Definition attemptConversion (contentType name sanitizedPath : str)
    : M Response :=
  do buf <- Eff.lift (readFile sanitizedPath) ;
  Eff.emit (ConvertRequest true) ;;
  Eff.lift (convertFile buf contentType name).

(** The DOCX branch: [try { ... } finally { unlink both }]. *)
Definition sanitizeAndRetry (doc : Document) (contentType fileUrl : str)
    (conversionResponse : Response) (inputPath outputPath : str) : M str :=
  Eff.finally
    (do docxResponse <-
       Eff.tryCatch
         (Eff.emit (FetchFile fileUrl) ;; Eff.lift (fetchFile fileUrl))
         (fun err =>
            Eff.emit (UpdateStatus 0 "Failed to retrieve DOCX file") ;;
            Eff.throw (Err
              ("Failed to fetch DOCX from signed URL for sanitization: "
               +++ errorString err))) ;
     if negb (ok docxResponse) then
       Eff.emit (UpdateStatus 0 "Failed to retrieve DOCX file") ;;
       Eff.throw (Err
         ("Failed to fetch DOCX from signed URL for sanitization: HTTP "
          +++ Num.toString (status docxResponse) +++ " "
          +++ statusText docxResponse))
     else
     match contentTypeHeader docxResponse with
     | Some ((_ :: _) as responseContentType) =>
         if negb (Str.contains DOCX responseContentType) &&
            negb (Str.contains "application/octet-stream" responseContentType)
         then
           Eff.emit (UpdateStatus 0 "Invalid DOCX download response") ;;
           Eff.throw (Err
             ("Signed URL returned unexpected content-type for DOCX sanitization: "
              +++ responseContentType))
         else Eff.ret tt
     | _ => Eff.ret tt
     end ;;
     do docxBuffer <- Eff.lift (bytes docxResponse) ;
     Eff.emit (WriteFile inputPath) ;;
     do _ <- Eff.lift (writeFile inputPath docxBuffer) ;
     Eff.emit (LoggerWarn "DOCX conversion failed, sanitizing document…") ;;
     Eff.emit (UpdateStatus 25 "Sanitizing document…") ;;
     Eff.emit (RunSanitizer inputPath outputPath) ;;
     do stderr <- Eff.lift (runSanitizer inputPath outputPath) ;
     Eff.emit (LoggerInfo "Sanitizer output") ;;
     do retryResponse <-
       Eff.tryCatch
         (attemptConversion contentType (name doc) outputPath)
         (fun err =>
            Eff.emit (UpdateStatus 0 "Conversion timed out") ;;
            Eff.throw (Err
              ("Conversion timed out after sanitization — LibreOffice could not process this file within "
               +++ Num.toString (CONVERSION_TIMEOUT_MS / 1000) +++ "s"))) ;
     if negb (ok retryResponse) then
       Eff.emit (UpdateStatus 0 "Conversion failed") ;;
       Eff.throw (Err
         ("Conversion failed after sanitization: "
          +++ failureMessage retryResponse +++ " ("
          +++ Num.toString (status retryResponse) +++ ")"))
     else Eff.lift (bytes retryResponse))
    [Unlink inputPath; Unlink outputPath].

(** [run] of [convertFilesToPdfTask]; [inputPath] and [outputPath] are
    the temporary names it derives from the clock. *)
Definition convertFilesToPdfTask (payload : ConvertPayload)
    (inputPath outputPath : str) : M unit :=
  Eff.emit (UpdateStatus 0 "Initializing...") ;;
  do team <- Eff.lift (team_findUnique (teamId payload)) ;
  match team with
  | None => Eff.emit (LoggerError "Team not found")
  | Some _ =>
  do document <- Eff.lift (document_findUnique payload) ;
  match document with
  | Some {| name := docName;
            versions := ({| originalFile := Some ((_ :: _) as original);
                            contentType := Some ((_ :: _) as contentType);
                            storageType := storage |} as version) :: more |} =>
      let doc := {| name := docName; versions := version :: more |} in
      Eff.emit (UpdateStatus 10 "Retrieving file...") ;;
      do fileUrl <- Eff.lift (getFile original storage) ;
      Eff.emit (UpdateStatus 20 "Converting document…") ;;
      do conversionResponse <-
        Eff.tryCatch
          (Eff.emit (ConvertRequest false) ;;
           Eff.lift (convertFromUrl fileUrl))
          (fun err =>
             Eff.emit (LoggerWarn
               "Gotenberg conversion failed, will attempt sanitization") ;;
             Eff.ret {| ok := false; status := 504;
                        statusText := "Conversion timed out or unreachable";
                        contentTypeHeader := None;
                        jsonMessage :=
                          Throw (mkError "SyntaxError"
                                         "Unexpected end of JSON input");
                        bytes := Ok [] |}) ;
      do conversionBuffer <-
        (if negb (ok conversionResponse) then
           let isDocx := Str.eqb contentType DOCX in
           if isDocx then
             sanitizeAndRetry doc contentType fileUrl conversionResponse
                              inputPath outputPath
           else
             Eff.emit (UpdateStatus 0 "Conversion failed") ;;
             Eff.throw (Err
               ("Conversion failed: " +++ failureMessage conversionResponse
                +++ " (" +++ Num.toString (status conversionResponse)
                +++ ")"))
         else Eff.lift (bytes conversionResponse)) ;
      Eff.lift (saveConverted doc version conversionBuffer)
  | _ =>
      Eff.emit (UpdateStatus 0 "Document not found") ;;
      Eff.emit (LoggerError "Document not found")
  end
  end.

(** The DOCX can be fetched again and written to the input path. *)
Definition Downloadable (fileUrl inputPath : str) : Prop :=
  exists d buf,
    fetchFile fileUrl = Ok d /\ ok d = true /\
    match contentTypeHeader d with
    | Some ((_ :: _) as t) =>
        Str.contains DOCX t || Str.contains "application/octet-stream" t
    | _ => true
    end = true /\
    bytes d = Ok buf /\ writeFile inputPath buf = Ok tt.

(** The sanitised file is read and the backend refuses it again. *)
Definition RetryFails (name contentType outputPath : str) : Prop :=
  exists buf,
    readFile outputPath = Ok buf /\
    ((exists e, convertFile buf contentType name = Throw e) \/
     (exists r, convertFile buf contentType name = Ok r /\ ok r = false)).

End Task.

Definition isSanitize (ev : event) : bool :=
  match ev with RunSanitizer _ _ => true | _ => false end.
Definition isRetry (ev : event) : bool :=
  match ev with ConvertRequest true => true | _ => false end.
Definition isPrimary (ev : event) : bool :=
  match ev with ConvertRequest false => true | _ => false end.

Definition count (p : event -> bool) (t : list event) : nat :=
  List.length (filter p t).

(** A run that gets as far as the conversion request and sees it fail:
    the request throws, or its response is not ok. *)
Record PrimaryFails
    (team_findUnique : str -> result (option unit))
    (document_findUnique : ConvertPayload -> result (option Document))
    (getFile : str -> str -> result str)
    (convertFromUrl : str -> result Response)
    (payload : ConvertPayload) (docName : str) (version : Version)
    (more : list Version) (docType fileUrl : str) : Prop := {
  team_found : team_findUnique (teamId payload) = Ok (Some tt);
  document_found :
    document_findUnique payload
    = Ok (Some {| name := docName; versions := version :: more |});
  original_known :
    exists original,
      originalFile version = Some original /\ original <> [] /\
      getFile original (storageType version) = Ok fileUrl;
  type_known :
    contentType version = Some docType /\ docType <> [];
  primary_failed :
    (exists e, convertFromUrl fileUrl = Throw e) \/
    (exists r, convertFromUrl fileUrl = Ok r /\ ok r = false) }.

End Convert.

(* ================================================================== *)
(** ** The download-batch endpoint *)
(* ================================================================== *)

Module Batch.
Import Presign.
Local Open Scope eff_scope.
Local Open Scope Z_scope.

Section Values.

(** JSON numbers are left abstract: the code only tests them for
    truthiness. *)
Variable Number : Type.
Variable isZero : Number -> bool.

#[local] Unset Elimination Schemes.
Inductive json :=
| JNull
| JBool (b : bool)
| JNum (n : Number)
| JStr (s : str)
| JArr (xs : list json)
| JObj (fields : list (str * json)).
#[local] Set Elimination Schemes.

(** A JavaScript value read from JSON: [None] is [undefined]. *)
Definition value := option json.

Definition isTruthy (v : value) : bool :=
  match v with
  | None | Some JNull => false
  | Some (JBool b) => b
  | Some (JNum n) => negb (isZero n)
  | Some (JStr s) => match s with [] => false | _ => true end
  | Some (JArr _) | Some (JObj _) => true
  end.

Fixpoint lookup (k : str) (fields : list (str * json)) : value :=
  match fields with
  | [] => None
  | (k', v) :: r => if Str.eqb k k' then Some v else lookup k r
  end.

(** [v.k]: a [TypeError] on [null] and [undefined], [undefined] where
    the value has no such property. *)
Definition get (v : value) (k : str) : result value :=
  match v with
  | None => Throw (mkError "TypeError" "Cannot read properties of undefined")
  | Some JNull => Throw (mkError "TypeError" "Cannot read properties of null")
  | Some (JObj fields) => Ok (lookup k fields)
  | Some _ => Ok None
  end.

(** [String(v)] of the platform; a string is itself. *)
Variable ToString : value -> str.

Definition jsString (v : value) : str :=
  match v with Some (JStr s) => s | _ => ToString v end.

Inductive reply :=
| MessageBody (message : str)
| ErrorBody (error : str) (details : option str)
| DownloadBody (downloadUrl : value) (s3KeyInfo : option S3KeyInfo).

Inductive response :=
| End (code : Z) (text : str)
| Json (code : Z) (body : reply).

(** [JSON.parse]: the value, or the [SyntaxError] thrown. *)
Variable JSON_parse : str -> result json.
Variable new_URL : str -> result URL.
Variable getLambdaClientForTeam : str -> result unit.
Variable getTeamStorageConfigById : str -> result Mint.StorageConfig.
(** [client.send(new InvokeCommand(..))]: the decoded [Payload] of the
    answer, [None] when there is none. *)
Variable send : str -> list (str * value) -> result (option str).

(** [authHeader?.split(' ')[1]] *)
Definition bearer (authorization : option str) : option str :=
  match authorization with
  | Some h => nth_error (Str.split " " h) 1
  | None => None
  end.

Definition sameToken (a b : option str) : bool :=
  match a, b with
  | Some x, Some y => Str.eqb x y
  | None, None => true
  | _, _ => false
  end.

(** The object the handler serialises as the [Payload] of the
    invocation. *)
Definition invokePayload (sourceBucket fileKeys folderStructure
    watermarkConfig zipPartNumber totalParts dataroomName zipFileName
    expirationHours : value) : list (str * value) :=
  [ ("sourceBucket" : str, sourceBucket);
    ("fileKeys" : str, fileKeys);
    ("folderStructure" : str, folderStructure);
    ("watermarkConfig" : str,
     if isTruthy watermarkConfig then watermarkConfig
     else Some (JObj [("enabled" : str, JBool false)]));
    ("zipPartNumber" : str, zipPartNumber);
    ("totalParts" : str, totalParts);
    ("dataroomName" : str, dataroomName);
    ("zipFileName" : str, zipFileName);
    ("expirationHours" : str, expirationHours) ].

(** The payload the handler builds from a request body. *)
Definition payloadOf (fields : list (str * json))
    : list (str * value) :=
  invokePayload
    (lookup "sourceBucket" fields) (lookup "fileKeys" fields)
    (lookup "folderStructure" fields) (lookup "watermarkConfig" fields)
    (lookup "zipPartNumber" fields) (lookup "totalParts" fields)
    (lookup "dataroomName" fields) (lookup "zipFileName" fields)
    (lookup "expirationHours" fields).

Definition processBatch (method : str) (authorization : option str)
    (INTERNAL_API_KEY : option str) (body : value) : M response :=
  if negb (Str.eqb method "POST")
  then Eff.ret (End 405 ("Method " +++ method +++ " Not Allowed"))
  else
  let token := bearer authorization in
  if negb (sameToken token INTERNAL_API_KEY)
  then Eff.ret (Json 401 (MessageBody "Unauthorized"))
  else
  Eff.tryCatch
    (do teamId <- Eff.lift (get body "teamId") ;
     do sourceBucket <- Eff.lift (get body "sourceBucket") ;
     do fileKeys <- Eff.lift (get body "fileKeys") ;
     do folderStructure <- Eff.lift (get body "folderStructure") ;
     do watermarkConfig <- Eff.lift (get body "watermarkConfig") ;
     do zipPartNumber <- Eff.lift (get body "zipPartNumber") ;
     do totalParts <- Eff.lift (get body "totalParts") ;
     do dataroomName <- Eff.lift (get body "dataroomName") ;
     do zipFileName <- Eff.lift (get body "zipFileName") ;
     do expirationHours <- Eff.lift (get body "expirationHours") ;
     if negb (isTruthy teamId) || negb (isTruthy sourceBucket) ||
        negb (isTruthy fileKeys) || negb (isTruthy folderStructure)
     then Eff.ret (Json 400 (ErrorBody "Missing required parameters" None))
     else
     do ready <-
       Eff.both (Eff.lift (getLambdaClientForTeam (jsString teamId)))
                (Eff.lift (getTeamStorageConfigById (jsString teamId))) ;
     let (client, storageConfig) := ready : unit * Mint.StorageConfig in
     let FunctionName := Mint.lambdaFunctionName storageConfig in
     let Payload :=
       invokePayload sourceBucket fileKeys folderStructure watermarkConfig
         zipPartNumber totalParts dataroomName zipFileName expirationHours in
     Eff.emit (LambdaInvoke FunctionName) ;;
     do responsePayload <- Eff.lift (send FunctionName Payload) ;
     match responsePayload with
     | None =>
         Eff.throw (Err "Lambda response payload is undefined or empty")
     | Some decodedPayload =>
     do payload <- Eff.lift (JSON_parse decodedPayload) ;
     do errorMessage <- Eff.lift (get (Some payload) "errorMessage") ;
     if isTruthy errorMessage
     then Eff.throw (Err ("Lambda error: " +++ jsString errorMessage))
     else
     do payloadBody <- Eff.lift (get (Some payload) "body") ;
     do body' <- Eff.lift (JSON_parse (jsString payloadBody)) ;
     let s3KeyInfo :=
       match get (Some body') "downloadUrl" with
       | Ok downloadUrl =>
           match parseS3PresignedUrl new_URL (jsString downloadUrl) with
           | Ok info => Some info
           | Throw _ => None
           end
       | Throw _ => None
       end in
     do downloadUrl <- Eff.lift (get (Some body') "downloadUrl") ;
     Eff.ret (Json 200 (DownloadBody downloadUrl s3KeyInfo))
     end)
    (fun error =>
       Eff.emit (ConsoleError "Error processing download batch:" error) ;;
       Eff.ret (Json 500 (ErrorBody "Failed to process download batch"
                                    (Some (message error))))).

End Values.

Arguments JNull {Number}.
Arguments JBool {Number} b.
Arguments JNum {Number} n.
Arguments JStr {Number} s.
Arguments JArr {Number} xs.
Arguments JObj {Number} fields.
Arguments isTruthy {Number} isZero v.
Arguments lookup {Number} k fields.
Arguments get {Number} v k.
Arguments jsString {Number} ToString v.
Arguments invokePayload {Number} isZero _ _ _ _ _ _ _ _ _.
Arguments MessageBody {Number} message.
Arguments ErrorBody {Number} error details.
Arguments DownloadBody {Number} downloadUrl s3KeyInfo.
Arguments End {Number} code text.
Arguments Json {Number} code body.
Arguments processBatch {Number} isZero ToString JSON_parse new_URL
  getLambdaClientForTeam getTeamStorageConfigById send
  method authorization INTERNAL_API_KEY body.

Arguments payloadOf {Number} isZero fields.

(** The four fields the handler requires, and its 500 answer. *)
Definition requiredFields : list str :=
  ["teamId" : str; "sourceBucket" : str; "fileKeys" : str;
   "folderStructure" : str].

Definition failure {Number} (details : str) : result (response Number) :=
  Ok (Json 500 (ErrorBody "Failed to process download batch"
                          (Some details))).

Definition isInvoke (ev : event) : bool :=
  match ev with LambdaInvoke _ => true | _ => false end.

End Batch.

(* ================================================================== *)
(** ** The debounced task: [sendDataroomUploadNotificationTask] *)
(* ================================================================== *)

Module Notify.
Local Open Scope eff_scope.
Local Open Scope Z_scope.

Record UploadNotificationPayload := {
  dataroomId : str;
  linkId : str;
  viewerId : str;
  teamId : str }.

(** The selected columns of the rows the task reads. *)
Record Upload := { originalFilename : option str; viewerEmail : option str }.
Record Dataroom := { dataroomName : str }.
Record Link := { linkName : option str; ownerId : option str }.

Inductive Role := ADMIN | MANAGER | MEMBER.

Record TeamUser := { role : Role; email : option str }.

Record Response := {
  ok : bool;
  text : result str;
  jsonMessage : result str }.

Definition isAdmin (u : TeamUser) : bool :=
  match role u with ADMIN => true | _ => false end.

(** [s.slice(-n)] *)
Definition sliceLast (n : nat) (s : str) : str :=
  skipn (List.length s - n) s.

Definition orElse (o : option str) (d : str) : str :=
  match o with Some ((_ :: _) as s) => s | _ => d end.

Definition sameEmail (a : option str) (b : str) : bool :=
  match a with Some x => Str.eqb x b | None => false end.

Definition includesEmail (xs : list (option str)) (e : str) : bool :=
  existsb (fun x => sameEmail x e) xs.

Section Task.

Variable documentUpload_findMany :
  UploadNotificationPayload -> Z -> result (list Upload).
Variable dataroom_findUnique : str -> result (option Dataroom).
Variable link_findUnique : str -> result (option Link).
(** Active team members whose role is ADMIN or MANAGER. *)
Variable userTeam_findMany : str -> result (list TeamUser).
(** The active membership of the link's owner: its user's e-mail. *)
Variable userTeam_findUnique : str -> str -> result (option (option str)).
(** [fetch] of the send endpoint. *)
Variable postNotification :
  str -> list (option str) -> list str -> result Response.

Definition sendDataroomUploadNotificationTask
    (payload : UploadNotificationPayload) (now : Z) : M unit :=
  let tenMinutesAgo := now - 10 * 60 * 1000 in
  do recentUploads <-
    Eff.lift (documentUpload_findMany payload tenMinutesAgo) ;
  match recentUploads with
  | [] => Eff.emit (LoggerInfo "No recent uploads found for this dataroom link")
  | firstUpload :: _ =>
  do found <-
    Eff.both (Eff.lift (dataroom_findUnique (dataroomId payload)))
             (Eff.lift (link_findUnique (linkId payload))) ;
  let (dataroom, link) := found : option Dataroom * option Link in
  match dataroom with
  | None => Eff.emit (LoggerError "Dataroom not found")
  | Some dataroom =>
  do users <- Eff.lift (userTeam_findMany (teamId payload)) ;
  let adminEmail :=
    match find isAdmin users with
    | Some user => email user
    | None => None
    end in
  match adminEmail with
  | Some ((_ :: _) as adminEmail) =>
      let teamMembers :=
        filter (fun e => negb (sameEmail e adminEmail)) (map email users) in
      do teamMembers <-
        match link with
        | Some {| ownerId := Some ((_ :: _) as owner) |} =>
            do linkOwner <-
              Eff.lift (userTeam_findUnique owner (teamId payload)) ;
            match linkOwner with
            | Some (Some ((_ :: _) as ownerEmail)) =>
                if negb (Str.eqb ownerEmail adminEmail) &&
                   negb (includesEmail teamMembers ownerEmail)
                then Eff.ret (teamMembers ++ [Some ownerEmail])%list
                else Eff.ret teamMembers
            | _ => Eff.ret teamMembers
            end
        | _ => Eff.ret teamMembers
        end ;
      let documentNames :=
        map (fun upload => orElse (originalFilename upload)
                                  "Untitled document") recentUploads in
      let uploaderEmail :=
        match viewerEmail firstUpload with
        | Some ((_ :: _) as e) => Some e
        | _ => None
        end in
      let linkName :=
        orElse (match link with Some l => linkName l | None => None end)
               ("Link #" +++ sliceLast 5 (linkId payload)) in
      Eff.tryCatch
        (Eff.emit (SendNotification adminEmail teamMembers documentNames) ;;
         do response <-
           Eff.lift (postNotification adminEmail teamMembers documentNames) ;
         if negb (ok response) then
           do _ <- Eff.lift (text response) ;
           Eff.emit (LoggerError "Failed to send dataroom upload notification")
         else
           do _ <- Eff.lift (jsonMessage response) ;
           Eff.emit (LoggerInfo "Upload notification sent successfully"))
        (fun error =>
           Eff.emit (LoggerError "Error sending upload notification"))
  | _ => Eff.emit (LoggerError "No admin email found for team")
  end
  end
  end.

End Task.

Definition isSend (ev : event) : bool :=
  match ev with SendNotification _ _ _ => true | _ => false end.

Definition isLog (ev : event) : bool :=
  match ev with
  | LoggerInfo _ | LoggerWarn _ | LoggerError _ | ConsoleError _ _ => true
  | _ => false
  end.

(** No ADMIN member has an e-mail address. *)
Definition NoAdminEmail (users : list TeamUser) : Prop :=
  forall u, In u users -> isAdmin u = true -> truthy (email u) = false.

End Notify.

(* ================================================================== *)
(** ** Sample data and oracles *)
(* ================================================================== *)

Module Sample.
Import Presign Jobs.

(** A viewer, a completed one-part job of theirs, and oracles answering
    for them; addresses are already in lower case, so normalising them
    changes nothing. *)
Definition partKey : S3KeyInfo :=
  {| bucket := "bucket1"; key := "exports/x.zip"; region := "us-east-1" |}.

Definition viewerJob (keys : option (list S3KeyInfo)) : DownloadJob :=
  {| id := "job1"; status := COMPLETED; teamId := "team1";
     userId := None; linkId := Some (lit "link1");
     viewerEmail := Some (lit "viewer@example.com");
     downloadUrls := Some [lit "https://stored.example/part0"];
     downloadS3Keys := keys;
     createdAt := 0; expiresAt := Some 1000%Z |}.

Definition ownerJob : DownloadJob :=
  {| id := "job2"; status := COMPLETED; teamId := "team1";
     userId := Some (lit "user1"); linkId := None; viewerEmail := None;
     downloadUrls := Some [lit "https://stored.example/part0"];
     downloadS3Keys := Some [partKey];
     createdAt := 0; expiresAt := Some 1000%Z |}.

Definition normalized (s : str) : str := s.
Definition session (link : str) : result (option str) :=
  Ok (Some (lit "view1")).
Definition view (viewId : str) : result (option (option str)) :=
  Ok (Some (Some (lit "viewer@example.com"))).
Definition store (keys : option (list S3KeyInfo)) (jobId : str)
    : result (option DownloadJob) := Ok (Some (viewerJob keys)).

Definition config (team : str) : result Mint.StorageConfig :=
  Ok {| Mint.accessKeyId := "AKIA"; Mint.secretAccessKey := "secret";
        Mint.lambdaFunctionName := "bulk-download" |}.
Definition signer (c : Mint.S3Client) (g : Mint.GetObjectCommand) (t : Z)
    : result str := Ok (lit "https://fresh.example/part0").
Definition brokenSigner (c : Mint.S3Client) (g : Mint.GetObjectCommand)
    (t : Z) : result str := Throw (Err "credentials rejected").

(** An owner's job in a given state, and a team without storage
    credentials. *)
Definition sampleJob (st : JobStatus) (created : Z) (expires : option Z)
    : DownloadJob :=
  {| id := "job1"; status := st; teamId := "team1";
     userId := Some (lit "user1"); linkId := None; viewerEmail := None;
     downloadUrls := None; downloadS3Keys := None;
     createdAt := created; expiresAt := expires |}.

Definition noConfig : str -> result Mint.StorageConfig :=
  fun _ => Throw (Err "no storage configuration").
Definition noSigner (c : Mint.S3Client) (g : Mint.GetObjectCommand) (t : Z)
    : result str := Throw (Err "no signer").

End Sample.

Module SampleRuns.
Import Debounce.

(** Two pending runs as the scheduler's any-tag query answers them for
    the correlation (room1, link1, viewer1): the first is that
    correlation's trigger, the second another viewer's in the same
    dataroom. *)
Definition ownRun : Run :=
  {| runId := "run1";
     tags := Some (triggerTags "team1" "room1" "link1" "viewer1") |}.
Definition otherRun : Run :=
  {| runId := "run2";
     tags := Some (triggerTags "team1" "room1" "link2" "viewer2") |}.

Definition listing (q : ListQuery) : result (list Run) :=
  Ok [ownRun; otherRun].
Definition cancelling (runId : str) : result unit := Ok tt.

End SampleRuns.

Module SampleConversion.
Import Convert.
Local Open Scope Z_scope.

(** A DOCX whose conversion is refused (500), with and without a second
    download of the file. *)
Definition payload0 : ConvertPayload :=
  {| documentId := "doc1"; documentVersionId := "ver1"; teamId := "team1" |}.
Definition version0 : Version :=
  {| originalFile := Some (lit "doc_1/report.docx");
     contentType := Some DOCX;
     storageType := "S3_PATH" |}.
Definition refused : Response :=
  {| ok := false; status := 500; statusText := "Internal Server Error";
     contentTypeHeader := None; jsonMessage := Ok None; bytes := Ok [] |}.
Definition served : Response :=
  {| ok := true; status := 200; statusText := "OK";
     contentTypeHeader := Some DOCX; jsonMessage := Throw (Err "not JSON");
     bytes := Ok (lit "PK..") |}.
Definition forbidden : Response :=
  {| ok := false; status := 403; statusText := "Forbidden";
     contentTypeHeader := None; jsonMessage := Throw (Err "not JSON");
     bytes := Ok [] |}.

Definition team0 (t : str) : result (option unit) := Ok (Some tt).
Definition document0 (p : ConvertPayload) : result (option Document) :=
  Ok (Some {| name := "report"; versions := [version0] |}).
Definition getFile0 (data storage : str) : result str :=
  Ok (lit "https://files.example/report.docx").
Definition convertFromUrl0 (url : str) : result Response := Ok refused.
Definition convertFile0 (buf type name : str) : result Response := Ok refused.
Definition writeFile0 (path buf : str) : result unit := Ok tt.
Definition readFile0 (path : str) : result str := Ok (lit "PK.sanitized").
Definition runSanitizer0 (input output : str) : result str := Ok [].
Definition saveConverted0 (d : Document) (v : Version) (buf : str)
    : result unit := Ok tt.

Definition run0 (fetchFile : str -> result Response) : M unit :=
  convertFilesToPdfTask team0 document0 getFile0 convertFromUrl0
    convertFile0 fetchFile writeFile0 readFile0 runSanitizer0 saveConverted0
    payload0 "/tmp/input-1.docx" "/tmp/output-1.docx".

End SampleConversion.

Module SampleBatch.
Import Batch.

(** A request with every field, against a backend that reports an
    error. *)
Definition request : list (str * json unit) :=
  [ ("teamId" : str, JStr "team1"); ("sourceBucket" : str, JStr "bucket1");
    ("fileKeys" : str, JArr [JStr "a.pdf"; JStr "b.pdf"]);
    ("folderStructure" : str, JObj []) ].

Definition errorPayload : json unit :=
  JObj [("errorMessage" : str, JStr "Task timed out after 300.00 seconds")].

Definition parser (text : str) : result (json unit) :=
  if Str.eqb text "{error}" then Ok errorPayload
  else Throw (Err "Unexpected end of JSON input").

Definition render (v : value unit) : str := "undefined".
Definition client (team : str) : result unit := Ok tt.
Definition backend (fn : str) (p : list (str * value unit))
    : result (option str) := Ok (Some (lit "{error}")).

End SampleBatch.

Module SampleTask.
Import Notify.

(** A team whose only ADMIN has no address, with a MANAGER who has
    one. *)
Definition payload0 : UploadNotificationPayload :=
  {| dataroomId := "room1"; linkId := "link1"; viewerId := "viewer1";
     teamId := "team1" |}.
Definition members : list TeamUser :=
  [ {| role := ADMIN; email := None |};
    {| role := MANAGER; email := Some (lit "manager@example.com") |} ].

Definition uploads0 (p : UploadNotificationPayload) (since : Z)
    : result (list Upload) :=
  Ok [ {| originalFilename := Some (lit "a.pdf");
          viewerEmail := Some (lit "viewer@example.com") |} ].
Definition dataroom0 (id : str) : result (option Dataroom) :=
  Ok (Some {| dataroomName := "Room" |}).
Definition link0 (id : str) : result (option Link) :=
  Ok (Some {| linkName := None; ownerId := None |}).
Definition members0 (team : str) : result (list TeamUser) := Ok members.
Definition owner0 (user team : str) : result (option (option str)) :=
  Ok None.
Definition post0 (owner : str) (team : list (option str))
    (names : list str) : result Response :=
  Ok {| ok := true; text := Ok []; jsonMessage := Ok [] |}.

End SampleTask.

(* ================================================================== *)
(** ** Effects over any kind of event *)
(* ================================================================== *)

(** The handlers below have their own outgoing calls: the same
    computations as [M], with the events as a parameter. *)
Module Fx.

Definition T (E A : Type) : Type := (list E * result A)%type.

Section Fx.
Context {E : Type}.

Definition ret {A} (a : A) : T E A := ([], Ok a).
Definition throw {A} (e : error) : T E A := ([], Throw e).
Definition emit (ev : E) : T E unit := ([ev], Ok tt).
Definition lift {A} (r : result A) : T E A := ([], r).

Definition bind {A B} (m : T E A) (f : A -> T E B) : T E B :=
  match m with
  | (t, Ok a) => let (t', r) := f a in (t ++ t', r)
  | (t, Throw e) => (t, Throw e)
  end.

(** [try { m } catch (e) { h e }] *)
Definition tryCatch {A} (m : T E A) (h : error -> T E A) : T E A :=
  match m with
  | (t, Throw e) => let (t', r) := h e in (t ++ t', r)
  | ok => ok
  end.

Definition trace {A} (m : T E A) : list E := fst m.
Definition outcome {A} (m : T E A) : result A := snd m.

End Fx.

(** A computation of [M] run inside a handler with events [E]. *)
Definition embed {E A} (inj : event -> E) (m : M A) : T E A :=
  (map inj (Eff.trace m), Eff.outcome m).

End Fx.

Declare Scope fx_scope.
Delimit Scope fx_scope with fx.
Notation "'do' x <- m ; k" := (Fx.bind m (fun x => k))
  (at level 10, x pattern, m at level 100, k at level 200) : fx_scope.
Notation "m ;; k" := (Fx.bind m (fun _ => k))
  (at level 100, right associativity) : fx_scope.

(* ================================================================== *)
(** ** The visitor upload route: app/(ee)/api/links/[id]/upload *)
(* ================================================================== *)

Module Upload.
Local Open Scope fx_scope.
Local Open Scope Z_scope.

(** The fields of [documentData] the route reads. *)
Record DocumentData := {
  supportedFileType : str;
  dataContentType : str }.

Record Body := {
  documentData : option DocumentData;
  dataroomId : option str;
  folderId : option str }.

Record DataroomSession := { viewerId : option str; viewId : str }.

Record Team := { plan : str; enableExcelAdvancedMode : bool }.

Record Link := {
  linkId : str;
  enableUpload : bool;
  enableNotification : bool;
  uploadFolderId : option str;
  linkDataroomId : option str;
  teamId : option str;
  team : option Team }.

(** The created document: its id and the columns copied to the upload
    record. *)
Record Document := {
  documentId : str;
  documentName : str;
  fileSizes : list Z;
  numPages : option Z;
  documentContentType : option str }.

(** [documentData] as handed to [processDocument]; a falsy
    [enableExcelAdvancedMode] is recorded as [false]. *)
Record ProcessArgs := {
  argData : DocumentData;
  argExcelAdvancedMode : bool;
  argTeamId : str;
  argTeamPlan : str }.

Inductive call :=
| ProcessDocument (args : ProcessArgs)
| CreateDataroomDocument (dataroomId documentId : str)
                         (folderId : option str)
| CreateDocumentUpload (documentId viewerId viewId linkId : str)
| Step4 (ev : event)
| LogError (label : str) (e : error).

Inductive response :=
| Message (code : Z) (message : str)
| Success.

Definition status (r : response) : Z :=
  match r with Message code _ => code | Success => 200 end.

(** [a ?? b] *)
Definition orNull (a b : option str) : option str :=
  match a with Some _ => a | None => b end.

Section Route.

Variable request_json : result (option Body).
Variable verifyDataroomSession : str -> str -> result (option DataroomSession).
(** [prisma.link.findUnique({ where: { id, dataroomId } })] *)
Variable link_findUnique : str -> str -> result (option Link).
(** [prisma.viewer.findUnique]: by id, team and view. *)
Variable viewer_findUnique : str -> str -> str -> result (option unit).
Variable supportsAdvancedExcelMode : str -> bool.
Variable processDocument : ProcessArgs -> result Document.
(** [prisma.dataroomFolder.findUnique]: the folder's id. *)
Variable dataroomFolder_findUnique : str -> str -> result (option str).
(** [prisma.dataroomDocument.create]: the new row's id. *)
Variable dataroomDocument_create :
  str -> str -> option str -> result str.
Variable documentUpload_create :
  Document -> str -> str -> str -> str -> str -> str -> result unit.
Variable runs_list : Debounce.ListQuery -> result (list Debounce.Run).
Variable runs_cancel : str -> result unit.

Definition POST (paramsId : str) (now : Z) : Fx.T call response :=
  Fx.tryCatch
    (let linkId := paramsId in
     do body <- Fx.lift request_json ;
     match body with
     | None => Fx.throw (mkError "TypeError"
                 "Cannot destructure property 'documentData' of 'body' as it is null.")
     | Some body =>
     match linkId, documentData body, dataroomId body with
     | _ :: _, Some documentData, Some ((_ :: _) as dataroomId) =>
       do dataroomSession <-
         Fx.lift (verifyDataroomSession linkId dataroomId) ;
       match dataroomSession with
       | Some {| viewerId := Some ((_ :: _) as viewerId);
                 viewId := viewId |} =>
         do link <- Fx.lift (link_findUnique linkId dataroomId) ;
         match link with
         | Some ({| enableUpload := true;
                    linkDataroomId := linkRoom;
                    teamId := Some ((_ :: _) as linkTeamId) |} as link) =>
           if negb (match linkRoom with
                    | Some r => Str.eqb r dataroomId
                    | None => false
                    end)
           then Fx.ret (Message 403 "Uploads not allowed for this link")
           else
           do viewer <-
             Fx.lift (viewer_findUnique viewerId linkTeamId viewId) ;
           match viewer with
           | None => Fx.ret (Message 404 "Viewer not found")
           | Some _ =>
             let updatedDocumentData :=
               {| argData := documentData;
                  argExcelAdvancedMode :=
                    Str.eqb (supportedFileType documentData) "sheet" &&
                    match team link with
                    | Some t => enableExcelAdvancedMode t
                    | None => false
                    end &&
                    supportsAdvancedExcelMode (dataContentType documentData);
                  argTeamId := linkTeamId;
                  argTeamPlan :=
                    match team link with
                    | Some t => plan t
                    | None => "free"
                    end |} in
             Fx.emit (ProcessDocument updatedDocumentData) ;;
             do document <- Fx.lift (processDocument updatedDocumentData) ;
             do dataroomFolderId <-
               match uploadFolderId link with
               | Some ((_ :: _) as uploadFolder) =>
                   do dataroomFolder <-
                     Fx.lift (dataroomFolder_findUnique uploadFolder
                                                        dataroomId) ;
                   Fx.ret (orNull dataroomFolder None)
               | _ => Fx.ret (orNull (folderId body) None)
               end ;
             Fx.emit (CreateDataroomDocument dataroomId (documentId document)
                                             dataroomFolderId) ;;
             do newDataroomDocument <-
               Fx.lift (dataroomDocument_create dataroomId
                          (documentId document) dataroomFolderId) ;
             match fileSizes document with
             | [] => Fx.throw (mkError "TypeError"
                       "Cannot read properties of undefined (reading 'fileSize')")
             | _ :: _ =>
             Fx.emit (CreateDocumentUpload (documentId document) viewerId
                                           viewId linkId) ;;
             do _ <- Fx.lift (documentUpload_create document viewerId viewId
                                linkId dataroomId newDataroomDocument
                                linkTeamId) ;
             Fx.embed Step4
               (Debounce.notifyUpload runs_list runs_cancel
                  (enableNotification link) linkTeamId dataroomId linkId
                  viewerId newDataroomDocument now) ;;
             Fx.ret Success
             end
           end
         | _ => Fx.ret (Message 403 "Uploads not allowed for this link")
         end
       | _ => Fx.ret (Message 401
                        "You need to be logged in to upload a document.")
       end
     | _, _, _ => Fx.ret (Message 400 "Missing required parameters")
     end
     end)
    (fun error =>
       Fx.emit (LogError "Error uploading document:" error) ;;
       Fx.ret (Message 500 "Error uploading document")).

(** An upload the route accepts: the request names a document and a
    dataroom, the session gives a viewer, the link allows uploads to
    that dataroom for a team, and the viewer is known. *)
Record Accepted (paramsId : str) (body : Body) (data : DocumentData)
    (room : str) (session : DataroomSession) (viewer : str) (link : Link)
    (linkTeam : str) : Prop := {
  accepted_link : paramsId <> [];
  accepted_body : request_json = Ok (Some body);
  accepted_data : documentData body = Some data;
  accepted_room : dataroomId body = Some room /\ room <> [];
  accepted_session : verifyDataroomSession paramsId room = Ok (Some session);
  accepted_viewer : viewerId session = Some viewer /\ viewer <> [];
  accepted_found : link_findUnique paramsId room = Ok (Some link);
  accepted_upload : enableUpload link = true;
  accepted_dataroom : linkDataroomId link = Some room;
  accepted_team : teamId link = Some linkTeam /\ linkTeam <> [];
  accepted_known :
    exists v, viewer_findUnique viewer linkTeam (viewId session)
              = Ok (Some v) }.

(** What is handed to [processDocument]. *)
Definition processArgs (data : DocumentData) (link : Link) (linkTeam : str)
    : ProcessArgs :=
  {| argData := data;
     argExcelAdvancedMode :=
       Str.eqb (supportedFileType data) "sheet" &&
       match team link with
       | Some t => enableExcelAdvancedMode t
       | None => false
       end &&
       supportsAdvancedExcelMode (dataContentType data);
     argTeamId := linkTeam;
     argTeamPlan := match team link with
                    | Some t => plan t
                    | None => "free"
                    end |}.

(** The folder the new dataroom document is put in. *)
Definition Folder (link : Link) (body : Body) (room : str)
    (folder : option str) : Prop :=
  match uploadFolderId link with
  | Some ((_ :: _) as uploadFolder) =>
      dataroomFolder_findUnique uploadFolder room = Ok folder
  | _ => folder = folderId body
  end.

End Route.

Definition isCreate (c : call) : bool :=
  match c with
  | ProcessDocument _ | CreateDataroomDocument _ _ _
  | CreateDocumentUpload _ _ _ _ => true
  | _ => false
  end.

End Upload.

(* ================================================================== *)
(** ** Trusted teams: [isTrustedTeam] *)
(* ================================================================== *)

Module Trusted.
Import Batch.

Section Trusted.

Variable Number : Type.
(** [get] of the edge configuration. *)
Variable get : str -> result (value Number).

(** [result.filter((item) => typeof item === 'string')] *)
Definition strings (items : list (json Number)) : list str :=
  flat_map (fun item => match item with JStr s => [s] | _ => [] end) items.

Definition isTrustedTeam (EDGE_CONFIG : option str) (teamId : str)
    : bool :=
  if negb (truthy EDGE_CONFIG) then false
  else
    let trustedTeams :=
      match get "trustedTeams" with
      | Ok (Some (JArr items)) => strings items
      | Ok _ => []
      | Throw e => []
      end in
    match trustedTeams with
    | [] => false
    | _ :: _ => Str.includes trustedTeams teamId
    end.

End Trusted.
End Trusted.

(* ================================================================== *)
(** ** The notification e-mail: helper and endpoint *)
(* ================================================================== *)

Module Mailer.
Local Open Scope fx_scope.
Local Open Scope Z_scope.

(** The arguments of [sendEmail]. *)
Record Email (Template : Type) := {
  to : str;
  cc : option (list str);
  subject : str;
  react : Template;
  test : bool;
  system : bool }.
Arguments to {Template} _.
Arguments cc {Template} _.
Arguments subject {Template} _.
Arguments react {Template} _.
Arguments test {Template} _.
Arguments system {Template} _.

Inductive call (Template : Type) :=
| SendEmail (email : Email Template)
| Log (message : str).
Arguments SendEmail {Template} email.
Arguments Log {Template} message.

(** The body of the request, as the endpoint reads it; [documentNames]
    is the one field the code looks into. *)
Record Body := {
  dataroomId : str;
  dataroomName : str;
  uploaderEmail : option str;
  documentNames : option (list str);
  linkName : str;
  ownerEmail : str;
  teamMembers : option (list str) }.

Inductive sendResult (Data : Type) :=
| Sent (data : Data)
| NotSent (error : error).
Arguments Sent {Data} data.
Arguments NotSent {Data} error.

Inductive response :=
| Json (code : Z) (message : str).

Definition newline : ascii := "010"%char.

Definition documentLabel (documentCount : Z) : str :=
  if documentCount =? 1 then "document" else "documents".

Definition subjectLine (uploaderEmail : option str) (documentCount : Z)
    (dataroomName : str) : str :=
  match uploaderEmail with
  | Some ((_ :: _) as uploader) =>
      uploader +++ " uploaded " +++ Num.toString documentCount +++ " "
      +++ documentLabel documentCount +++ " to " +++ dataroomName
  | _ =>
      Num.toString documentCount +++ " new " +++ documentLabel documentCount
      +++ " uploaded to " +++ dataroomName
  end.

Section Mailer.

Variable Template Data : Type.
(** The component [DataroomUploadNotification], with the document names
    it is given. *)
Variable DataroomUploadNotification :
  str -> str -> option str -> list str -> str -> Template.
Variable sendEmail : Email Template -> result Data.
Variable NODE_ENV : option str.

Definition sendDataroomUploadNotification (ownerEmail dataroomId
    dataroomName : str) (uploaderEmail : option str)
    (documentNames : option (list str)) (linkName : str)
    (teamMembers : option (list str))
    : Fx.T (call Template) (sendResult Data) :=
  match documentNames with
  | None => Fx.throw (mkError "TypeError"
              "Cannot read properties of undefined (reading 'length')")
  | Some documentNames =>
      let documentCount := Num.length documentNames in
      let subjectLine := subjectLine uploaderEmail documentCount dataroomName in
      let emailTemplate :=
        DataroomUploadNotification dataroomId dataroomName uploaderEmail
                                   documentNames linkName in
      Fx.tryCatch
        (let email :=
           {| to := ownerEmail; cc := teamMembers; subject := subjectLine;
              react := emailTemplate;
              test := match NODE_ENV with
                      | Some env => Str.eqb env "development"
                      | None => false
                      end;
              system := true |} in
         Fx.emit (SendEmail email) ;;
         do data <- Fx.lift (sendEmail email) ;
         Fx.ret (Sent data))
        (fun error => Fx.ret (NotSent error))
  end.

(** The endpoint pages/api/jobs/send-dataroom-upload-notification. *)
Definition handle (method : str) (authorization INTERNAL_API_KEY : option str)
    (body : option Body) : Fx.T (call Template) response :=
  if negb (Str.eqb method "POST")
  then Fx.ret (Json 405 "Method Not Allowed")
  else
  let token := Batch.bearer authorization in
  if negb (Batch.sameToken token INTERNAL_API_KEY)
  then Fx.ret (Json 401 "Unauthorized")
  else
  match body with
  | None => Fx.throw (mkError "TypeError"
              "Cannot destructure property 'dataroomId' of 'req.body' as it is undefined.")
  | Some body =>
      Fx.tryCatch
        (do _ <- sendDataroomUploadNotification (ownerEmail body)
                   (dataroomId body) (dataroomName body)
                   (uploaderEmail body) (documentNames body)
                   (linkName body) (teamMembers body) ;
         Fx.ret (Json 200 "Successfully sent dataroom upload notification"))
        (fun error =>
           Fx.emit (Log ("Failed to send dataroom upload notification for dataroom "
                         +++ dataroomId body +++ ". " +++ [newline; newline]
                         +++ " Error: " +++ errorString error)) ;;
           Fx.ret (Json 500 (message error)))
  end.

End Mailer.

(** The [Authorization] header of the task's request to the endpoint:
    [`Bearer ${process.env.INTERNAL_API_KEY}`]. *)
Definition taskAuthorization (INTERNAL_API_KEY : option str) : str :=
  "Bearer " +++ match INTERNAL_API_KEY with
                | Some k => k
                | None => "undefined"
                end.

End Mailer.

(* ================================================================== *)
(** ** Single sign-on set-up: lib/jackson *)
(* ================================================================== *)

Module Jackson.
Local Open Scope fx_scope.

(** [s.trimEnd()] and [s.trim()]: the white space is that of
    [Num.trimStart]; a text is cut where only white space follows. *)
Fixpoint trimEnd (s : str) : str :=
  match s with
  | [] => []
  | c :: r =>
      match Num.trimStart s with
      | [] => []
      | _ :: _ => c :: trimEnd r
      end
  end.

Definition trim (s : str) : str := trimEnd (Num.trimStart s).

(** [URLSearchParams]: the pairs of the query, in order. *)
Definition SearchParams := list (str * str).

(** [params.get(name)]: the first value of that name. *)
Definition get (name : str) (params : SearchParams) : option str :=
  match find (fun p => Str.eqb (fst p) name) params with
  | Some p => Some (snd p)
  | None => None
  end.

(** [params.delete(name)]: every pair of that name goes. *)
Definition delete (name : str) (params : SearchParams) : SearchParams :=
  filter (fun p => negb (Str.eqb (fst p) name)) params.

(** A parsed URL: its query, and the rest of it. *)
Record URL := { origin : str; searchParams : SearchParams }.

Definition sslParams : list str :=
  ["sslcert" : str; "sslrootcert" : str; "sslkey" : str; "sslcrl" : str].

Section Sanitize.

Variable new_URL : str -> result URL.
(** [url.toString()] *)
Variable toString : URL -> str.
Variable toLowerCase : str -> str.

(** One turn of the loop of [sanitizePostgresUrl]. *)
Definition dropSystem (params : SearchParams) (param : str) : SearchParams :=
  match get param params with
  | Some value =>
      if Str.eqb (toLowerCase value) "system" then delete param params
      else params
  | None => params
  end.

(** The first value of a name is [system], in any case. *)
Definition isSystem (value : option str) : bool :=
  match value with
  | Some v => Str.eqb (toLowerCase v) "system"
  | None => false
  end.

(** The pairs the loop removes: those whose name is one of [names] and
    whose name's first value is [system]. *)
Definition removed (names : list str) (params : SearchParams)
    (p : str * str) : bool :=
  existsb (Str.eqb (fst p)) names && isSystem (get (fst p) params).

Definition sanitizePostgresUrl (rawUrl : str) : str :=
  match new_URL rawUrl with
  | Ok parsed =>
      toString {| origin := origin parsed;
                  searchParams :=
                    fold_left dropSystem sslParams (searchParams parsed) |}
  | Throw _ => rawUrl
  end.

(** [candidates.find((value) => typeof value === 'string' &&
    value.trim().length > 0)] *)
Definition usable (value : option str) : bool :=
  match value with
  | Some s => match trim s with [] => false | _ :: _ => true end
  | None => false
  end.

Definition getJacksonDbUrl
    (POSTGRES_PRISMA_URL POSTGRES_PRISMA_URL_NON_POOLING : option str)
    : result str :=
  let candidates :=
    [POSTGRES_PRISMA_URL; POSTGRES_PRISMA_URL_NON_POOLING] in
  match find usable candidates with
  | Some (Some ((_ :: _) as dbUrl)) => Ok (sanitizePostgresUrl dbUrl)
  | _ =>
      Throw (Err "Missing Jackson DB URL. Set POSTGRES_PRISMA_URL or POSTGRES_PRISMA_URL_NON_POOLING.")
  end.

End Sanitize.

Definition samlAudience : str := "https://saml.papermark.com".

Record Db := {
  engine : str; type : str; url : str; encryptionKey : str }.

Record JacksonOption := {
  externalUrl : str;
  samlPath : str;
  optSamlAudience : str;
  db : Db;
  idpEnabled : bool;
  scimPath : str;
  clientSecretVerifier : option str }.

(** The environment the module reads. *)
Record Env := {
  NEXTAUTH_URL : option str;
  NEXTAUTH_SECRET : option str;
  POSTGRES_PRISMA_URL : option str;
  POSTGRES_PRISMA_URL_NON_POOLING : option str }.

Section Controllers.

Variable new_URL : str -> result URL.
Variable toString : URL -> str.
Variable toLowerCase : str -> str.
(** The 32 characters derived from NEXTAUTH_SECRET by SHA-256. *)
Variable encryptionKeyOf : str -> str.

Definition getJacksonOptions (env : Env) : result JacksonOption :=
  match getJacksonDbUrl new_URL toString toLowerCase
          (POSTGRES_PRISMA_URL env) (POSTGRES_PRISMA_URL_NON_POOLING env) with
  | Throw e => Throw e
  | Ok dbUrl =>
      Ok {| externalUrl :=
              match NEXTAUTH_URL env with
              | Some ((_ :: _) as u) => u
              | _ => "https://app.papermark.com"
              end;
            samlPath := "/api/auth/saml/callback";
            optSamlAudience := samlAudience;
            db := {| engine := "sql"; type := "postgres"; url := dbUrl;
                     encryptionKey :=
                       encryptionKeyOf
                         (match NEXTAUTH_SECRET env with
                          | Some ((_ :: _) as s) => s
                          | _ => []
                          end) |};
            idpEnabled := true;
            scimPath := "/api/scim/v2.0";
            clientSecretVerifier := NEXTAUTH_SECRET env |}
  end.

(** The controllers of the library, left abstract. *)
Variable Controller : Type.

(** The three globals, and what [samlJackson] returns. *)
Record Globals := {
  apiController : option Controller;
  oauthController : option Controller;
  directorySyncController : option Controller }.

Record Controllers := {
  connectionAPIController : Controller;
  retOauthController : Controller;
  retDirectorySyncController : Controller }.

Variable samlJackson : JacksonOption -> result Controllers.

Inductive call := SamlJackson (options : JacksonOption).

Definition missing (c : option Controller) : bool :=
  match c with Some _ => false | None => true end.

(** [jackson()]: the globals after the call, the calls made, and the
    object returned. *)
Definition jackson (env : Env) (globalThis : Globals)
    : Globals * Fx.T call Globals :=
  if missing (apiController globalThis) ||
     missing (oauthController globalThis) ||
     missing (directorySyncController globalThis)
  then
    match getJacksonOptions env with
    | Throw e => (globalThis, ([], Throw e))
    | Ok options =>
        match samlJackson options with
        | Throw e => (globalThis, ([SamlJackson options], Throw e))
        | Ok ret =>
            let globalThis' :=
              {| apiController := Some (connectionAPIController ret);
                 oauthController := Some (retOauthController ret);
                 directorySyncController :=
                   Some (retDirectorySyncController ret) |} in
            (globalThis', ([SamlJackson options], Ok globalThis'))
        end
    end
  else (globalThis, ([], Ok globalThis)).

End Controllers.
End Jackson.

(* ================================================================== *)
(** ** The domain section of the link sheet *)
(* ================================================================== *)

Module DomainSection.

(** The two fields of the link data the section reads and writes. *)
Record Data := { domain : option str; slug : option str }.

(** The component's state, with the data it is given a setter for. *)
Record State := {
  data : Data;
  displayValue : str;
  isModalOpen : bool;
  isUpgradeModalOpen : bool }.

(** Props, plan and limits. *)
Record Props := {
  editLink : bool;
  linkType : str;
  isBusiness : bool;
  isDatarooms : bool;
  isDataroomsPlus : bool;
  customDomainOnPro : bool;
  customDomainInDataroom : bool }.

Definition papermark : str := "papermark.com".

Definition canUseCustomDomainForDocument (p : Props) : bool :=
  isBusiness p || isDatarooms p || isDataroomsPlus p || customDomainOnPro p.

Definition canUseCustomDomainForDataroom (p : Props) : bool :=
  isDatarooms p || isDataroomsPlus p || customDomainInDataroom p.

Definition isCustom (d : option str) : bool :=
  match d with
  | Some ((_ :: _) as d) => negb (Str.eqb d papermark)
  | _ => false
  end.

Definition isEditingCustomDomain (p : Props) (d : Data) : bool :=
  editLink p && isCustom (domain d).

(** The right to a custom domain for the link type. *)
Definition allowed (p : Props) : bool :=
  if Str.eqb (linkType p) "DOCUMENT_LINK"
  then canUseCustomDomainForDocument p
  else canUseCustomDomainForDataroom p.

(** [data.domain ?? 'papermark.com'] *)
Definition domainOrDefault (d : Data) : str :=
  match domain d with Some x => x | None => papermark end.

(** [handleDomainChange(value)]; [newSlug] is what
    [generateRandomSlug()], made by nanoid, gives when it is called. *)
Definition handleDomainChange (p : Props) (newSlug : str) (value : str)
    (s : State) : State :=
  let canChangeCustomDomain :=
    if Str.eqb (linkType p) "DOCUMENT_LINK"
    then canUseCustomDomainForDocument p
    else canUseCustomDomainForDataroom p in
  if isEditingCustomDomain p (data s) && negb canChangeCustomDomain then
    {| data := data s; displayValue := domainOrDefault (data s);
       isModalOpen := isModalOpen s;
       isUpgradeModalOpen := isUpgradeModalOpen s |}
  else if Str.eqb value "add_domain" || Str.eqb value "add_dataroom_domain"
  then
    {| data := {| domain := Some papermark; slug := slug (data s) |};
       displayValue := papermark;
       isModalOpen := true;
       isUpgradeModalOpen := isUpgradeModalOpen s |}
  else if negb (Str.eqb value papermark) then
    if (Str.eqb (linkType p) "DOCUMENT_LINK" &&
        negb (canUseCustomDomainForDocument p)) ||
       (Str.eqb (linkType p) "DATAROOM_LINK" &&
        negb (canUseCustomDomainForDataroom p))
    then
      {| data := {| domain := Some papermark; slug := slug (data s) |};
         displayValue := papermark;
         isModalOpen := isModalOpen s;
         isUpgradeModalOpen := true |}
    else
      {| data := {| domain := Some value;
                    slug := if truthy (slug (data s)) then slug (data s)
                            else Some newSlug |};
         displayValue := value;
         isModalOpen := isModalOpen s;
         isUpgradeModalOpen := isUpgradeModalOpen s |}
  else
    {| data := {| domain := Some value; slug := slug (data s) |};
       displayValue := value;
       isModalOpen := isModalOpen s;
       isUpgradeModalOpen := isUpgradeModalOpen s |}.

(** The class [[a-zA-Z0-9-]] and the pattern [/^[a-zA-Z0-9-]+$/]. *)
Definition slugChar (c : ascii) : bool :=
  Uri.isAlpha c || Uri.isDigit c || Ascii.eqb c "-"%char.

Definition slugPattern : Regex.regex := [Regex.Group slugChar].

(** [re.test(s)] *)
Definition test (re : Regex.regex) (s : str) : bool :=
  match Regex.exec re s with Some _ => true | None => false end.

Section Slug.

(** [BLOCKED_PATHNAMES] of lib/constants. *)
Variable BLOCKED_PATHNAMES : list str.

Definition isBlocked (slug : str) : bool :=
  Str.includes BLOCKED_PATHNAMES ("/" +++ slug).

Definition isSlugInvalid (d : Data) : bool :=
  match slug d with
  | Some ((_ :: _) as slug) => negb (test slugPattern slug) || isBlocked slug
  | _ => false
  end.

Definition isDisabled (p : Props) (d : Data) : bool :=
  if Str.eqb (linkType p) "DOCUMENT_LINK"
  then isEditingCustomDomain p d && negb (canUseCustomDomainForDocument p)
  else isEditingCustomDomain p d && negb (canUseCustomDomainForDataroom p).

(** [onChange] of the slug input: the text typed, with every character
    outside the class removed, becomes the slug; the custom validity
    message is the second component. *)
Definition onSlugChange (p : Props) (text : str) (s : State)
    : State * option str :=
  if isDisabled p (data s) then (s, None)
  else
    let currentValue := filter slugChar text in
    ({| data := {| domain := domain (data s); slug := Some currentValue |};
        displayValue := displayValue s;
        isModalOpen := isModalOpen s;
        isUpgradeModalOpen := isUpgradeModalOpen s |},
     Some (if isBlocked currentValue
           then lit "This pathname is blocked. Please choose another one."
           else lit "")).

End Slug.
End DomainSection.

(* ================================================================== *)
(** ** Storing a converted file, and the CAD and Keynote tasks *)
(* ================================================================== *)

Module Stored.
Local Open Scope fx_scope.
Local Open Scope Z_scope.

(** A pattern that is not anchored: matched at the start of the text,
    whatever follows, and searched from left to right. *)
Fixpoint lookingAt (re : Regex.regex) {struct re}
    : str -> option (list str) :=
  match re with
  | [] => fun _ => Some []
  | Regex.Lit l :: re' => fun s =>
      match Str.stripPrefix l s with
      | Some rest => lookingAt re' rest
      | None => None
      end
  | Regex.Group cls :: re' => fun s =>
      match Regex.plus cls (lookingAt re') s with
      | Some (cap, caps) => Some (cap :: caps)
      | None => None
      end
  end.

Fixpoint search (re : Regex.regex) (s : str) : option (list str) :=
  match lookingAt re s with
  | Some caps => Some caps
  | None => match s with [] => None | _ :: r => search re r end
  end.

Definition notSlash (c : ascii) : bool := negb (Ascii.eqb c "/"%char).

(** [/(doc_[^\/]+)\//]: the group is [doc_] and the run that follows
    it. *)
Definition docIdRe : Regex.regex :=
  [Regex.Lit "doc_"; Regex.Group notSlash; Regex.Lit "/"].

(** [match ? match[1] : undefined] *)
Definition docIdOf (originalFile : str) : option str :=
  match search docIdRe originalFile with
  | Some m => Some ("doc_" +++ Presign.group m 1)
  | None => None
  end.

(** What [putFileServer] answers. *)
Record Put := { putType : option str; putData : option str }.

Inductive call :=
| Status (progress : Z) (text : str)
| ConsoleLog (label : str)
| LogError (message : str)
| LogInfo (message : str)
| ConvertApi (engine : str) (inputFormat : str)
| PutFile (name type : str) (teamId : str) (docId : option str)
| UpdateVersion (documentVersionId file storageType : str)
| TriggerPdfToImage (payload : list (str * str)) (idempotencyKey : str)
                    (tags : list str).

Definition isRecord (c : call) : bool :=
  match c with
  | UpdateVersion _ _ _ | TriggerPdfToImage _ _ _ => true
  | _ => false
  end.

Definition isPut (c : call) : bool :=
  match c with PutFile _ _ _ _ => true | _ => false end.

(** The three tasks that end by storing a PDF. *)
Inductive kind := Office | Cad | Keynote.

Definition whenOffice (k : kind) (c : call) : Fx.T call unit :=
  match k with Office => Fx.emit c | _ => Fx.ret tt end.

Section Save.

Variable putFileServer : str -> str -> str -> option str -> result Put.
(** [prisma.documentVersion.update]: the version number it selects. *)
Variable documentVersion_update : str -> str -> str -> result Z.
Variable trigger : list (str * str) -> str -> list str -> result unit.

(** The end of the three tasks, from the converted bytes on. *)
Definition save (k : kind) (payload : Convert.ConvertPayload)
    (documentName originalFile : str) (conversionBuffer : str)
    : Fx.T call unit :=
  whenOffice k (ConsoleLog "conversionBuffer") ;;
  let docId := docIdOf originalFile in
  whenOffice k (Status 30 "Saving converted file...") ;;
  Fx.emit (PutFile (documentName +++ ".pdf") "application/pdf"
                   (Convert.teamId payload) docId) ;;
  do put <- Fx.lift (putFileServer (documentName +++ ".pdf") conversionBuffer
                       (Convert.teamId payload) docId) ;
  match putData put, putType put with
  | Some ((_ :: _) as data), Some ((_ :: _) as storageType) =>
      Fx.emit (ConsoleLog "data from conversion") ;;
      Fx.emit (ConsoleLog "storageType from conversion") ;;
      Fx.emit (UpdateVersion (Convert.documentVersionId payload) data
                             storageType) ;;
      do versionNumber <-
        Fx.lift (documentVersion_update (Convert.documentVersionId payload)
                                        data storageType) ;
      whenOffice k (Status 40 "Initiating document processing...") ;;
      let taskPayload :=
        [("documentId" : str, Convert.documentId payload);
         ("documentVersionId" : str, Convert.documentVersionId payload);
         ("teamId" : str, Convert.teamId payload)] ++
        match k with
        | Office => [("versionNumber" : str, Num.toString versionNumber)]
        | _ => []
        end in
      let idempotencyKey :=
        Convert.teamId payload +++ "-" +++ Convert.documentVersionId payload in
      let tags :=
        [ "team_" +++ Convert.teamId payload;
          "document_" +++ Convert.documentId payload;
          "version:" +++ Convert.documentVersionId payload ] in
      Fx.emit (TriggerPdfToImage taskPayload idempotencyKey tags) ;;
      do _ <- Fx.lift (trigger taskPayload idempotencyKey tags) ;
      Fx.emit (LogInfo (match k with
                        | Keynote => "Keynote document converted"
                        | _ => "Document converted"
                        end))
  | _, _ =>
      whenOffice k (Status 0 "Failed to save converted file") ;;
      Fx.emit (LogError "Failed to save converted file to database")
  end.

Variable team_findUnique : str -> result (option unit).
Variable document_findUnique :
  Convert.ConvertPayload -> result (option Convert.Document).
Variable getFile : str -> str -> result str.
Variable getExtensionFromContentType : str -> str.
(** [retry.fetch] of the conversion API, with its retries. *)
Variable convertApi : str -> str -> str -> str -> result Convert.Response.

Definition engineOf (k : kind) : str :=
  match k with Keynote => "iwork" | _ => "cadconverter" end.

(** [run] of [convertCadToPdfTask] and of [convertKeynoteToPdfTask]. *)
Definition convertWithApi (k : kind) (payload : Convert.ConvertPayload)
    : Fx.T call unit :=
  do team <- Fx.lift (team_findUnique (Convert.teamId payload)) ;
  match team with
  | None => Fx.emit (LogError "Team not found")
  | Some _ =>
  do document <- Fx.lift (document_findUnique payload) ;
  match document with
  | Some {| Convert.name := docName;
            Convert.versions :=
              {| Convert.originalFile := Some ((_ :: _) as original);
                 Convert.contentType := Some ((_ :: _) as contentType);
                 Convert.storageType := storage |} :: _ |} =>
      do fileUrl <- Fx.lift (getFile original storage) ;
      let inputFormat := getExtensionFromContentType contentType in
      Fx.emit (ConvertApi (engineOf k) inputFormat) ;;
      do conversionResponse <-
        Fx.lift (convertApi (engineOf k) fileUrl docName inputFormat) ;
      if negb (Convert.ok conversionResponse) then
        do message <- Fx.lift (Convert.jsonMessage conversionResponse) ;
        Fx.throw (Err ("Conversion failed: "
                       +++ match message with
                           | Some m => m
                           | None => "undefined"
                           end
                       +++ " "
                       +++ Num.toString (Convert.status conversionResponse)))
      else
        do conversionBuffer <-
          Fx.lift (Convert.bytes conversionResponse) ;
        save k payload docName original conversionBuffer
  | _ => Fx.emit (LogError "Document not found")
  end
  end.

Definition convertCadToPdfTask := convertWithApi Cad.
Definition convertKeynoteToPdfTask := convertWithApi Keynote.

End Save.
End Stored.

(* ================================================================== *)
(** ** What is looked for in a run *)
(* ================================================================== *)

Module Observe.

(** The characters of an encoded component: unreserved ones and the
    [%XX] escapes. *)
Definition encodedChar (c : ascii) : bool :=
  Uri.unreserved c || Ascii.eqb c "%"%char.

(** The events that touch the temporary files of the DOCX branch. *)
Definition isUnlink (ev : event) : bool :=
  match ev with Unlink _ => true | _ => false end.

Definition isTempFile (ev : event) : bool :=
  match ev with
  | FetchFile _ | WriteFile _ | RunSanitizer _ _ | Unlink _ => true
  | _ => false
  end.

(** The response the task makes up when the request itself fails. *)
Definition unreachable : Convert.Response :=
  {| Convert.ok := false; Convert.status := 504;
     Convert.statusText := "Conversion timed out or unreachable";
     Convert.contentTypeHeader := None;
     Convert.jsonMessage := Throw (mkError "SyntaxError"
                                   "Unexpected end of JSON input");
     Convert.bytes := Ok [] |}.

(** A document the task cannot convert: not found, without a version,
    or whose first version lacks its original file or content type. *)
Definition incomplete (document : option Convert.Document) : Prop :=
  match document with
  | None => True
  | Some doc =>
      match Convert.versions doc with
      | [] => True
      | version :: _ =>
          truthy (Convert.originalFile version) = false \/
          truthy (Convert.contentType version) = false
      end
  end.

(** The status of an answer of the download-batch endpoint. *)
Definition code {Number} (r : Batch.response Number) : Z :=
  match r with Batch.End c _ => c | Batch.Json c _ => c end.

End Observe.

(* ================================================================== *)
(** ** More sample data *)
(* ================================================================== *)

Module SampleTaskAdmin.
Import Notify.

(** A team whose ADMIN has an address, with a MANAGER in copy. *)
Definition members : list TeamUser :=
  [ {| role := MANAGER; email := Some (lit "manager@example.com") |};
    {| role := ADMIN; email := Some (lit "admin@example.com") |} ].

Definition members0 (team : str) : result (list TeamUser) := Ok members.

(** A database that cannot be reached. *)
Definition lostUploads (p : UploadNotificationPayload) (since : Z)
    : result (list Upload) := Throw (Err "connection lost").

End SampleTaskAdmin.


Module SampleUpload.
Import Upload.

(** A visitor of link1 uploads a sheet into room1; the link has its own
    upload folder, and the request names another one. *)
Definition data0 : DocumentData :=
  {| supportedFileType := "sheet";
     dataContentType := "application/vnd.ms-excel" |}.

Definition body0 : Body :=
  {| documentData := Some data0;
     dataroomId := Some (lit "room1");
     folderId := Some (lit "folder-of-the-request") |}.

Definition session0 : DataroomSession :=
  {| viewerId := Some (lit "viewer1"); viewId := "view1" |}.

Definition link0 : Link :=
  {| linkId := "link1"; enableUpload := true; enableNotification := true;
     uploadFolderId := Some (lit "folder-of-the-link");
     linkDataroomId := Some (lit "room1");
     teamId := Some (lit "team1");
     team := Some {| plan := "datarooms"; enableExcelAdvancedMode := false |}
  |}.

Definition document0 : Document :=
  {| documentId := "doc9"; documentName := "budget.xlsx";
     fileSizes := [2048%Z]; numPages := None;
     documentContentType := Some (lit "application/vnd.ms-excel") |}.

Definition json0 : result (option Body) := Ok (Some body0).
Definition verify0 (link room : str) : result (option DataroomSession) :=
  Ok (Some session0).
Definition findLink0 (link room : str) : result (option Link) :=
  Ok (Some link0).
Definition findViewer0 (viewer team view : str) : result (option unit) :=
  Ok (Some tt).
Definition excel0 (contentType : str) : bool := true.
Definition process0 (args : ProcessArgs) : result Document := Ok document0.
Definition findFolder0 (folder room : str) : result (option str) :=
  Ok (Some (lit "folder-of-the-link")).
Definition createDocument0 (room document : str) (folder : option str)
    : result str := Ok (lit "dd1").
Definition createUpload0 (d : Document) (viewer view link room dd team : str)
    : result unit := Ok tt.

(** A scheduler that cannot be reached. *)
Definition noScheduler (q : Debounce.ListQuery)
    : result (list Debounce.Run) :=
  Throw (mkError "ApiError" "Connection error.").

Definition run0 : Fx.T call response :=
  POST json0 verify0 findLink0 findViewer0 excel0 process0 findFolder0
       createDocument0 createUpload0 noScheduler SampleRuns.cancelling
       "link1" 0.

End SampleUpload.


Module SampleMail.
Import Mailer.

(** A request of the task for two uploaded documents, and a mail
    service that refuses every message. *)
Definition body0 : Body :=
  {| dataroomId := "room1"; dataroomName := "Series A";
     uploaderEmail := Some (lit "viewer@example.com");
     documentNames := Some [lit "a.pdf"; lit "b.pdf"];
     linkName := "Link #link1"; ownerEmail := "admin@example.com";
     teamMembers := Some [lit "manager@example.com"] |}.

Definition template0 (room name : str) (uploader : option str)
    (names : list str) (link : str) : list str := names.

Definition refusing (email : Email (list str)) : result unit :=
  Throw (Err "Missing API key").

End SampleMail.


Module SampleJackson.
Import Jackson.

(** A connection string whose provider wrote [system] for two of the
    certificate parameters, once as a second value. *)
Definition raw : str :=
  "postgres://db.example/app?sslmode=require&sslcert=SYSTEM&sslkey=/k.pem&sslkey=system".

Definition parsed : URL :=
  {| origin := "postgres://db.example/app";
     searchParams :=
       [ ("sslmode" : str, "require" : str); ("sslcert" : str, "SYSTEM" : str);
         ("sslkey" : str, "/k.pem" : str); ("sslkey" : str, "system" : str) ]
  |}.

Definition parse (s : str) : result URL :=
  if Str.eqb s raw then Ok parsed
  else Throw (mkError "TypeError" "Invalid URL").

Definition lowerChar (c : ascii) : ascii :=
  if Uri.inRange 65 90 c then ascii_of_N (Uri.code c + 32) else c.

Definition lower (s : str) : str := map lowerChar s.

Definition pairText (p : str * str) : str := fst p +++ "=" +++ snd p.

Definition serialise (u : URL) : str :=
  match searchParams u with
  | [] => origin u
  | ps => origin u +++ "?" +++ Str.join "&" (map pairText ps)
  end.

End SampleJackson.


Module SampleStored.
Import Stored.

(** A store that answers without a file, and the API refusing a
    drawing without saying why. *)
Definition put0 (name buffer team : str) (docId : option str)
    : result Put := Ok {| putType := None; putData := None |}.
Definition update0 (version file storage : str) : result Z := Ok 1%Z.
Definition trigger0 (payload : list (str * str)) (key : str)
    (tags : list str) : result unit := Ok tt.

Definition drawing : Convert.Version :=
  {| Convert.originalFile := Some (lit "team1/doc_7/plan.dwg");
     Convert.contentType := Some (lit "image/vnd.dwg");
     Convert.storageType := "S3_PATH" |}.

Definition findDrawing (p : Convert.ConvertPayload)
    : result (option Convert.Document) :=
  Ok (Some {| Convert.name := "plan"; Convert.versions := [drawing] |}).

Definition extension (contentType : str) : str := "dwg".

Definition refusal : Convert.Response :=
  {| Convert.ok := false; Convert.status := 422;
     Convert.statusText := "Unprocessable Entity";
     Convert.contentTypeHeader := None;
     Convert.jsonMessage := Ok None; Convert.bytes := Ok [] |}.

Definition api0 (engine url name format : str) : result Convert.Response :=
  Ok refusal.

End SampleStored.

(* ================================================================== *)
(** * Properties *)
(* ================================================================== *)

(** ** The platform's primitives on sample inputs *)

Module Primitives.
Import Presign.

Example split_keeps_empty_parts :
  Str.split "/" "a/b//c" = [lit "a"; lit "b"; lit ""; lit "c"] /\
  Str.split "/" "" = [lit ""].
Proof. split; reflexivity. Qed.

Example join_inverts_split :
  Str.join "/" (Str.split "/" "exports/2024/x.zip") = "exports/2024/x.zip".
Proof. reflexivity. Qed.

Example parseInt_reads_a_prefix :
  Num.parseInt "  12px" = Some 12%Z /\ Num.parseInt "1.5" = Some 1%Z /\
  Num.parseInt "-3" = Some (-3)%Z /\ Num.parseInt "-0" = Some 0%Z /\
  Num.parseInt "abc" = None /\ Num.parseInt "" = None /\
  Num.parseInt "- 1" = None.
Proof. repeat split; reflexivity. Qed.

Example decodeURIComponent_samples :
  Uri.decodeURIComponent "a%20b%2Fc" = Some (lit "a b/c") /\
  Uri.decodeURIComponent "%C3%A9" = Some [ascii_of_nat 195; ascii_of_nat 169] /\
  Uri.decodeURIComponent "100%" = None /\
  Uri.decodeURIComponent "%C3" = None /\
  Uri.decodeURIComponent "%ZZ" = None.
Proof. repeat split; reflexivity. Qed.

Example encodeURIComponent_samples :
  Uri.encodeURIComponent "a b/c.zip" = "a%20b%2Fc.zip" /\
  Uri.encodeURIComponent "-_.!~*'()" = "-_.!~*'()".
Proof. split; reflexivity. Qed.

Example exec_is_greedy :
  Regex.exec virtualRe "a.s3.b.s3.eu-west-1.amazonaws.com"
  = Some [lit "a.s3.b"; lit "eu-west-1"] /\
  Regex.exec pathStyleRe "s3.eu-west-1.amazonaws.com"
  = Some [lit "eu-west-1"] /\
  Regex.exec pathStyleRe "s3.amazonaws.com" = None /\
  Regex.exec virtualNoRegionRe "bucket1.s3.amazonaws.com"
  = Some [lit "bucket1"].
Proof. repeat split; reflexivity. Qed.

Example errorString_samples :
  errorString (Err "fetch failed") = "Error: fetch failed" /\
  errorString URIError = "URIError: URI malformed".
Proof. split; reflexivity. Qed.

End Primitives.

(** ** Strings *)

Module StrFacts.
Import Str.

Lemma eqb_eq a b : eqb a b = true <-> a = b.
Proof.
  unfold eqb. destruct (list_eq_dec ascii_dec a b); split; congruence.
Qed.

Lemma eqb_refl a : eqb a a = true.
Proof. now apply eqb_eq. Qed.

Lemma eqb_neq a b : eqb a b = false <-> a <> b.
Proof.
  unfold eqb. destruct (list_eq_dec ascii_dec a b); split; congruence.
Qed.

Lemma stripPrefix_app p s : stripPrefix p (p ++ s) = Some s.
Proof.
  induction p as [|a p IH]; simpl; [reflexivity|].
  now rewrite Ascii.eqb_refl.
Qed.

Lemma stripPrefix_Some p : forall s r, stripPrefix p s = Some r -> s = p ++ r.
Proof.
  induction p as [|a p IH]; simpl; intros s r H.
  - congruence.
  - destruct s as [|b s]; [discriminate|].
    destruct (Ascii.eqb a b) eqn:E; [|discriminate].
    apply Ascii.eqb_eq in E. subst b. f_equal. now apply IH.
Qed.

Lemma endsWith_app x suffix : endsWith (x ++ suffix) suffix = true.
Proof.
  unfold endsWith. rewrite rev_app_distr. now rewrite stripPrefix_app.
Qed.

Lemma split_not_nil sep s : split sep s <> [].
Proof.
  destruct s as [|c r]; simpl; [discriminate|].
  destruct (Ascii.eqb c sep); [discriminate|].
  destruct (split sep r); discriminate.
Qed.

Lemma split_noSep sep s : noSep sep s = true -> split sep s = [s].
Proof.
  induction s as [|c r IH]; simpl; [reflexivity|].
  intros H. apply andb_true_iff in H as [Hc Hr].
  apply negb_true_iff in Hc. rewrite Hc, (IH Hr). reflexivity.
Qed.

Lemma split_app_sep sep a b :
  noSep sep a = true -> split sep (a ++ sep :: b) = a :: split sep b.
Proof.
  induction a as [|c r IH]; simpl; intros H.
  - now rewrite Ascii.eqb_refl.
  - apply andb_true_iff in H as [Hc Hr].
    apply negb_true_iff in Hc. rewrite Hc, (IH Hr). reflexivity.
Qed.

Lemma split_join sep parts :
  parts <> [] -> Forall (fun p => noSep sep p = true) parts ->
  split sep (join [sep] parts) = parts.
Proof.
  induction parts as [|p rest IH]; intros Hne Hall; [congruence|].
  inversion Hall as [|? ? Hp Hrest]; subst.
  destruct rest as [|q rest'].
  - simpl. now apply split_noSep.
  - change (join [sep] (p :: q :: rest'))
      with (p ++ sep :: join [sep] (q :: rest')).
    rewrite (split_app_sep _ _ _ Hp). f_equal. apply IH; [discriminate|exact Hrest].
Qed.

Lemma join_split sep s : join [sep] (split sep s) = s.
Proof.
  induction s as [|c r IH]; simpl; [reflexivity|].
  destruct (Ascii.eqb c sep) eqn:E.
  - apply Ascii.eqb_eq in E. subst c.
    pose proof (split_not_nil sep r) as Hne.
    destruct (split sep r) as [|h t]; [congruence|].
    change (join [sep] ([] :: h :: t)) with (sep :: join [sep] (h :: t)).
    now rewrite IH.
  - pose proof (split_not_nil sep r) as Hne.
    destruct (split sep r) as [|h t]; [congruence|].
    destruct t as [|h' t']; simpl in *; congruence.
Qed.

Lemma dots_app a b : dots (a ++ b) = dots a + dots b.
Proof. apply count_occ_app. Qed.

Lemma dots_notDot r : forallb Regex.notDot r = true -> dots r = 0.
Proof.
  induction r as [|c r IH]; simpl; [reflexivity|].
  intros H. apply andb_true_iff in H as [Hc Hr].
  unfold Regex.notDot in Hc. apply negb_true_iff in Hc.
  unfold dots in *. simpl.
  destruct (ascii_dec c "."%char) as [->|_].
  - now rewrite Ascii.eqb_refl in Hc.
  - now apply IH.
Qed.

(** Text up to the first dot decides the rest. *)
Lemma first_dot_unique a : forall a' y y',
  forallb Regex.notDot a = true -> forallb Regex.notDot a' = true ->
  a ++ "."%char :: y = a' ++ "."%char :: y' -> a = a' /\ y = y'.
Proof.
  induction a as [|c a IH]; intros [|c' a'] y y' Ha Ha' E; simpl in *.
  - injection E as ->. now split.
  - injection E as <- _. discriminate.
  - injection E as -> _. discriminate.
  - injection E as <- E.
    apply andb_true_iff in Ha as [_ Ha]. apply andb_true_iff in Ha' as [_ Ha'].
    destruct (IH _ _ _ Ha Ha' E) as [-> ->]. now split.
Qed.

Lemma forallb_rev {A} (p : A -> bool) l : forallb p (rev l) = forallb p l.
Proof.
  induction l as [|x l IH]; simpl; [reflexivity|].
  rewrite forallb_app, IH. simpl. rewrite andb_true_r. apply andb_comm.
Qed.

(** Text after the last dot decides what precedes it. *)
Lemma last_dot_unique x x' r r' :
  forallb Regex.notDot r = true -> forallb Regex.notDot r' = true ->
  x ++ "."%char :: r = x' ++ "."%char :: r' -> x = x' /\ r = r'.
Proof.
  intros Hr Hr' E.
  apply (f_equal (@rev ascii)) in E.
  rewrite !rev_app_distr in E. simpl in E. rewrite <- !app_assoc in E.
  simpl in E.
  apply first_dot_unique in E; try (rewrite forallb_rev; assumption).
  destruct E as [E1 E2].
  apply (f_equal (@rev ascii)) in E1, E2.
  rewrite !rev_involutive in E1, E2. now split.
Qed.

End StrFacts.

(** ** Regular expressions: the matcher finds a match when there is one *)

Module RegexFacts.
Import Regex.

Lemma plus_sound cls k : forall s cap caps,
  plus cls k s = Some (cap, caps) ->
  cap <> [] /\ forallb cls cap = true /\
  exists rest, s = cap ++ rest /\ k rest = Some caps.
Proof.
  induction s as [|c s IH]; simpl; intros cap caps H; [discriminate|].
  destruct (cls c) eqn:Hc; [|discriminate].
  destruct (plus cls k s) as [[cap' caps']|] eqn:Hp.
  - injection H as <- <-.
    destruct (IH _ _ eq_refl) as (_ & Hall & rest & -> & Hk).
    split; [discriminate|]. split; [simpl; now rewrite Hc|].
    exists rest. now split.
  - destruct (k s) as [caps'|] eqn:Hk; [|discriminate].
    injection H as <- <-.
    split; [discriminate|]. split; [simpl; now rewrite Hc|].
    exists s. now split.
Qed.

Lemma plus_complete cls k rest : forall cap,
  cap <> [] -> forallb cls cap = true -> k rest <> None ->
  plus cls k (cap ++ rest) <> None.
Proof.
  induction cap as [|c cap IH]; intros Hne Hall Hk; [congruence|].
  simpl in *. apply andb_true_iff in Hall as [Hc Hall]. rewrite Hc.
  destruct cap as [|c' cap'].
  - simpl. destruct (plus cls k rest) as [[? ?]|]; [discriminate|].
    destruct (k rest); [discriminate|congruence].
  - specialize (IH ltac:(discriminate) Hall Hk).
    destruct (plus cls k ((c' :: cap') ++ rest)) as [[? ?]|];
      [discriminate|congruence].
Qed.

Lemma exec_sound re : forall s caps,
  exec re s = Some caps -> Matches re s caps.
Proof.
  induction re as [|[l|cls] re IH]; simpl; intros s caps H.
  - destruct s; [|discriminate]. injection H as <-. now split.
  - destruct (Str.stripPrefix l s) as [rest|] eqn:Hp; [|discriminate].
    exists rest. split; [now apply StrFacts.stripPrefix_Some|now apply IH].
  - destruct (plus cls (exec re) s) as [[cap caps']|] eqn:Hp; [|discriminate].
    injection H as <-.
    destruct (plus_sound _ _ _ _ _ Hp) as (Hne & Hall & rest & -> & Hk).
    exists cap, caps', rest. repeat split; auto.
Qed.

Lemma exec_complete re : forall s caps,
  Matches re s caps -> exec re s <> None.
Proof.
  induction re as [|[l|cls] re IH]; simpl; intros s caps H.
  - destruct H as [-> _]. discriminate.
  - destruct H as (rest & -> & H).
    rewrite StrFacts.stripPrefix_app. now apply (IH _ caps).
  - destruct H as (cap & caps' & rest & -> & Hne & Hall & -> & H).
    pose proof (plus_complete cls (exec re) rest cap Hne Hall
                  (IH _ _ H)) as Hp.
    destruct (plus cls (exec re) (cap ++ rest)) as [[? ?]|];
      [discriminate|congruence].
Qed.

(** A pattern with one way to match yields that match, and one with no
    way to match yields [null]. *)
Lemma exec_unique re s caps :
  Matches re s caps ->
  (forall caps', Matches re s caps' -> caps' = caps) ->
  exec re s = Some caps.
Proof.
  intros Hm Hu. destruct (exec re s) as [caps'|] eqn:E.
  - f_equal. apply Hu. now apply exec_sound.
  - now apply exec_complete in Hm.
Qed.

Lemma exec_none re s :
  (forall caps, ~ Matches re s caps) -> exec re s = None.
Proof.
  intros Hn. destruct (exec re s) as [caps|] eqn:E; [|reflexivity].
  apply exec_sound in E. now apply Hn in E.
Qed.

End RegexFacts.

(** ** URI components: decoding undoes encoding *)

Module UriFacts.
Import Uri.

Lemma inRange_spec lo hi c :
  inRange lo hi c = true <-> (lo <= code c <= hi)%N.
Proof.
  unfold inRange. rewrite andb_true_iff, !N.leb_le. reflexivity.
Qed.

Lemma inRange_out lo hi c :
  (code c < lo \/ hi < code c)%N -> inRange lo hi c = false.
Proof.
  intros H. destruct (inRange lo hi c) eqn:E; [|reflexivity].
  apply inRange_spec in E. lia.
Qed.

Lemma eqb_code c d : Ascii.eqb c d = true -> code c = code d.
Proof. intros H. apply Ascii.eqb_eq in H. now subst. Qed.

Lemma unreserved_ascii c : unreserved c = true -> (code c <= 127)%N.
Proof.
  destruct c as [[] [] [] [] [] [] [] []]; intros H;
    solve [discriminate H | apply N.leb_le; reflexivity].
Qed.

Lemma itemOf_high c : (128 <= code c)%N -> itemOf c = Oct c.
Proof.
  intros H. unfold itemOf. destruct (unreserved c) eqn:E; [|reflexivity].
  apply unreserved_ascii in E. lia.
Qed.

Lemma wf2_spec b0 b1 :
  wf2 b0 b1 = true -> (194 <= code b0 <= 223 /\ 128 <= code b1 <= 191)%N.
Proof.
  unfold wf2, cont. rewrite andb_true_iff, !inRange_spec. tauto.
Qed.

Lemma wf3_spec b0 b1 b2 :
  wf3 b0 b1 b2 = true ->
  (224 <= code b0 <= 239 /\ 128 <= code b1 <= 191 /\
   128 <= code b2 <= 191)%N.
Proof.
  unfold wf3, cont.
  rewrite !orb_true_iff, !andb_true_iff, !orb_true_iff, !inRange_spec.
  intros [[[[E H1] H2]|[[H0 H1] H2]]|[[E H1] H2]];
    try (apply eqb_code in E; change (code "224") with 224%N in E;
         change (code "237") with 237%N in E); lia.
Qed.

Lemma wf4_spec b0 b1 b2 b3 :
  wf4 b0 b1 b2 b3 = true ->
  (240 <= code b0 <= 244 /\ 128 <= code b1 <= 191 /\
   128 <= code b2 <= 191 /\ 128 <= code b3 <= 191)%N.
Proof.
  unfold wf4, cont.
  rewrite !orb_true_iff, !andb_true_iff, !inRange_spec.
  intros [[[[[E H1] H2] H3]|[[[H0 H1] H2] H3]]|[[[E H1] H2] H3]];
    try (apply eqb_code in E; change (code "240") with 240%N in E;
         change (code "244") with 244%N in E); lia.
Qed.

Lemma wellFormed_sound : forall n s,
  List.length s <= n -> wellFormed s = true -> WellFormed s.
Proof.
  induction n as [|n IH]; intros s Hn H.
  - destruct s; [constructor|simpl in Hn; lia].
  - destruct s as [|b0 r0]; [constructor|]. simpl in H, Hn.
    destruct (inRange 0 127 b0) eqn:E0.
    { apply wf_ascii; [exact E0|]. apply IH; [lia|exact H]. }
    destruct r0 as [|b1 r1]; [discriminate|]. simpl in Hn.
    destruct (wf2 b0 b1) eqn:E2.
    { apply wf_two; [exact E2|]. apply IH; [lia|exact H]. }
    destruct r1 as [|b2 r2]; [discriminate|]. simpl in Hn.
    destruct (wf3 b0 b1 b2) eqn:E3.
    { apply wf_three; [exact E3|]. apply IH; [lia|exact H]. }
    destruct r2 as [|b3 r3]; [discriminate|]. simpl in Hn.
    apply andb_true_iff in H as [E4 H].
    apply wf_four; [exact E4|]. apply IH; [lia|exact H].
Qed.

Lemma wellFormed_WellFormed s : wellFormed s = true -> WellFormed s.
Proof. apply (wellFormed_sound (List.length s)). lia. Qed.

Lemma unescape_encoded_char c rest :
  unescape ((if unreserved c then [c] else escape c) ++ rest)
  = option_map (cons (itemOf c)) (unescape rest).
Proof. destruct c as [[] [] [] [] [] [] [] []]; reflexivity. Qed.

Lemma unescape_encode x : forall rest,
  unescape (encodeURIComponent x ++ rest)
  = option_map (app (map itemOf x)) (unescape rest).
Proof.
  induction x as [|c x IH]; intros rest; simpl.
  - now destruct (unescape rest).
  - rewrite <- app_assoc, unescape_encoded_char, IH.
    now destruct (unescape rest).
Qed.

Lemma assemble_items x : WellFormed x -> forall r,
  assemble (map itemOf x ++ r) = option_map (app x) (assemble r).
Proof.
  induction 1 as [|c s Hc _ IH|b0 b1 s Hb _ IH|b0 b1 b2 s Hb _ IH
                 |b0 b1 b2 b3 s Hb _ IH]; intros r.
  - simpl. now destruct (assemble r).
  - simpl. unfold itemOf at 1. destruct (unreserved c); simpl;
      rewrite ?Hc, IH; now destruct (assemble r).
  - destruct (wf2_spec _ _ Hb) as [H0 H1].
    simpl. rewrite (itemOf_high b0), (itemOf_high b1) by lia. simpl.
    rewrite (inRange_out 0 127 b0) by lia.
    rewrite (proj2 (inRange_spec 192 223 b0)) by lia.
    rewrite Hb, IH. now destruct (assemble r).
  - destruct (wf3_spec _ _ _ Hb) as (H0 & H1 & H2).
    simpl. rewrite (itemOf_high b0), (itemOf_high b1), (itemOf_high b2) by lia.
    simpl.
    rewrite (inRange_out 0 127 b0), (inRange_out 192 223 b0) by lia.
    rewrite (proj2 (inRange_spec 224 239 b0)) by lia.
    rewrite Hb, IH. now destruct (assemble r).
  - destruct (wf4_spec _ _ _ _ Hb) as (H0 & H1 & H2 & H3).
    simpl. rewrite (itemOf_high b0), (itemOf_high b1), (itemOf_high b2),
      (itemOf_high b3) by lia.
    simpl.
    rewrite (inRange_out 0 127 b0), (inRange_out 192 223 b0),
      (inRange_out 224 239 b0) by lia.
    rewrite (proj2 (inRange_spec 240 247 b0)) by lia.
    rewrite Hb, IH. now destruct (assemble r).
Qed.

Lemma decode_encoded_app x rest :
  WellFormed x ->
  decodeURIComponent (encodeURIComponent x ++ rest)
  = option_map (app x) (decodeURIComponent rest).
Proof.
  intros Hx. unfold decodeURIComponent. rewrite unescape_encode.
  destruct (unescape rest) as [items|]; simpl; [|reflexivity].
  now apply assemble_items.
Qed.

(** [decodeURIComponent(encodeURIComponent(s))] is [s]. *)
Lemma decode_encode x :
  WellFormed x -> decodeURIComponent (encodeURIComponent x) = Some x.
Proof.
  intros Hx. rewrite <- (app_nil_r (encodeURIComponent x)).
  rewrite decode_encoded_app by assumption. simpl. now rewrite app_nil_r.
Qed.

Lemma decode_slash rest :
  decodeURIComponent ("/"%char :: rest)
  = option_map (cons "/"%char) (decodeURIComponent rest).
Proof.
  unfold decodeURIComponent. simpl.
  destruct (unescape rest) as [items|]; reflexivity.
Qed.

Lemma encoded_noSlash x :
  Str.noSep "/" (encodeURIComponent x) = true.
Proof.
  induction x as [|c x IH]; [reflexivity|].
  unfold Str.noSep, encodeURIComponent in *. simpl.
  rewrite forallb_app, IH, andb_true_r.
  destruct c as [[] [] [] [] [] [] [] []]; reflexivity.
Qed.

Lemma WellFormed_split s :
  WellFormed s -> Forall WellFormed (Str.split "/" s).
Proof.
  assert (high : forall b, (128 <= code b)%N -> Ascii.eqb b "/" = false).
  { intros b Hb. destruct (Ascii.eqb b "/") eqn:E; [|reflexivity].
    apply eqb_code in E. change (code "/") with 47%N in E. lia. }
  induction 1 as [|c s Hc _ IH|b0 b1 s Hb _ IH|b0 b1 b2 s Hb _ IH
                 |b0 b1 b2 b3 s Hb _ IH].
  - repeat constructor.
  - simpl. destruct (Ascii.eqb c "/").
    + constructor; [constructor|exact IH].
    + pose proof (StrFacts.split_not_nil "/"%char s) as Hne.
      destruct (Str.split "/" s) as [|h t]; [congruence|].
      inversion IH; subst. constructor; [now apply wf_ascii|assumption].
  - destruct (wf2_spec _ _ Hb) as [H0 H1].
    simpl. rewrite !high by lia.
    pose proof (StrFacts.split_not_nil "/"%char s) as Hne.
    destruct (Str.split "/" s) as [|h t]; [congruence|].
    inversion IH; subst. constructor; [now apply wf_two|assumption].
  - destruct (wf3_spec _ _ _ Hb) as (H0 & H1 & H2).
    simpl. rewrite !high by lia.
    pose proof (StrFacts.split_not_nil "/"%char s) as Hne.
    destruct (Str.split "/" s) as [|h t]; [congruence|].
    inversion IH; subst. constructor; [now apply wf_three|assumption].
  - destruct (wf4_spec _ _ _ _ Hb) as (H0 & H1 & H2 & H3).
    simpl. rewrite !high by lia.
    pose proof (StrFacts.split_not_nil "/"%char s) as Hne.
    destruct (Str.split "/" s) as [|h t]; [congruence|].
    inversion IH; subst. constructor; [now apply wf_four|assumption].
Qed.

(** Decoding an escaped path as a whole gives the path. *)
Lemma decode_joined parts :
  Forall WellFormed parts ->
  decodeURIComponent (Str.join "/" (map encodeURIComponent parts))
  = Some (Str.join "/" parts).
Proof.
  induction parts as [|p rest IH]; intros Hall; [reflexivity|].
  inversion Hall as [|? ? Hp Hrest]; subst.
  destruct rest as [|q rest'].
  - simpl. now apply decode_encode.
  - change (Str.join "/" (map encodeURIComponent (p :: q :: rest')))
      with (encodeURIComponent p ++
            "/"%char :: Str.join "/" (map encodeURIComponent (q :: rest'))).
    rewrite decode_encoded_app by assumption.
    rewrite decode_slash, (IH Hrest). reflexivity.
Qed.

(** Decoding it segment by segment gives the segments. *)
Lemma decode_each parts :
  Forall WellFormed parts ->
  Res.mapM (fun p => orURIError (decodeURIComponent p))
           (map encodeURIComponent parts) = Ok parts.
Proof.
  induction 1 as [|p rest Hp _ IH]; [reflexivity|].
  simpl. rewrite (decode_encode _ Hp). simpl. now rewrite IH.
Qed.

End UriFacts.

(** ** Presigned URLs: parsing the supported shapes *)

Module PresignFacts.
Import Presign Regex.

Lemma pathStyle_matches (h : str) caps :
  Matches pathStyleRe h caps <->
  exists r, caps = [r] /\ r <> [] /\ forallb notDot r = true /\
            h = "s3." +++ r +++ ".amazonaws.com".
Proof.
  unfold pathStyleRe. cbn [Matches]. split.
  - intros (rest & -> & cap & caps' & rest' & -> & Hne & Hall & -> &
            rest'' & -> & -> & ->).
    exists cap. rewrite app_nil_r. auto.
  - intros (r & -> & Hne & Hall & ->).
    eexists. split; [reflexivity|].
    exists r, [], (lit ".amazonaws.com"). repeat split; auto.
    exists []. now rewrite app_nil_r.
Qed.

Lemma virtual_matches (h : str) caps :
  Matches virtualRe h caps <->
  exists b r, caps = [b; r] /\ b <> [] /\ forallb dot b = true /\
              r <> [] /\ forallb notDot r = true /\
              h = b +++ ".s3." +++ r +++ ".amazonaws.com".
Proof.
  unfold virtualRe. cbn [Matches]. split.
  - intros (b & caps1 & rest1 & -> & Hb & Hbd & -> & rest2 & -> &
            r & caps2 & rest3 & -> & Hr & Hrd & -> & rest4 & -> & -> & ->).
    exists b, r. rewrite app_nil_r. auto 10.
  - intros (b & r & -> & Hb & Hbd & Hr & Hrd & ->).
    exists b, [r], (".s3." +++ r +++ ".amazonaws.com").
    repeat split; auto.
    eexists. split; [reflexivity|].
    exists r, [], (lit ".amazonaws.com"). repeat split; auto.
    exists []. now rewrite app_nil_r.
Qed.

Lemma noRegion_matches (h : str) caps :
  Matches virtualNoRegionRe h caps <->
  exists b, caps = [b] /\ b <> [] /\ forallb dot b = true /\
            h = b +++ ".s3.amazonaws.com".
Proof.
  unfold virtualNoRegionRe. cbn [Matches]. split.
  - intros (b & caps1 & rest1 & -> & Hb & Hbd & -> & rest2 & -> & -> & ->).
    exists b. rewrite app_nil_r. auto.
  - intros (b & -> & Hb & Hbd & ->).
    exists b, [], (lit ".s3.amazonaws.com"). repeat split; auto.
    exists []. now rewrite app_nil_r.
Qed.

(** The host of a path-style URL. *)
Lemma exec_pathStyle_host (r : str) :
  r <> [] -> forallb notDot r = true ->
  exec pathStyleRe ("s3." +++ r +++ ".amazonaws.com") = Some [r].
Proof.
  intros Hne Hd. apply RegexFacts.exec_unique.
  - apply pathStyle_matches. exists r. auto.
  - intros caps' H. apply pathStyle_matches in H as (r' & -> & _ & _ & E).
    apply app_inv_head, app_inv_tail in E. now subst.
Qed.

(** The host of a virtual-hosted URL has too many dots for the
    path-style pattern. *)
Lemma exec_pathStyle_virtual (b r : str) :
  forallb notDot r = true ->
  exec pathStyleRe (b +++ ".s3." +++ r +++ ".amazonaws.com") = None.
Proof.
  intros Hd. apply RegexFacts.exec_none. intros caps H.
  apply pathStyle_matches in H as (r' & -> & _ & Hd' & E).
  apply (f_equal Str.dots) in E.
  rewrite !StrFacts.dots_app in E.
  rewrite (StrFacts.dots_notDot _ Hd), (StrFacts.dots_notDot _ Hd') in E.
  change (Str.dots ".s3.") with 2 in E.
  change (Str.dots "s3.") with 1 in E.
  change (Str.dots ".amazonaws.com") with 2 in E. lia.
Qed.

Lemma exec_virtual_host (b r : str) :
  b <> [] -> forallb dot b = true -> r <> [] -> forallb notDot r = true ->
  exec virtualRe (b +++ ".s3." +++ r +++ ".amazonaws.com") = Some [b; r].
Proof.
  intros Hb Hbd Hr Hrd. apply RegexFacts.exec_unique.
  - apply virtual_matches. exists b, r. auto 10.
  - intros caps' H.
    apply virtual_matches in H as (b' & r' & -> & _ & _ & _ & Hrd' & E).
    rewrite !app_assoc in E. apply app_inv_tail in E.
    change (lit ".s3.") with (lit ".s3" ++ ["."%char]) in E.
    rewrite !app_assoc in E. rewrite <- !(app_assoc _ ["."%char]) in E.
    simpl in E.
    apply StrFacts.last_dot_unique in E as [E ->]; auto.
    apply app_inv_tail in E. now subst.
Qed.

Lemma exec_pathStyle_noRegion (b : str) :
  b <> "s3" -> exec pathStyleRe (b +++ ".s3.amazonaws.com") = None.
Proof.
  intros Hb. apply RegexFacts.exec_none. intros caps H.
  apply pathStyle_matches in H as (r' & -> & _ & Hd' & E).
  change (lit ".s3.amazonaws.com") with (lit ".s3" ++ lit ".amazonaws.com") in E.
  rewrite !app_assoc in E. apply app_inv_tail in E.
  change (b ++ lit ".s3") with (b ++ "."%char :: lit "s3") in E.
  change (lit "s3." ++ r') with (lit "s3" ++ "."%char :: r') in E.
  apply StrFacts.last_dot_unique in E as [E _]; auto.
Qed.

Lemma exec_virtual_noRegion (b : str) :
  Str.endsWith b ".s3" = false ->
  exec virtualRe (b +++ ".s3.amazonaws.com") = None.
Proof.
  intros Hb. apply RegexFacts.exec_none. intros caps H.
  apply virtual_matches in H as (b' & r' & -> & _ & _ & _ & Hrd' & E).
  change (lit ".s3.amazonaws.com") with (lit ".s3" ++ lit ".amazonaws.com") in E.
  rewrite !app_assoc in E. apply app_inv_tail in E.
  change (b ++ lit ".s3") with (b ++ "."%char :: lit "s3") in E.
  change (lit ".s3.") with (lit ".s3" ++ ["."%char]) in E.
  rewrite !app_assoc in E. rewrite <- !(app_assoc _ ["."%char]) in E.
  simpl in E.
  apply StrFacts.last_dot_unique in E as [E _]; auto.
  subst b. now rewrite StrFacts.endsWith_app in Hb.
Qed.

Lemma exec_noRegion_host (b : str) :
  b <> [] -> forallb dot b = true ->
  exec virtualNoRegionRe (b +++ ".s3.amazonaws.com") = Some [b].
Proof.
  intros Hb Hbd. apply RegexFacts.exec_unique.
  - apply noRegion_matches. exists b. auto.
  - intros caps' H. apply noRegion_matches in H as (b' & -> & _ & _ & E).
    apply app_inv_tail in E. now subst.
Qed.

Lemma split_encoded_path (bkt k : str) :
  Str.split "/" (Uri.encodeURIComponent bkt +++ "/" +++ encodePath k)
  = Uri.encodeURIComponent bkt ::
    map Uri.encodeURIComponent (Str.split "/" k).
Proof.
  change (lit "/" ++ encodePath k) with ("/"%char :: encodePath k).
  rewrite StrFacts.split_app_sep by apply UriFacts.encoded_noSlash.
  f_equal. unfold encodePath.
  change (lit "/") with ["/"%char].
  apply StrFacts.split_join.
  - pose proof (StrFacts.split_not_nil "/"%char k).
    destruct (Str.split "/" k); [congruence|discriminate].
  - apply Forall_forall. intros p Hp. apply in_map_iff in Hp as (q & <- & _).
    apply UriFacts.encoded_noSlash.
Qed.

Section Shapes.

Variable new_URL : str -> result URL.
Variable href : str.
Variable ref : S3KeyInfo.

Hypothesis bucket_wf : Uri.wellFormed (bucket ref) = true.
Hypothesis key_wf : Uri.wellFormed (key ref) = true.

Lemma parse_pathStyle :
  region ref <> [] -> forallb notDot (region ref) = true ->
  new_URL href = Ok (pathStyle ref) ->
  parseS3PresignedUrl new_URL href = Ok ref.
Proof.
  intros Hr Hrd Hu. unfold parseS3PresignedUrl. rewrite Hu. cbn [Res.bind].
  unfold pathStyle at 1. cbn [hostname].
  rewrite (exec_pathStyle_host _ Hr Hrd).
  unfold pathStyle. cbn [pathname]. unfold Str.slice1.
  change (tl (lit "/" +++ Uri.encodeURIComponent (bucket ref) +++
              "/" +++ encodePath (key ref)))
    with (Uri.encodeURIComponent (bucket ref) +++ "/" +++
          encodePath (key ref)).
  rewrite split_encoded_path. cbn [hd tl].
  rewrite UriFacts.decode_encode
    by now apply UriFacts.wellFormed_WellFormed.
  cbn [orURIError Res.bind].
  rewrite UriFacts.decode_each
    by now apply UriFacts.WellFormed_split, UriFacts.wellFormed_WellFormed.
  cbn [Res.bind]. change (lit "/") with ["/"%char].
  rewrite StrFacts.join_split. now destruct ref.
Qed.

Lemma decode_object_path :
  Uri.decodeURIComponent (Str.slice1 ("/" +++ encodePath (key ref)))
  = Some (key ref).
Proof.
  change (Str.slice1 ("/" +++ encodePath (key ref)))
    with (encodePath (key ref)).
  unfold encodePath. rewrite UriFacts.decode_joined
    by now apply UriFacts.WellFormed_split, UriFacts.wellFormed_WellFormed.
  change (lit "/") with ["/"%char]. now rewrite StrFacts.join_split.
Qed.

Lemma parse_virtualHosted :
  region ref <> [] -> forallb notDot (region ref) = true ->
  bucket ref <> [] -> forallb dot (bucket ref) = true ->
  new_URL href = Ok (virtualHosted ref) ->
  parseS3PresignedUrl new_URL href = Ok ref.
Proof.
  intros Hr Hrd Hb Hbd Hu. unfold parseS3PresignedUrl. rewrite Hu.
  cbn [Res.bind]. unfold virtualHosted. cbn [hostname pathname].
  rewrite (exec_pathStyle_virtual _ _ Hrd).
  rewrite (exec_virtual_host _ _ Hb Hbd Hr Hrd).
  rewrite decode_object_path. cbn. now destruct ref.
Qed.

Lemma parse_virtualHostedNoRegion :
  bucket ref <> [] -> forallb dot (bucket ref) = true ->
  bucket ref <> "s3" -> Str.endsWith (bucket ref) ".s3" = false ->
  new_URL href = Ok (virtualHostedNoRegion ref) ->
  parseS3PresignedUrl new_URL href =
  Ok {| bucket := bucket ref; key := key ref; region := "us-east-1" |}.
Proof.
  intros Hb Hbd Hs3 Hend Hu. unfold parseS3PresignedUrl. rewrite Hu.
  cbn [Res.bind]. unfold virtualHostedNoRegion. cbn [hostname pathname].
  rewrite (exec_pathStyle_noRegion _ Hs3).
  rewrite (exec_virtual_noRegion _ Hend).
  rewrite (exec_noRegion_host _ Hb Hbd).
  rewrite decode_object_path. reflexivity.
Qed.

End Shapes.

End PresignFacts.

(** ** C1: parsing the supported URL shapes *)

Module C1.
Import Presign Regex.




End C1.

(** ** Effects *)

Module EffFacts.

Lemma outcome_bind {A B} (m : M A) (f : A -> M B) :
  Eff.outcome (Eff.bind m f) =
  match Eff.outcome m with
  | Ok a => Eff.outcome (f a)
  | Throw e => Throw e
  end.
Proof.
  destruct m as [t [a|e]]; simpl; [|reflexivity]. now destruct (f a).
Qed.

Lemma trace_bind {A B} (m : M A) (f : A -> M B) :
  Eff.trace (Eff.bind m f) =
  match Eff.outcome m with
  | Ok a => Eff.trace m ++ Eff.trace (f a)
  | Throw e => Eff.trace m
  end.
Proof.
  destruct m as [t [a|e]]; simpl; [|reflexivity]. now destruct (f a).
Qed.

Lemma outcome_tryCatch {A} (m : M A) (h : error -> M A) :
  Eff.outcome (Eff.tryCatch m h) =
  match Eff.outcome m with
  | Ok a => Ok a
  | Throw e => Eff.outcome (h e)
  end.
Proof.
  destruct m as [t [a|e]]; simpl; [reflexivity|]. now destruct (h e).
Qed.

Lemma trace_tryCatch {A} (m : M A) (h : error -> M A) :
  Eff.trace (Eff.tryCatch m h) =
  match Eff.outcome m with
  | Ok a => Eff.trace m
  | Throw e => Eff.trace m ++ Eff.trace (h e)
  end.
Proof.
  destruct m as [t [a|e]]; simpl; [reflexivity|]. now destruct (h e).
Qed.

Lemma eta {A} (m : M A) : m = (Eff.trace m, Eff.outcome m).
Proof. now destruct m. Qed.

Lemma bind_ok {A B} (a : A) (f : A -> M B) :
  Eff.bind (Eff.lift (Ok a)) f = f a.
Proof. unfold Eff.bind, Eff.lift. now destruct (f a). Qed.

Lemma bind_throw {A B} (e : error) (f : A -> M B) :
  Eff.bind (Eff.lift (Throw e)) f = ([], Throw e).
Proof. reflexivity. Qed.

Lemma bind_ret {A B} (a : A) (f : A -> M B) :
  Eff.bind (Eff.ret a) f = f a.
Proof. unfold Eff.bind, Eff.ret. now destruct (f a). Qed.

Lemma bind_emit {B} (ev : event) (f : unit -> M B) :
  Eff.bind (Eff.emit ev) f = (ev :: Eff.trace (f tt), Eff.outcome (f tt)).
Proof. unfold Eff.bind, Eff.emit. now destruct (f tt). Qed.

(** [Promise.all] resolves exactly when every call does. *)
Lemma all_ok {A B} (f : A -> M B) xs ys :
  Eff.outcome (Eff.all f xs) = Ok ys <->
  Forall2 (fun x y => Eff.outcome (f x) = Ok y) xs ys.
Proof.
  revert ys. induction xs as [|x xs IH]; intros ys; simpl.
  - split.
    + intros H. injection H as <-. constructor.
    + intros H. now inversion H.
  - destruct (f x) as [t1 r1] eqn:Ef.
    destruct (Eff.all f xs) as [t2 r2] eqn:Ea. simpl in *.
    split.
    + intros H. destruct r1 as [y|e]; [|discriminate].
      destruct r2 as [ys'|e]; [|discriminate].
      injection H as <-. constructor; [now rewrite Ef|]. now apply IH.
    + intros H. inversion H as [|? y ? ys' Hy Hys]; subst.
      rewrite Ef in Hy. simpl in Hy. subst r1. apply IH in Hys. now subst r2.
Qed.

Lemma all_throws {A B} (f : A -> M B) xs :
  (exists x e, In x xs /\ Eff.outcome (f x) = Throw e) ->
  exists e, Eff.outcome (Eff.all f xs) = Throw e.
Proof.
  induction xs as [|x xs IH]; intros (x0 & e & Hin & Hx); [destruct Hin|].
  simpl. destruct (f x) as [t1 r1] eqn:Ef.
  destruct (Eff.all f xs) as [t2 r2] eqn:Ea. simpl in *.
  destruct r1 as [y|e1]; [|now exists e1].
  destruct Hin as [->|Hin].
  - rewrite Ef in Hx. discriminate.
  - destruct IH as [e2 He2]; [now exists x0, e|]. subst r2. now exists e2.
Qed.

(** Every call of a [Promise.all] leaves its events in the trace. *)
Lemma all_trace {A B} (f : A -> M B) xs :
  Eff.trace (Eff.all f xs) = flat_map (fun x => Eff.trace (f x)) xs.
Proof.
  induction xs as [|x xs IH]; [reflexivity|].
  simpl. destruct (f x) as [t1 r1]. destruct (Eff.all f xs) as [t2 r2].
  simpl in *. now rewrite IH.
Qed.

End EffFacts.

(** ** Download jobs *)

Module JobsFacts.
Import Presign Jobs.
Local Open Scope Z_scope.

Lemma isUserJob_spec user now job :
  isUserJob user now job = true <->
  userId job = Some user /\ VisibleToOwner now job.
Proof.
  unfold isUserJob, VisibleToOwner.
  destruct (userId job) as [u|]; [|split; [discriminate|intros [H _]; discriminate]].
  destruct (Str.eqb u user) eqn:E.
  - apply StrFacts.eqb_eq in E. subst u.
    destruct (status job); simpl.
    + intuition.
    + intuition.
    + destruct (expiresAt job) as [e|].
      * rewrite Z.ltb_lt. split.
        -- intros H. split; [reflexivity|]. right. right. left.
           split; [reflexivity|]. now exists e.
        -- intros [_ [H|[H|[[_ (e' & He & H)]|[H _]]]]]; try discriminate.
           injection He as <-. exact H.
      * split; [discriminate|].
        intros [_ [H|[H|[[_ (e' & He & H)]|[H _]]]]]; discriminate.
    + rewrite Z.ltb_lt. split.
      * intros H. split; [reflexivity|]. right. right. right.
        split; [reflexivity|lia].
      * intros [_ [H|[H|[[H _]|[_ H]]]]]; try discriminate. lia.
  - apply StrFacts.eqb_neq in E. split; [discriminate|].
    intros [H _]. congruence.
Qed.

Lemma filterAt_In {A} (p : Z -> A -> bool) clock xs : forall i x,
  In x (filterAt p clock i xs) <->
  exists n, nth_error xs n = Some x /\ p (clock (i + n)%nat) x = true.
Proof.
  induction xs as [|y xs IH]; intros i x; simpl.
  - split; [intros []|]. intros ([|n] & H & _); discriminate.
  - destruct (p (clock i) y) eqn:Hp; simpl; rewrite IH; split.
    + intros [->|(n & Hn & Hx)].
      * exists 0%nat. rewrite Nat.add_0_r. now split.
      * exists (S n). rewrite Nat.add_succ_r. now split.
    + intros ([|n] & Hn & Hx); simpl in Hn.
      * left. congruence.
      * right. exists n. rewrite Nat.add_succ_r in Hx. now split.
    + intros (n & Hn & Hx). exists (S n). rewrite Nat.add_succ_r. now split.
    + intros ([|n] & Hn & Hx); simpl in Hn.
      * injection Hn as ->. rewrite Nat.add_0_r in Hx. congruence.
      * exists n. rewrite Nat.add_succ_r in Hx. now split.
Qed.

Lemma userJobs_In user clock jobs job :
  In job (userJobs user clock jobs) <->
  exists n, nth_error jobs n = Some job /\
            userId job = Some user /\ VisibleToOwner (clock n) job.
Proof.
  unfold userJobs. rewrite filterAt_In.
  split; intros (n & Hn & H); exists n; (split; [exact Hn|]);
    simpl in *; now apply isUserJob_spec.
Qed.

Section Handlers.

Variable getTeamStorageConfigById : str -> result Mint.StorageConfig.
Variable getSignedUrl :
  Mint.S3Client -> Mint.GetObjectCommand -> Z -> result str.

#[local] Abbreviation mint :=
  (generateFreshPresignedUrl getTeamStorageConfigById getSignedUrl).
#[local] Abbreviation refresh :=
  (Jobs.refresh getTeamStorageConfigById getSignedUrl).

(** Re-signing never fails the listing: it answers the job with fresh
    URLs, or the job as stored. *)
Lemma refresh_outcome team job :
  Eff.outcome (refresh team job) = Ok job \/
  exists urls, Eff.outcome (refresh team job) = Ok (withDownloadUrls job urls).
Proof.
  unfold Jobs.refresh.
  destruct (statusEq (status job) COMPLETED && nonEmpty (downloadS3Keys job)
            && nonEmpty (downloadUrls job)); [|now left].
  rewrite EffFacts.outcome_tryCatch, EffFacts.outcome_bind.
  destruct (Eff.outcome (Eff.all _ _)) as [urls|e]; [right|left].
  - now exists urls.
  - reflexivity.
Qed.

Lemma refresh_sameJob team job job' :
  Eff.outcome (refresh team job) = Ok job' -> sameJob job job'.
Proof.
  intros H. destruct (refresh_outcome team job) as [E|[urls E]];
    rewrite E in H; injection H as <-; repeat split.
Qed.

Lemma refresh_all team jobs :
  exists js, Eff.outcome (Eff.all (refresh team) jobs) = Ok js /\
             Forall2 sameJob jobs js.
Proof.
  induction jobs as [|j jobs (js & Hjs & Hall)].
  - exists []. split; [reflexivity|constructor].
  - destruct (refresh_outcome team j) as [E|[urls E]].
    + exists (j :: js). split.
      * apply EffFacts.all_ok. constructor; [exact E|].
        now apply EffFacts.all_ok.
      * constructor; [repeat split|exact Hall].
    + exists (withDownloadUrls j urls :: js). split.
      * apply EffFacts.all_ok. constructor; [exact E|].
        now apply EffFacts.all_ok.
      * constructor; [repeat split|exact Hall].
Qed.

(** The listing answers 200 with the visible jobs, re-signed or not. *)
Lemma listJobs_ok findUnique getJobs user team dataroom clock jobs :
  findUnique user team = Ok (Some tt) ->
  getJobs dataroom team 10 = Ok jobs ->
  exists js,
    Eff.outcome (listJobs getTeamStorageConfigById getSignedUrl
                   findUnique getJobs (Some user) "GET" team dataroom clock)
    = Ok (JsonJobs 200 js) /\
    Forall2 sameJob (userJobs user clock jobs) js.
Proof.
  intros Hteam Hjobs.
  destruct (refresh_all team (userJobs user clock jobs)) as (js & Hjs & Hall).
  exists js. split; [|exact Hall].
  unfold listJobs. rewrite StrFacts.eqb_refl.
  rewrite EffFacts.outcome_tryCatch.
  rewrite Hteam, EffFacts.bind_ok, Hjobs, EffFacts.bind_ok.
  rewrite EffFacts.outcome_bind, Hjs. reflexivity.
Qed.

End Handlers.
End JobsFacts.

(** ** C2 and C10: what the owner's listing shows *)

Module C2.
Import Presign Jobs JobsFacts.
Local Open Scope Z_scope.

(** C2.  When the listing is answered, the jobs it returns are the
    fetched jobs that pass the filter, re-signed or as stored; a fetched
    job passes exactly when it belongs to the requesting user and is
    PENDING or PROCESSING (whatever its age), or COMPLETED with the
    clock strictly before its expiresAt, or FAILED with its createdAt
    less than one hour before the clock (so a FAILED job one hour old or
    older is left out). *)
Theorem owner_listing_visibility :
  forall config sign findUnique getJobs
         (user team dataroom : str) (clock : nat -> Z) jobs,
    findUnique user team = Ok (Some tt) ->
    getJobs dataroom team 10 = Ok jobs ->
    (exists js,
       Eff.outcome (listJobs config sign findUnique getJobs
                      (Some user) "GET" team dataroom clock)
       = Ok (JsonJobs 200 js) /\
       Forall2 sameJob (userJobs user clock jobs) js) /\
    (forall job,
       In job (userJobs user clock jobs) <->
       exists n, nth_error jobs n = Some job /\
                 userId job = Some user /\ VisibleToOwner (clock n) job) /\
    (forall now job,
       status job = FAILED -> 60 * 60 * 1000 <= now - createdAt job ->
       isUserJob user now job = false).
Proof.
  intros config sign findUnique getJobs user team dataroom clock jobs Ht Hj.
  split; [now apply listJobs_ok|]. split; [apply userJobs_In|].
  intros now job Hs Hold.
  destruct (isUserJob user now job) eqn:E; [|reflexivity].
  apply isUserJob_spec in E as [_ [H|[H|[[H _]|[_ H]]]]];
    try congruence. lia.
Qed.

Lemma owner_listing_visibility_witness :
  (exists js,
     Eff.outcome
       (listJobs Sample.noConfig Sample.noSigner (fun _ _ => Ok (Some tt))
          (fun _ _ _ => Ok [Sample.sampleJob PENDING 0 None;
                            Sample.sampleJob FAILED 0 None])
          (Some (lit "user1")) "GET" "team1" "room1"
          (fun _ => 60 * 60 * 1000))
     = Ok (JsonJobs 200 js) /\
     Forall2 sameJob [Sample.sampleJob PENDING 0 None] js) /\
  isUserJob "user1" (60 * 60 * 1000) (Sample.sampleJob FAILED 0 None) = false.
Proof.
  destruct (owner_listing_visibility Sample.noConfig Sample.noSigner
              (fun _ _ => Ok (Some tt))
              (fun _ _ _ => Ok [Sample.sampleJob PENDING 0 None;
                                Sample.sampleJob FAILED 0 None])
              "user1" "team1" "room1" (fun _ => 60 * 60 * 1000)
              [Sample.sampleJob PENDING 0 None; Sample.sampleJob FAILED 0 None]
              eq_refl eq_refl) as (H1 & _ & H3).
  split; [exact H1|]. apply H3; [reflexivity|]. simpl. lia.
Defined.

End C2.

Module C10.
Import Presign Jobs JobsFacts.
Local Open Scope Z_scope.

(** C10.  For a COMPLETED job the filter answers true only when the job
    is the user's, its expiresAt is present and the clock is strictly
    before it; a COMPLETED job without expiresAt is in no listing, though
    the store holds it. *)
Theorem completed_needs_expiry :
  forall (user : str) (job : DownloadJob),
    status job = COMPLETED ->
    (forall now,
       isUserJob user now job = true <->
       userId job = Some user /\
       exists expires, expiresAt job = Some expires /\ now < expires) /\
    (expiresAt job = None ->
     forall clock jobs, ~ In job (userJobs user clock jobs)).
Proof.
  intros user job Hs. split.
  - intros now. rewrite isUserJob_spec. split.
    + intros [Hu [H|[H|[[_ H]|[H _]]]]]; try congruence. now split.
    + intros [Hu H]. split; [exact Hu|]. right. right. left. now split.
  - intros Hnone clock jobs Hin.
    apply userJobs_In in Hin as (n & _ & _ & [H|[H|[[_ (e & He & _)]|[H _]]]]);
      congruence.
Qed.

Lemma completed_needs_expiry_witness :
  (forall now,
     isUserJob "user1" now (Sample.sampleJob COMPLETED 0 None) = true <->
     userId (Sample.sampleJob COMPLETED 0 None) = Some (lit "user1") /\
     exists expires,
       expiresAt (Sample.sampleJob COMPLETED 0 None) = Some expires /\
       now < expires) /\
  (forall clock, ~ In (Sample.sampleJob COMPLETED 0 None)
                      (userJobs "user1" clock
                                [Sample.sampleJob COMPLETED 0 None])).
Proof.
  destruct (completed_needs_expiry "user1" (Sample.sampleJob COMPLETED 0 None)
              eq_refl) as [H1 H2].
  split; [exact H1|]. intros clock. now apply H2.
Defined.

End C10.

(** ** C5 and C6: the parts redirect and re-signing *)

Module PartsFacts.
Import Presign Jobs JobsFacts.
Local Open Scope Z_scope.

Lemma at_Some {A} (xs : list A) i x :
  Num.at_ xs i = Some x ->
  0 <= i < Num.length xs /\ nth_error xs (Z.to_nat i) = Some x.
Proof.
  unfold Num.at_, Num.length. destruct (i <? 0) eqn:E; [discriminate|].
  apply Z.ltb_ge in E. intros H. split; [|exact H].
  assert (Z.to_nat i < List.length xs)%nat
    by (apply nth_error_Some; congruence).
  lia.
Qed.

Lemma at_in_range {A} (xs : list A) i :
  0 <= i < Num.length xs -> exists x, Num.at_ xs i = Some x.
Proof.
  unfold Num.at_, Num.length. intros H.
  destruct (i <? 0) eqn:E; [apply Z.ltb_lt in E; lia|].
  destruct (nth_error xs (Z.to_nat i)) as [x|] eqn:En; [now exists x|].
  apply nth_error_None in En. lia.
Qed.

Section Parts.

Variable getTeamStorageConfigById : str -> result Mint.StorageConfig.
Variable getSignedUrl :
  Mint.S3Client -> Mint.GetObjectCommand -> Z -> result str.
Variable normalize : str -> str.
Variable getDataroomSession : str -> result (option str).
Variable view_findUnique : str -> result (option (option str)).
Variable getJob : str -> result (option DownloadJob).

#[local] Abbreviation mint :=
  (generateFreshPresignedUrl getTeamStorageConfigById getSignedUrl).
#[local] Abbreviation downloadPart :=
  (Jobs.downloadPart getTeamStorageConfigById getSignedUrl normalize
     getDataroomSession view_findUnique getJob).
#[local] Abbreviation Ready :=
  (Jobs.Ready normalize getDataroomSession view_findUnique getJob).
#[local] Abbreviation afterIndex :=
  (Jobs.afterIndex getTeamStorageConfigById getSignedUrl).

Lemma downloadPart_ready link jobId job urls partIndex :
  Ready link jobId job urls ->
  downloadPart "GET" (Some link) (Some jobId) (Some partIndex)
  = afterIndex job urls (Num.parseInt partIndex).
Proof.
  intros [Hl Hj (viewId & email & Hs & Hv & He & Hn) Hjob Ho Hst Hu Hne].
  unfold Jobs.downloadPart. rewrite StrFacts.eqb_refl. cbn [negb].
  destruct link as [|lc link']; [congruence|].
  destruct jobId as [|jc jobId']; [congruence|].
  rewrite Hs, EffFacts.bind_ok, Hv, EffFacts.bind_ok.
  destruct email as [|ec email']; [congruence|].
  rewrite Hjob, EffFacts.bind_ok.
  rewrite Ho, Hn. cbn [optEqb]. rewrite !StrFacts.eqb_refl.
  rewrite Hst, Hu. destruct urls as [|u0 urls']; [congruence|].
  cbn [negb orb statusEq nonEmpty].
  unfold Jobs.afterIndex. destruct (Num.parseInt partIndex) as [index|];
    [|reflexivity].
  destruct ((index <? 0) || (Num.length (u0 :: urls') <=? index));
    [reflexivity|].
  unfold storedKey.
  destruct (downloadS3Keys job) as [ks|].
  - destruct (Num.at_ ks index) as [k|].
    + destruct (teamId job) as [|tc team'] eqn:Et.
      * rewrite EffFacts.bind_ret. reflexivity.
      * rewrite <- Et.
        destruct (mint (teamId job) k) as [t [fresh|e]] eqn:Em.
        -- cbn [Eff.bind Eff.tryCatch Eff.ret Eff.emit Eff.trace Eff.outcome].
           now rewrite !app_nil_r.
        -- cbn [Eff.bind Eff.tryCatch Eff.ret Eff.emit Eff.trace Eff.outcome].
           now rewrite !app_nil_r.
    + destruct (teamId job); rewrite EffFacts.bind_ret; reflexivity.
  - rewrite EffFacts.bind_ret. now destruct (teamId job).
Qed.

(** Minting starts by asking for the team's storage credentials. *)
Lemma mint_first_event team k :
  exists t, Eff.trace (mint team k) = GetStorageConfig team :: t.
Proof.
  unfold generateFreshPresignedUrl, Mint.generateFreshPresignedUrl.
  rewrite EffFacts.bind_emit. eexists. reflexivity.
Qed.

End Parts.
End PartsFacts.

Module C5.
Import Presign Jobs JobsFacts PartsFacts.
Local Open Scope Z_scope.

(** C5.  On a request that reaches the index check (a COMPLETED job of
    the viewer with a non-empty downloadUrls list): when the part index
    read by [parseInt] is not a number, is negative, or is at least the
    length of downloadUrls, the answer is 400 "Invalid part index" and
    nothing else happens (no signing call, no redirect); whatever the
    index, the handler answers without an error, and a redirect it
    answers is a 302 to a URL that exists, for an index inside the
    list. *)
Theorem part_index_guard :
  forall config sign normalize getSession findView getJob
         (link jobId : str) job urls (partIndex : str),
    Ready normalize getSession findView getJob link jobId job urls ->
    let answer :=
      downloadPart config sign normalize getSession findView getJob
        "GET" (Some link) (Some jobId) (Some partIndex) in
    (match Num.parseInt partIndex with
     | None => True
     | Some index => index < 0 \/ Num.length urls <= index
     end ->
     answer = ([], Ok (JsonError 400 "Invalid part index" None))) /\
    (exists r, Eff.outcome answer = Ok r) /\
    (forall code url,
       Eff.outcome answer = Ok (Redirect code url) ->
       code = 302 /\
       exists index u,
         Num.parseInt partIndex = Some index /\
         0 <= index < Num.length urls /\ url = Some u).
Proof.
  intros config sign normalize getSession findView getJob link jobId job
         urls partIndex Hready answer.
  subst answer. rewrite (downloadPart_ready _ _ _ _ _ _ _ _ _ _ _ Hready).
  unfold afterIndex.
  destruct (Num.parseInt partIndex) as [index|].
  2:{ split; [reflexivity|]. split; [eexists; reflexivity|].
      intros code url H. discriminate. }
  destruct ((index <? 0) || (Num.length urls <=? index)) eqn:E.
  { split; [reflexivity|]. split; [eexists; reflexivity|].
    intros code url H. discriminate. }
  apply orb_false_iff in E as [E1 E2].
  apply Z.ltb_ge in E1. apply Z.leb_gt in E2.
  destruct (at_in_range urls index (conj E1 E2)) as [u Hu]. rewrite Hu.
  split; [intros [H|H]; lia|].
  destruct (storedKey job index) as [k|].
  - destruct (Eff.outcome (generateFreshPresignedUrl _ _ _ _)) as [fresh|e];
      cbn [Eff.outcome snd].
    + split; [eexists; reflexivity|]. intros code url H.
      injection H as <- <-. split; [reflexivity|].
      exists index, fresh. auto.
    + split; [eexists; reflexivity|]. intros code url H.
      injection H as <- <-. split; [reflexivity|].
      exists index, u. auto.
  - cbn [Eff.outcome snd]. split; [eexists; reflexivity|].
    intros code url H. injection H as <- <-. split; [reflexivity|].
    exists index, u. auto.
Qed.

Lemma sample_ready keys :
  Ready Sample.normalized Sample.session Sample.view (Sample.store keys)
        "link1" "job1" (Sample.viewerJob keys)
        [lit "https://stored.example/part0"].
Proof.
  constructor; try reflexivity; try discriminate.
  exists (lit "view1"), (lit "viewer@example.com").
  repeat split. discriminate.
Defined.

Lemma part_index_guard_witness :
  downloadPart Sample.config Sample.signer Sample.normalized
    Sample.session Sample.view (Sample.store (Some [Sample.partKey]))
    "GET" (Some (lit "link1")) (Some (lit "job1")) (Some (lit "1"))
  = ([], Ok (JsonError 400 "Invalid part index" None)).
Proof.
  apply (proj1 (part_index_guard Sample.config Sample.signer
                  Sample.normalized Sample.session Sample.view
                  (Sample.store (Some [Sample.partKey]))
                  "link1" "job1" (Sample.viewerJob (Some [Sample.partKey]))
                  [lit "https://stored.example/part0"] "1"
                  (sample_ready (Some [Sample.partKey])))).
  right. vm_compute. discriminate.
Defined.

End C5.

Module C6.
Import Presign Jobs JobsFacts PartsFacts.
Local Open Scope Z_scope.



End C6.

(** ** C3 and C4: the upload-notification debouncer *)

Module DebounceFacts.
Import Debounce.
Local Open Scope Z_scope.

(** Text up to the first separator decides the rest. *)
Lemma first_sep_unique sep (a : str) : forall (a' y y' : str),
  Str.noSep sep a = true -> Str.noSep sep a' = true ->
  a ++ sep :: y = a' ++ sep :: y' -> a = a' /\ y = y'.
Proof.
  induction a as [|c a IH]; intros [|c' a'] y y' Ha Ha' E; simpl in *.
  - injection E as ->. now split.
  - injection E as <- _. now rewrite Ascii.eqb_refl in Ha'.
  - injection E as -> _. now rewrite Ascii.eqb_refl in Ha.
  - injection E as <- E.
    apply andb_true_iff in Ha as [_ Ha]. apply andb_true_iff in Ha' as [_ Ha'].
    destruct (IH _ _ _ Ha Ha' E) as [-> ->]. now split.
Qed.

Lemma includes_In xs s : Str.includes xs s = true <-> In s xs.
Proof.
  unfold Str.includes. rewrite existsb_exists. split.
  - intros (x & Hx & E). apply StrFacts.eqb_eq in E. now subst.
  - intros H. exists s. split; [exact H|apply StrFacts.eqb_refl].
Qed.

(** A run passes the post-filter exactly when it carries every required
    tag. *)
Lemma hasEvery_spec required run :
  hasEvery required run = true <->
  forall tag, In tag required ->
              exists ts, tags run = Some ts /\ In tag ts.
Proof.
  unfold hasEvery. rewrite forallb_forall. split; intros H tag Hin.
  - specialize (H tag Hin). destruct (tags run) as [ts|]; [|discriminate].
    exists ts. split; [reflexivity|now apply includes_In].
  - destruct (H tag Hin) as (ts & -> & Hts). now apply includes_In.
Qed.

(** The tags the route writes on a trigger carry the three required
    tags of one correlation only. *)
Lemma triggerTags_required (team' d' l' v' d l v : str) run :
  tags run = Some (triggerTags team' d' l' v') ->
  hasEvery (requiredTags d l v) run = true ->
  d' = d /\ l' = l /\ v' = v.
Proof.
  intros Ht H. rewrite hasEvery_spec in H.
  assert (Hd := H _ (or_introl eq_refl)).
  assert (Hl := H _ (or_intror (or_introl eq_refl))).
  assert (Hv := H _ (or_intror (or_intror (or_introl eq_refl)))).
  destruct Hd as (ts & E & Hd). rewrite Ht in E. injection E as <-.
  destruct Hl as (ts & E & Hl). rewrite Ht in E. injection E as <-.
  destruct Hv as (ts & E & Hv). rewrite Ht in E. injection E as <-.
  unfold triggerTags in *. cbn [In] in Hd, Hl, Hv.
  repeat split.
  - destruct Hd as [E|[E|[E|[E|[]]]]]; try discriminate E.
    now apply app_inv_head in E.
  - destruct Hl as [E|[E|[E|[E|[]]]]]; try discriminate E.
    now apply app_inv_head in E.
  - destruct Hv as [E|[E|[E|[E|[]]]]]; try discriminate E.
    now apply app_inv_head in E.
Qed.

Lemma cancelled_app t1 t2 : cancelled (t1 ++ t2) = cancelled t1 ++ cancelled t2.
Proof. apply flat_map_app. Qed.

Section Route.

Variable runs_list : ListQuery -> result (list Run).
Variable runs_cancel : str -> result unit.

#[local] Abbreviation cancelOne := (Debounce.cancelOne runs_cancel).

Lemma cancelAll_trace runs :
  Eff.trace (Eff.all cancelOne runs)
  = map (fun run => RunsCancel (runId run)) runs.
Proof.
  rewrite EffFacts.all_trace. induction runs as [|r runs IH]; [reflexivity|].
  cbn [flat_map map]. rewrite IH. unfold Debounce.cancelOne at 1.
  rewrite EffFacts.bind_emit. reflexivity.
Qed.

Lemma cancelAll_ok runs :
  (forall run, In run runs -> runs_cancel (runId run) = Ok tt) ->
  Eff.outcome (Eff.all cancelOne runs) = Ok (map (fun _ => tt) runs).
Proof.
  intros H. apply EffFacts.all_ok.
  induction runs as [|r runs IH]; constructor.
  - unfold Debounce.cancelOne. rewrite EffFacts.bind_emit. cbn [Eff.outcome snd].
    rewrite (H r (or_introl eq_refl)). reflexivity.
  - apply IH. intros run Hin. apply H. now right.
Qed.

(** The trace of step 4 once the listing has answered. *)
Lemma notifyUpload_trace teamId dataroomId linkId viewerId docId now allRuns :
  runs_list (pendingQuery dataroomId linkId viewerId) = Ok allRuns ->
  let matching :=
    matchingRuns (requiredTags dataroomId linkId viewerId) allRuns in
  Eff.trace (notifyUpload runs_list runs_cancel true
               teamId dataroomId linkId viewerId docId now)
  = map (fun run => RunsCancel (runId run)) matching ++
    match Eff.outcome (Eff.all cancelOne matching) with
    | Ok _ => [theTrigger teamId dataroomId linkId viewerId docId now]
    | Throw e =>
        [ConsoleError "Error triggering upload notification:" e]
    end.
Proof.
  intros Hlist matching. unfold notifyUpload.
  fold (pendingQuery dataroomId linkId viewerId). rewrite Hlist.
  rewrite EffFacts.bind_ok. fold matching.
  rewrite EffFacts.trace_tryCatch, EffFacts.outcome_bind,
    EffFacts.trace_bind.
  fold (Debounce.cancelOne runs_cancel). rewrite cancelAll_trace.
  destruct (Eff.outcome (Eff.all cancelOne matching)) as [us|e];
    reflexivity.
Qed.

End Route.

Lemma cancelled_cancels (runs : list Run) :
  cancelled (map (fun run => RunsCancel (runId run)) runs) = map runId runs.
Proof.
  induction runs as [|r runs IH]; [reflexivity|]. simpl. now rewrite IH.
Qed.

Lemma triggers_cancels (runs : list Run) :
  triggers (map (fun run => RunsCancel (runId run)) runs) = [].
Proof. induction runs as [|r runs IH]; [reflexivity|exact IH]. Qed.

Lemma idempotencyKey_inj (t d l v doc t' d' l' v' doc' : str) :
  noHyphen t = true -> noHyphen d = true -> noHyphen l = true ->
  noHyphen v = true ->
  noHyphen t' = true -> noHyphen d' = true -> noHyphen l' = true ->
  noHyphen v' = true ->
  idempotencyKey t d l v doc = idempotencyKey t' d' l' v' doc' ->
  t = t' /\ d = d' /\ l = l' /\ v = v' /\ doc = doc'.
Proof.
  unfold idempotencyKey, noHyphen. intros Ht Hd Hl Hv Ht' Hd' Hl' Hv' E.
  apply app_inv_head in E.
  change (lit "-") with ["-"%char] in E. cbn [app] in E.
  apply first_sep_unique in E as [-> E]; auto.
  apply first_sep_unique in E as [-> E]; auto.
  apply first_sep_unique in E as [-> E]; auto.
  apply first_sep_unique in E as [-> E]; auto.
Qed.

End DebounceFacts.

Module C3.
Import Debounce DebounceFacts.
Local Open Scope Z_scope.

(** C3.  Once [runs.list] has answered, the runs the route cancels are
    the listed runs that pass the post-filter, and a listed run passes
    exactly when its tags contain all three required tags (dataroom,
    link, viewer) of the event; so a run that carries the tags of
    another correlation, though listed for sharing one tag, is not
    cancelled. *)
Theorem cancels_exactly_full_matches :
  forall runs_list runs_cancel
         (teamId dataroomId linkId viewerId docId : str) (now : Z) allRuns,
    runs_list (pendingQuery dataroomId linkId viewerId) = Ok allRuns ->
    let required := requiredTags dataroomId linkId viewerId in
    let matching := matchingRuns required allRuns in
    cancelled (Eff.trace (notifyUpload runs_list runs_cancel true
                            teamId dataroomId linkId viewerId docId now))
    = map runId matching /\
    (forall run,
       In run matching <->
       In run allRuns /\
       forall tag, In tag required ->
                   exists ts, tags run = Some ts /\ In tag ts) /\
    (forall run (team' dataroom' link' viewer' : str),
       tags run = Some (triggerTags team' dataroom' link' viewer') ->
       (dataroom', link', viewer') <> (dataroomId, linkId, viewerId) ->
       ~ In run matching).
Proof.
  intros runs_list runs_cancel teamId dataroomId linkId viewerId docId now
         allRuns Hlist required matching.
  split; [|split].
  - rewrite (notifyUpload_trace runs_list runs_cancel teamId dataroomId
               linkId viewerId docId now allRuns Hlist).
    fold required. fold matching.
    rewrite cancelled_app, cancelled_cancels.
    destruct (Eff.outcome _); cbn [cancelled flat_map app theTrigger];
      apply app_nil_r.
  - intros run. unfold matching, matchingRuns.
    rewrite filter_In, hasEvery_spec. reflexivity.
  - intros run team' dataroom' link' viewer' Ht Hne Hin.
    unfold matching, matchingRuns in Hin. apply filter_In in Hin as [_ H].
    destruct (triggerTags_required _ _ _ _ _ _ _ _ Ht H) as (-> & -> & ->).
    now apply Hne.
Qed.

Lemma cancels_exactly_full_matches_witness :
  cancelled (Eff.trace (notifyUpload SampleRuns.listing SampleRuns.cancelling true
                          "team1" "room1" "link1" "viewer1" "doc9" 0))
  = [lit "run1"].
Proof.
  exact (proj1 (cancels_exactly_full_matches SampleRuns.listing SampleRuns.cancelling
                  "team1" "room1" "link1" "viewer1" "doc9" 0
                  [SampleRuns.ownRun; SampleRuns.otherRun] eq_refl)).
Defined.

End C3.

Module C4.
Import Debounce DebounceFacts.
Local Open Scope Z_scope.

(** C4 (as amended).  Once the listing has answered and every matching
    run is cancelled, the route's trace is the cancellations followed by
    one trigger, delayed five minutes from the clock and carrying the
    idempotency key of (team, dataroom, link, viewer, document); the key
    tells two such combinations apart when their team, dataroom, link
    and viewer ids contain no hyphen; and a scheduler that keeps one run
    per task and key keeps one run when the same combination is
    triggered twice. *)
Theorem schedules_one_delayed_trigger :
  forall runs_list runs_cancel
         (teamId dataroomId linkId viewerId docId : str) (now : Z) allRuns,
    runs_list (pendingQuery dataroomId linkId viewerId) = Ok allRuns ->
    (forall run,
       In run (matchingRuns (requiredTags dataroomId linkId viewerId)
                            allRuns) ->
       runs_cancel (runId run) = Ok tt) ->
    let t := Eff.trace (notifyUpload runs_list runs_cancel true
                          teamId dataroomId linkId viewerId docId now) in
    t = map (fun run => RunsCancel (runId run))
            (matchingRuns (requiredTags dataroomId linkId viewerId) allRuns)
        ++ [TaskTrigger taskId
              [("dataroomId" : str, dataroomId); ("linkId" : str, linkId);
               ("viewerId" : str, viewerId); ("teamId" : str, teamId)]
              (idempotencyKey teamId dataroomId linkId viewerId docId)
              (triggerTags teamId dataroomId linkId viewerId)
              (now + 5 * 60 * 1000)] /\
    List.length (triggers t) = 1%nat /\
    (forall team' dataroom' link' viewer' doc',
       noHyphen teamId = true -> noHyphen dataroomId = true ->
       noHyphen linkId = true -> noHyphen viewerId = true ->
       noHyphen team' = true -> noHyphen dataroom' = true ->
       noHyphen link' = true -> noHyphen viewer' = true ->
       idempotencyKey teamId dataroomId linkId viewerId docId
       = idempotencyKey team' dataroom' link' viewer' doc' ->
       (teamId, dataroomId, linkId, viewerId, docId)
       = (team', dataroom', link', viewer', doc')) /\
    (forall pending now',
       schedule
         (schedule pending
            (theTrigger teamId dataroomId linkId viewerId docId now))
         (theTrigger teamId dataroomId linkId viewerId docId now')
       = schedule pending
           (theTrigger teamId dataroomId linkId viewerId docId now)).
Proof.
  intros runs_list runs_cancel teamId dataroomId linkId viewerId docId now
         allRuns Hlist Hcancel t.
  assert (Ht : t = map (fun run => RunsCancel (runId run))
                       (matchingRuns
                          (requiredTags dataroomId linkId viewerId) allRuns)
                   ++ [theTrigger teamId dataroomId linkId viewerId
                                  docId now]).
  { subst t.
    rewrite (notifyUpload_trace runs_list runs_cancel teamId dataroomId
               linkId viewerId docId now allRuns Hlist).
    now rewrite (cancelAll_ok runs_cancel _ Hcancel). }
  split; [exact Ht|]. split; [|split].
  - rewrite Ht. unfold triggers. rewrite filter_app.
    fold (triggers (map (fun run => RunsCancel (runId run))
                        (matchingRuns
                           (requiredTags dataroomId linkId viewerId)
                           allRuns))).
    now rewrite triggers_cancels.
  - intros team' dataroom' link' viewer' doc' H1 H2 H3 H4 H5 H6 H7 H8 E.
    destruct (idempotencyKey_inj _ _ _ _ _ _ _ _ _ _
                H1 H2 H3 H4 H5 H6 H7 H8 E) as (-> & -> & -> & -> & ->).
    reflexivity.
  - intros pending now'. unfold theTrigger.
    cbv beta iota delta [schedule].
    destruct (existsb _ pending) eqn:E.
    + now rewrite E.
    + rewrite existsb_app, E. cbn [existsb pTask pKey orb].
      now rewrite !StrFacts.eqb_refl.
Qed.

Lemma schedules_one_delayed_trigger_witness :
  Eff.trace (notifyUpload SampleRuns.listing SampleRuns.cancelling true
               "team1" "room1" "link1" "viewer1" "doc9" 1000)
  = [RunsCancel "run1";
     TaskTrigger taskId
       [("dataroomId" : str, lit "room1"); ("linkId" : str, lit "link1");
        ("viewerId" : str, lit "viewer1"); ("teamId" : str, lit "team1")]
       "upload-notification-team1-room1-link1-viewer1-doc9"
       (triggerTags "team1" "room1" "link1" "viewer1")
       301000].
Proof.
  exact (proj1 (schedules_one_delayed_trigger SampleRuns.listing SampleRuns.cancelling
                  "team1" "room1" "link1" "viewer1" "doc9" 1000
                  [SampleRuns.ownRun; SampleRuns.otherRun] eq_refl
                  (fun _ _ => eq_refl))).
Defined.

(** The claim as stated fails for ids with hyphens: two different
    combinations get the same key. *)
Lemma idempotencyKey_counterexample :
  idempotencyKey "a-b" "c" "link1" "viewer1" "doc9"
  = idempotencyKey "a" "b-c" "link1" "viewer1" "doc9" /\
  (lit "a-b", lit "c") <> (lit "a", lit "b-c").
Proof.
  split; [reflexivity|discriminate].
Qed.

End C4.

(** ** C7: the sanitisation fallback of the conversion task *)

Module ConvertFacts.
Import Convert.
Local Open Scope Z_scope.

(** Case analysis on an innermost scrutinee of the goal. *)
Ltac break_match :=
  match goal with
  | |- context [match ?x with _ => _ end] =>
      lazymatch x with
      | context [match _ with _ => _ end] => fail
      | _ => destruct x eqn:?
      end
  end.

Ltac run_effects :=
  cbv beta iota delta
    [Eff.bind Eff.tryCatch Eff.finally Eff.emit Eff.lift Eff.throw Eff.ret
     Eff.trace Eff.outcome fst snd].

Section Task.

Variable team_findUnique : str -> result (option unit).
Variable document_findUnique : ConvertPayload -> result (option Document).
Variable getFile : str -> str -> result str.
Variable convertFromUrl : str -> result Response.
Variable convertFile : str -> str -> str -> result Response.
Variable fetchFile : str -> result Response.
Variable writeFile : str -> str -> result unit.
Variable readFile : str -> result str.
Variable runSanitizer : str -> str -> result str.
Variable saveConverted : Document -> Version -> str -> result unit.

#[local] Abbreviation sanitizeAndRetry :=
  (Convert.sanitizeAndRetry convertFile fetchFile writeFile readFile
     runSanitizer).
#[local] Abbreviation Downloadable :=
  (Convert.Downloadable fetchFile writeFile).
#[local] Abbreviation RetryFails :=
  (Convert.RetryFails convertFile readFile).

Lemma sanitize_at_most_once doc contentType fileUrl response input output :
  let t := Eff.trace (sanitizeAndRetry doc contentType fileUrl response
                        input output) in
  (count isSanitize t <= 1)%nat /\ (count isRetry t <= 1)%nat /\
  count isPrimary t = 0%nat.
Proof.
  unfold Convert.sanitizeAndRetry, attemptConversion. run_effects.
  repeat break_match; cbn; repeat split; lia.
Qed.

Lemma sanitize_once doc contentType fileUrl response input output :
  Downloadable fileUrl input ->
  count isSanitize
    (Eff.trace (sanitizeAndRetry doc contentType fileUrl response
                  input output)) = 1%nat.
Proof.
  intros (d & buf & Hf & Hok & Hct & Hb & Hw).
  unfold Convert.sanitizeAndRetry, attemptConversion. run_effects.
  rewrite Hf, Hok. cbn [negb].
  destruct (contentTypeHeader d) as [[|c t]|];
    try (apply orb_true_iff in Hct as [Hct|Hct]; rewrite Hct;
         rewrite ?orb_true_r; cbn [negb andb]);
    rewrite ?andb_false_r; rewrite Hb, Hw;
    repeat break_match; reflexivity.
Qed.

Lemma retry_once doc contentType fileUrl response input output stderr buf :
  Downloadable fileUrl input ->
  runSanitizer input output = Ok stderr ->
  readFile output = Ok buf ->
  count isRetry
    (Eff.trace (sanitizeAndRetry doc contentType fileUrl response
                  input output)) = 1%nat.
Proof.
  intros (d & dbuf & Hf & Hok & Hct & Hb & Hw) Hs Hr.
  unfold Convert.sanitizeAndRetry, attemptConversion. run_effects.
  rewrite Hf, Hok. cbn [negb].
  destruct (contentTypeHeader d) as [[|c t]|];
    try (apply orb_true_iff in Hct as [Hct|Hct]; rewrite Hct;
         rewrite ?orb_true_r; cbn [negb andb]);
    rewrite ?andb_false_r; rewrite Hb, Hw, Hs, Hr;
    repeat break_match; reflexivity.
Qed.

Lemma retry_failure_throws doc contentType fileUrl response input output
      stderr :
  Downloadable fileUrl input ->
  runSanitizer input output = Ok stderr ->
  RetryFails (name doc) contentType output ->
  exists e,
    Eff.outcome (sanitizeAndRetry doc contentType fileUrl response
                   input output) = Throw e.
Proof.
  intros (d & dbuf & Hf & Hok & Hct & Hb & Hw) Hs (buf & Hr & Hfail).
  unfold Convert.sanitizeAndRetry, attemptConversion. run_effects.
  rewrite Hf, Hok. cbn [negb].
  destruct (contentTypeHeader d) as [[|c t]|];
    try (apply orb_true_iff in Hct as [Hct|Hct]; rewrite Hct;
         rewrite ?orb_true_r; cbn [negb andb]);
    rewrite ?andb_false_r; rewrite Hb, Hw, Hs, Hr;
    (destruct Hfail as [[e He]|(r & He & Hr')]; rewrite He;
     [|rewrite Hr']; cbn [negb]; eexists; reflexivity).
Qed.

(** When the DOCX cannot be fetched again nothing is sanitised or
    retried. *)
Lemma no_download_no_sanitize doc contentType fileUrl response input output :
  (exists e, fetchFile fileUrl = Throw e) \/
  (exists d, fetchFile fileUrl = Ok d /\ ok d = false) ->
  let run := sanitizeAndRetry doc contentType fileUrl response input output in
  count isSanitize (Eff.trace run) = 0%nat /\
  count isRetry (Eff.trace run) = 0%nat /\
  exists e, Eff.outcome run = Throw e.
Proof.
  intros [[e He]|(d & He & Hd)];
    unfold Convert.sanitizeAndRetry, attemptConversion; run_effects;
    rewrite He; [|rewrite Hd]; cbn; repeat split; eexists; reflexivity.
Qed.

End Task.
End ConvertFacts.

Module C7.
Import Convert ConvertFacts SampleConversion.
Local Open Scope Z_scope.

Lemma count_app p (a b : list event) :
  count p (a ++ b) = (count p a + count p b)%nat.
Proof. unfold count. now rewrite filter_app, length_app. Qed.


Lemma primary_fails0 :
  PrimaryFails team0 document0 getFile0 convertFromUrl0 payload0
    "report" version0 [] DOCX "https://files.example/report.docx".
Proof.
  constructor; try reflexivity.
  - exists (lit "doc_1/report.docx"). repeat split. discriminate.
  - split; [reflexivity|discriminate].
  - right. exists refused. now split.
Defined.



End C7.

(** ** C8: the download-batch endpoint *)

Module C8.
Import Presign Batch.
Local Open Scope Z_scope.

Section Endpoint.

Variable Number : Type.
Variable isZero : Number -> bool.
Variable ToString : value Number -> str.
Variable JSON_parse : str -> result (json Number).
Variable new_URL : str -> result URL.
Variable getLambdaClientForTeam : str -> result unit.
Variable getTeamStorageConfigById : str -> result Mint.StorageConfig.
Variable send : str -> list (str * value Number) -> result (option str).

#[local] Abbreviation processBatch :=
  (Batch.processBatch isZero ToString JSON_parse new_URL
     getLambdaClientForTeam getTeamStorageConfigById send).
#[local] Abbreviation payloadOf := (Batch.payloadOf isZero).

Lemma missing_field fields :
  (exists k, In k requiredFields /\ isTruthy isZero (lookup k fields) = false)
  ->
  negb (isTruthy isZero (lookup "teamId" fields)) ||
  negb (isTruthy isZero (lookup "sourceBucket" fields)) ||
  negb (isTruthy isZero (lookup "fileKeys" fields)) ||
  negb (isTruthy isZero (lookup "folderStructure" fields)) = true.
Proof.
  intros (k & Hin & Hk). unfold requiredFields in Hin. cbn [In] in Hin.
  destruct Hin as [<-|[<-|[<-|[<-|[]]]]]; rewrite Hk; cbn [negb];
    rewrite ?orb_true_r; reflexivity.
Qed.

Lemma all_fields fields :
  (forall k, In k requiredFields -> isTruthy isZero (lookup k fields) = true)
  ->
  negb (isTruthy isZero (lookup "teamId" fields)) ||
  negb (isTruthy isZero (lookup "sourceBucket" fields)) ||
  negb (isTruthy isZero (lookup "fileKeys" fields)) ||
  negb (isTruthy isZero (lookup "folderStructure" fields)) = false.
Proof.
  intros H. unfold requiredFields in H.
  rewrite !H by (cbn [In]; auto 6). reflexivity.
Qed.

Ltac step :=
  rewrite ?EffFacts.outcome_tryCatch, ?EffFacts.outcome_bind;
  cbn [Eff.both Eff.lift Eff.emit Eff.throw Eff.ret Eff.outcome snd].

(** C8.  On an authorised POST whose body is an object: when one of
    teamId, sourceBucket, fileKeys, folderStructure is missing (or
    falsy) the answer is 400 and nothing is invoked; otherwise, when the
    backend's answer has no payload, or a payload that is no JSON (an
    empty one is none), or a payload with a non-empty errorMessage, the
    answer is 500 with the error's message as details (the backend's
    errorMessage after "Lambda error: "), never a success. *)
Theorem backend_failure_is_500 :
  forall authorization key fields,
    sameToken (bearer authorization) key = true ->
    let answer :=
      processBatch "POST" authorization key (Some (JObj fields)) in
    ((exists k, In k requiredFields /\
                isTruthy isZero (lookup k fields) = false) ->
     answer = ([], Ok (Json 400 (ErrorBody "Missing required parameters"
                                           None)))) /\
    (forall cfg,
       (forall k, In k requiredFields ->
                  isTruthy isZero (lookup k fields) = true) ->
       getLambdaClientForTeam (jsString ToString (lookup "teamId" fields))
       = Ok tt ->
       getTeamStorageConfigById (jsString ToString (lookup "teamId" fields))
       = Ok cfg ->
       let sent := send (Mint.lambdaFunctionName cfg) (payloadOf fields) in
       (sent = Ok None ->
        Eff.outcome answer
        = failure "Lambda response payload is undefined or empty") /\
       (forall text e,
          sent = Ok (Some text) -> JSON_parse text = Throw e ->
          Eff.outcome answer = failure (message e)) /\
       (forall text payload v,
          sent = Ok (Some text) -> JSON_parse text = Ok payload ->
          get (Some payload) "errorMessage" = Ok v ->
          isTruthy isZero v = true ->
          Eff.outcome answer
          = failure ("Lambda error: " +++ jsString ToString v))).
Proof.
  intros authorization key fields Htoken answer. subst answer.
  unfold Batch.processBatch. rewrite StrFacts.eqb_refl, Htoken.
  cbn [negb get]. unfold value. rewrite !EffFacts.bind_ok. split.
  - intros Hmiss. rewrite (missing_field _ Hmiss). reflexivity.
  - intros cfg Hall Hclient Hcfg.
    rewrite (all_fields _ Hall), Hclient, Hcfg. fold (Batch.payloadOf isZero fields).
    split; [|split].
    + intros Hsend. repeat step. cbv beta iota. repeat step.
      rewrite Hsend. repeat step. reflexivity.
    + intros text e Hsend Hparse. repeat step. cbv beta iota. repeat step.
      rewrite Hsend. repeat step. rewrite Hparse. repeat step. reflexivity.
    + intros text payload v Hsend Hparse Hget Htruthy.
      repeat step. cbv beta iota. repeat step.
      rewrite Hsend. repeat step. rewrite Hparse. repeat step.
      change (match payload with
              | JNull => Throw (Err "Cannot read properties of null")
              | JObj fields0 => Ok (lookup "errorMessage" fields0)
              | _ => Ok None
              end) with (get (Some payload) "errorMessage").
      rewrite Hget. repeat step. rewrite Htruthy. repeat step. reflexivity.
Qed.

End Endpoint.

Import SampleBatch.

Lemma backend_failure_is_500_witness :
  Eff.outcome
    (Batch.processBatch (fun _ : unit => false) render parser httpsURL
       client Sample.config backend
       "POST" (Some (lit "Bearer secret")) (Some (lit "secret"))
       (Some (JObj request)))
  = failure "Lambda error: Task timed out after 300.00 seconds".
Proof.
  destruct (backend_failure_is_500 unit (fun _ : unit => false) render parser
              httpsURL client Sample.config backend
              (Some (lit "Bearer secret")) (Some (lit "secret")) request
              eq_refl) as [_ H].
  destruct (H _ ltac:(intros k [<-|[<-|[<-|[<-|[]]]]]; reflexivity)
              eq_refl eq_refl) as (_ & _ & Herr).
  exact (Herr _ _ _ eq_refl eq_refl eq_refl eq_refl).
Defined.

End C8.

(** ** C9: the debounced task without a primary recipient *)

Module C9.
Import Notify SampleTask.
Local Open Scope Z_scope.

Lemma first_admin_email users :
  NoAdminEmail users ->
  match find isAdmin users with
  | Some user => truthy (email user)
  | None => false
  end = false.
Proof.
  intros H. destruct (find isAdmin users) as [u|] eqn:E; [|reflexivity].
  apply find_some in E as [Hin Hadmin]. now apply H.
Qed.

Section Task.

Variable documentUpload_findMany :
  UploadNotificationPayload -> Z -> result (list Upload).
Variable dataroom_findUnique : str -> result (option Dataroom).
Variable link_findUnique : str -> result (option Link).
Variable userTeam_findMany : str -> result (list TeamUser).
Variable userTeam_findUnique : str -> str -> result (option (option str)).
Variable postNotification :
  str -> list (option str) -> list str -> result Response.

#[local] Abbreviation task :=
  (sendDataroomUploadNotificationTask documentUpload_findMany
     dataroom_findUnique link_findUnique userTeam_findMany
     userTeam_findUnique postNotification).

(** C9.  When the team has no ADMIN member with an e-mail address, the
    task sends nothing: its trace has no request to the send endpoint;
    and when its reads of the store succeed it logs once and returns
    without an error (for a dataroom that exists and has recent uploads,
    the log is "No admin email found for team"). *)
Theorem no_admin_no_notification :
  forall payload now users,
    userTeam_findMany (teamId payload) = Ok users ->
    NoAdminEmail users ->
    let run := task payload now in
    filter isSend (Eff.trace run) = [] /\
    (forall uploads dataroom link,
       documentUpload_findMany payload (now - 10 * 60 * 1000) = Ok uploads ->
       dataroom_findUnique (dataroomId payload) = Ok dataroom ->
       link_findUnique (linkId payload) = Ok link ->
       Eff.outcome run = Ok tt /\
       (exists entry, Eff.trace run = [entry] /\ isLog entry = true) /\
       (uploads <> [] -> dataroom <> None ->
        Eff.trace run = [LoggerError "No admin email found for team"])).
Proof.
  intros payload now users Husers Hno run. subst run.
  pose proof (first_admin_email users Hno) as Hadmin.
  unfold sendDataroomUploadNotificationTask.
  cbv beta iota zeta delta
    [Eff.bind Eff.both Eff.tryCatch Eff.emit Eff.lift Eff.throw Eff.ret
     Eff.trace Eff.outcome fst snd].
  rewrite Husers.
  destruct (find isAdmin users) as [admin|];
    [destruct (email admin) as [[|c e]|]; [| discriminate Hadmin |]|].
  all: split;
    [ destruct (documentUpload_findMany payload (now - 10 * 60 * 1000))
        as [[|first rest]|]; try reflexivity;
      destruct (dataroom_findUnique (dataroomId payload)) as [[d|]|];
      destruct (link_findUnique (linkId payload)) as [l|]; reflexivity
    | intros uploads dataroom link -> -> ->;
      destruct uploads as [|first rest];
      [ split; [reflexivity|];
        split; [eexists; split; reflexivity | congruence]
      | destruct dataroom as [d|];
        [ split; [reflexivity|];
          split; [eexists; split; reflexivity | reflexivity]
        | split; [reflexivity|];
          split; [eexists; split; reflexivity | congruence] ] ] ].
Qed.

End Task.

Lemma no_admin_no_notification_witness :
  sendDataroomUploadNotificationTask uploads0 dataroom0 link0 members0
    owner0 post0 payload0 0
  = ([LoggerError "No admin email found for team"], Ok tt).
Proof.
  assert (Hno : NoAdminEmail members).
  { intros u [<-|[<-|[]]] H; [reflexivity|discriminate H]. }
  destruct (no_admin_no_notification uploads0 dataroom0 link0 members0
              owner0 post0 payload0 0 members eq_refl Hno) as [_ H].
  destruct (H _ _ _ eq_refl eq_refl eq_refl) as (Hout & _ & Htrace).
  rewrite (EffFacts.eta (sendDataroomUploadNotificationTask _ _ _ _ _ _ _ _)).
  rewrite Hout, Htrace by discriminate. reflexivity.
Defined.

End C9.

(* ================================================================== *)
(** ** Beyond the specification *)
(* ================================================================== *)

(** ** What a parsed reference says about the URL *)

Module ParseFacts.
Import Presign Regex PresignFacts.

Lemma endsWith_amazonaws (x : str) :
  Str.endsWith (x +++ ".amazonaws.com") ".amazonaws.com" = true.
Proof. apply StrFacts.endsWith_app. Qed.

(** A host one of the three patterns accepts ends in [.amazonaws.com]. *)
Lemma matched_host_suffix (h : str) caps :
  exec pathStyleRe h = Some caps \/ exec virtualRe h = Some caps \/
  exec virtualNoRegionRe h = Some caps ->
  Str.endsWith h ".amazonaws.com" = true.
Proof.
  intros [H|[H|H]]; apply RegexFacts.exec_sound in H.
  - apply pathStyle_matches in H as (r & _ & _ & _ & ->).
    rewrite List.app_assoc. apply endsWith_amazonaws.
  - apply virtual_matches in H as (b & r & _ & _ & _ & _ & _ & ->).
    rewrite !List.app_assoc. apply endsWith_amazonaws.
  - apply noRegion_matches in H as (b & _ & _ & _ & ->).
    change (lit ".s3.amazonaws.com") with (".s3" +++ ".amazonaws.com").
    rewrite List.app_assoc. apply endsWith_amazonaws.
Qed.

Lemma group1 (a : str) rest : group (a :: rest) 1 = a.
Proof. reflexivity. Qed.

Lemma group2 (a b : str) rest : group (a :: b :: rest) 2 = b.
Proof. reflexivity. Qed.

End ParseFacts.

Module ParsedReference.
Import Presign Regex PresignFacts ParseFacts.

(** X1.  Whenever [parseS3PresignedUrl] returns a reference, the URL was
    parsed, its host is one of the three supported shapes, and the
    region (and, for the virtual-hosted shapes, the bucket) of the
    reference is the one written in the host; the region is never empty
    and has no dot. *)
Theorem parsed_reference_is_read_off_the_host :
  forall (new_URL : str -> result URL) (href : str) (info : S3KeyInfo),
    parseS3PresignedUrl new_URL href = Ok info ->
    exists url,
      new_URL href = Ok url /\
      region info <> [] /\ forallb notDot (region info) = true /\
      Str.endsWith (hostname url) ".amazonaws.com" = true /\
      (hostname url = "s3." +++ region info +++ ".amazonaws.com" \/
       hostname url
       = bucket info +++ ".s3." +++ region info +++ ".amazonaws.com" \/
       (hostname url = bucket info +++ ".s3.amazonaws.com" /\
        region info = "us-east-1")).
Proof.
  intros new_URL href info. unfold parseS3PresignedUrl.
  destruct (new_URL href) as [url|e]; cbn [Res.bind]; [|discriminate].
  intros H. exists url. split; [reflexivity|].
  destruct (exec pathStyleRe (hostname url)) as [caps|] eqn:E1.
  { pose proof (matched_host_suffix _ _ (or_introl E1)) as Hs.
    apply RegexFacts.exec_sound, pathStyle_matches in E1
      as (r & -> & Hr & Hrd & Hh).
    rewrite group1 in H.
    destruct (orURIError _) as [b|]; cbn [Res.bind] in H; [|discriminate].
    destruct (Res.mapM _ _) as [ks|]; cbn [Res.bind] in H; [|discriminate].
    injection H as <-. cbn [region]. auto 6. }
  destruct (exec virtualRe (hostname url)) as [caps|] eqn:E2.
  { pose proof (matched_host_suffix _ _ (or_intror (or_introl E2))) as Hs.
    apply RegexFacts.exec_sound, virtual_matches in E2
      as (b & r & -> & Hb & Hbd & Hr & Hrd & Hh).
    rewrite group1, group2 in H.
    destruct (orURIError _) as [k|]; cbn [Res.bind] in H; [|discriminate].
    injection H as <-. cbn [region bucket]. auto 8. }
  destruct (exec virtualNoRegionRe (hostname url)) as [caps|] eqn:E3;
    [|discriminate].
  pose proof (matched_host_suffix _ _ (or_intror (or_intror E3))) as Hs.
  apply RegexFacts.exec_sound, noRegion_matches in E3
    as (b & -> & Hb & Hbd & Hh).
  rewrite group1 in H.
  destruct (orURIError _) as [k|]; cbn [Res.bind] in H; [|discriminate].
  injection H as <-. cbn [region bucket].
  split; [discriminate|]. split; [reflexivity|]. auto.
Qed.

Lemma parsed_reference_is_read_off_the_host_witness :
  exists url,
    httpsURL "https://bucket1.s3.eu-west-1.amazonaws.com/exports/x.zip?sig=1"
    = Ok url /\
    lit "eu-west-1" <> [] /\
    forallb notDot (lit "eu-west-1") = true /\
    Str.endsWith (hostname url) ".amazonaws.com" = true /\
    (hostname url = "s3." +++ "eu-west-1" +++ ".amazonaws.com" \/
     hostname url = "bucket1" +++ ".s3." +++ "eu-west-1" +++ ".amazonaws.com" \/
     (hostname url = "bucket1" +++ ".s3.amazonaws.com" /\
      lit "eu-west-1" = "us-east-1")).
Proof.
  exact (parsed_reference_is_read_off_the_host httpsURL
           "https://bucket1.s3.eu-west-1.amazonaws.com/exports/x.zip?sig=1"
           {| bucket := "bucket1"; key := "exports/x.zip";
              region := "eu-west-1" |} eq_refl).
Defined.

End ParsedReference.

Module ParseErrors.
Import Presign Regex PresignFacts ParseFacts.

(** X2.  A URL whose host does not end in [.amazonaws.com] is refused:
    [parseS3PresignedUrl] throws [Unable to parse S3 URL: ] followed by
    the URL it was given, whatever the path. *)
Theorem foreign_host_is_refused :
  forall (new_URL : str -> result URL) (href : str) (url : URL),
    new_URL href = Ok url ->
    Str.endsWith (hostname url) ".amazonaws.com" = false ->
    parseS3PresignedUrl new_URL href
    = Throw (Err ("Unable to parse S3 URL: " +++ href)).
Proof.
  intros new_URL href url Hu Hs. unfold parseS3PresignedUrl.
  rewrite Hu. cbn [Res.bind].
  destruct (exec pathStyleRe (hostname url)) as [caps|] eqn:E1.
  { rewrite (matched_host_suffix _ _ (or_introl E1)) in Hs. discriminate. }
  destruct (exec virtualRe (hostname url)) as [caps|] eqn:E2.
  { rewrite (matched_host_suffix _ _ (or_intror (or_introl E2))) in Hs.
    discriminate. }
  destruct (exec virtualNoRegionRe (hostname url)) as [caps|] eqn:E3.
  { rewrite (matched_host_suffix _ _ (or_intror (or_intror E3))) in Hs.
    discriminate. }
  reflexivity.
Qed.

Lemma foreign_host_is_refused_witness :
  parseS3PresignedUrl httpsURL "https://stored.example/part0"
  = Throw (Err "Unable to parse S3 URL: https://stored.example/part0").
Proof.
  exact (foreign_host_is_refused httpsURL "https://stored.example/part0"
           _ eq_refl eq_refl).
Defined.

End ParseErrors.

(** ** The download name a minted URL carries *)

Module MintFacts.
Import Presign Mint Observe.

Lemma hexDigit_unreserved c :
  Uri.unreserved (Uri.hexDigit (Uri.code c / 16)) = true /\
  Uri.unreserved (Uri.hexDigit (Uri.code c mod 16)) = true.
Proof.
  destruct c as [[] [] [] [] [] [] [] []]; split; reflexivity.
Qed.

Lemma encoded_chars s :
  forallb encodedChar (Uri.encodeURIComponent s) = true.
Proof.
  unfold Uri.encodeURIComponent. induction s as [|c s IH]; [reflexivity|].
  cbn [flat_map]. rewrite forallb_app, IH, andb_true_r.
  destruct (Uri.unreserved c) eqn:E.
  - cbn [forallb]. unfold encodedChar. now rewrite E.
  - unfold Uri.escape. cbn [forallb]. unfold encodedChar.
    destruct (hexDigit_unreserved c) as [-> ->]. reflexivity.
Qed.

Lemma encoded_not_nil s : s <> [] -> Uri.encodeURIComponent s <> [].
Proof.
  destruct s as [|c s]; [congruence|]. intros _.
  unfold Uri.encodeURIComponent. cbn [flat_map].
  destruct (Uri.unreserved c); discriminate.
Qed.

Lemma fileName_not_nil key : fileName key <> [].
Proof.
  unfold fileName. destruct (last (Str.split "/" key) []); discriminate.
Qed.

Lemma last_split_noSep sep s :
  Str.noSep sep (last (Str.split sep s) []) = true.
Proof.
  induction s as [|c s IH]; [reflexivity|].
  cbn [Str.split]. destruct (Ascii.eqb c sep) eqn:E.
  - pose proof (StrFacts.split_not_nil sep s) as Hne.
    destruct (Str.split sep s) as [|h t]; [congruence|exact IH].
  - pose proof (StrFacts.split_not_nil sep s) as Hne.
    destruct (Str.split sep s) as [|h t]; [congruence|].
    destruct t as [|h' t'].
    + cbn [last] in *. cbn [Str.noSep forallb]. rewrite E. exact IH.
    + exact IH.
Qed.

Lemma count_quote_encoded s :
  forallb encodedChar s = true -> count_occ ascii_dec s quote = 0%nat.
Proof.
  induction s as [|c s IH]; [reflexivity|]. cbn [forallb].
  intros H. apply andb_true_iff in H as [Hc Hs].
  rewrite count_occ_cons_neq; [now apply IH|].
  intros ->. discriminate Hc.
Qed.

End MintFacts.

Module MintDisposition.
Import Presign Mint Observe MintFacts.

(** X3.  The command handed to the signer asks for the download name
    [attachment; filename=] followed by a quoted name: the name is the
    percent-encoded last segment of the key, or of [download.zip] when
    the key ends in a slash or is empty; it is never empty and consists
    of unreserved characters and escapes only, so the header value has
    exactly its two delimiting quotes.  (The signer below answers with
    the header it was given.) *)
Theorem download_name_is_quoted_and_safe :
  forall getTeamStorageConfigById (teamId : str) (s3Key : S3KeyInfo)
         (ttl : Z) (config : StorageConfig),
    getTeamStorageConfigById teamId = Ok config ->
    let seen :=
      Eff.outcome
        (generateFreshPresignedUrl getTeamStorageConfigById
           (fun client command expiresIn =>
              Ok (ResponseContentDisposition command))
           teamId s3Key ttl) in
    let segment := last (Str.split "/" (key s3Key)) [] in
    let name := Uri.encodeURIComponent (fileName (key s3Key)) in
    seen = Ok ("attachment; filename=" +++ [quote] +++ name +++ [quote]) /\
    (segment = [] -> fileName (key s3Key) = "download.zip") /\
    (segment <> [] -> fileName (key s3Key) = segment) /\
    Str.noSep "/" segment = true /\
    name <> [] /\
    forallb encodedChar name = true /\
    forall header, seen = Ok header ->
                   count_occ ascii_dec header quote = 2%nat.
Proof.
  intros config_of teamId s3Key ttl config Hc seen segment name.
  assert (Hseen : seen = Ok ("attachment; filename=" +++ [quote] +++ name
                             +++ [quote])).
  { subst seen. unfold generateFreshPresignedUrl.
    rewrite !EffFacts.outcome_bind. cbn [Eff.emit Eff.outcome snd Eff.lift].
    rewrite Hc. reflexivity. }
  split; [exact Hseen|].
  split; [unfold fileName; fold segment; now intros ->|].
  split; [unfold fileName; fold segment; destruct segment; congruence|].
  split; [apply last_split_noSep|].
  split; [apply encoded_not_nil, fileName_not_nil|].
  split; [apply encoded_chars|].
  intros header Hh.
  replace header
    with ("attachment; filename=" +++ [quote] +++ name +++ [quote])
    by congruence.
  rewrite !count_occ_app, (count_quote_encoded name (encoded_chars _)).
  reflexivity.
Qed.

Lemma download_name_is_quoted_and_safe_witness :
  Eff.outcome
    (generateFreshPresignedUrl Sample.config
       (fun client command expiresIn =>
          Ok (ResponseContentDisposition command))
       "team1" {| bucket := "bucket1"; key := "exports/my file.zip";
                  region := "eu-west-1" |} THREE_DAYS_IN_SECONDS)
  = Ok ("attachment; filename=" +++ [quote] +++ "my%20file.zip" +++ [quote]).
Proof.
  exact (proj1 (download_name_is_quoted_and_safe Sample.config "team1"
                  {| bucket := "bucket1"; key := "exports/my file.zip";
                     region := "eu-west-1" |} THREE_DAYS_IN_SECONDS
                  _ eq_refl)).
Defined.

End MintDisposition.

Module ListingAnswers.
Import Presign Jobs JobsFacts.
Local Open Scope Z_scope.


End ListingAnswers.

Module ListingClock.
Import Presign Jobs JobsFacts.
Local Open Scope Z_scope.

Lemma visible_earlier now now' job :
  now <= now' -> VisibleToOwner now' job -> VisibleToOwner now job.
Proof.
  intros Hle [H|[H|[[H (e & He & Hlt)]|[H Hlt]]]].
  - now left.
  - right. now left.
  - right. right. left. split; [exact H|]. exists e. split; [exact He|lia].
  - right. right. right. split; [exact H|lia].
Qed.

(** X5.  A job the filter hides from its owner stays hidden as the clock
    advances: no job comes back into the listing by waiting, and a job
    shown now was shown at every earlier reading of the clock. *)
Theorem hidden_job_stays_hidden :
  forall (user : str) (now now' : Z) (job : DownloadJob),
    now <= now' ->
    (isUserJob user now job = false -> isUserJob user now' job = false) /\
    (isUserJob user now' job = true -> isUserJob user now job = true).
Proof.
  intros user now now' job Hle.
  assert (H : isUserJob user now' job = true ->
              isUserJob user now job = true).
  { rewrite !isUserJob_spec. intros [Hu Hv]. split; [exact Hu|].
    now apply (visible_earlier now now'). }
  split; [|exact H].
  intros Hhidden. destruct (isUserJob user now' job); [|reflexivity].
  rewrite H in Hhidden; [discriminate|reflexivity].
Qed.

Lemma hidden_job_stays_hidden_witness :
  (isUserJob "user1" 1000 (Sample.sampleJob COMPLETED 0 (Some 1000)) = false ->
   isUserJob "user1" 5000 (Sample.sampleJob COMPLETED 0 (Some 1000)) = false)
  /\
  (isUserJob "user1" 5000 (Sample.sampleJob COMPLETED 0 (Some 1000)) = true ->
   isUserJob "user1" 1000 (Sample.sampleJob COMPLETED 0 (Some 1000)) = true).
Proof.
  apply (hidden_job_stays_hidden "user1" 1000 5000
           (Sample.sampleJob COMPLETED 0 (Some 1000))).
  lia.
Defined.

End ListingClock.

Module PartsAccess.
Import Presign Jobs JobsFacts.
Local Open Scope Z_scope.

Lemma optEqb_eq a b : optEqb a b = true -> a = b.
Proof.
  destruct a as [x|], b as [y|]; cbn; try discriminate; [|reflexivity].
  intros H. apply StrFacts.eqb_eq in H. now subst.
Qed.

Lemma statusEq_eq a b : statusEq a b = true -> a = b.
Proof. destruct a, b; cbn; congruence. Qed.

(** An answer that is no redirect. *)
Ltac no_redirect := unfold Eff.ret; discriminate.

(** X6.  The parts endpoint redirects only a viewer to a part of their own
    finished job: whenever it answers with a redirect, the method is
    GET, the session of the link gave a view with an e-mail address,
    the job exists, was made through that link by that address (both
    addresses normalised), and is COMPLETED; and the status is 302. *)
Theorem redirect_only_to_own_completed_job :
  forall config sign normalize getSession findView getJob
         (method : str) (qLinkId qJobId partIndex : option str)
         (t : list event) (code : Z) (url : option str),
    downloadPart config sign normalize getSession findView getJob
      method qLinkId qJobId partIndex
    = (t, Ok (Redirect code url)) ->
    method = "GET" /\ code = 302 /\
    exists link jobId viewId email job,
      qLinkId = Some link /\ qJobId = Some jobId /\
      getSession link = Ok (Some viewId) /\
      findView viewId = Ok (Some (Some email)) /\ email <> [] /\
      getJob jobId = Ok (Some job) /\
      linkId job = Some link /\
      option_map normalize (viewerEmail job) = Some (normalize email) /\
      status job = COMPLETED.
Proof.
  intros config sign normalize getSession findView getJob method
         qLinkId qJobId partIndex t code url.
  unfold downloadPart.
  destruct (Str.eqb method "GET") eqn:Em; cbn [negb]; [|no_redirect].
  apply StrFacts.eqb_eq in Em.
  destruct qLinkId as [[|lc link']|]; try no_redirect.
  destruct qJobId as [[|jc jobId']|]; try no_redirect.
  destruct partIndex as [partIndex|]; try no_redirect.
  set (link := lc :: link'). set (jobId := jc :: jobId').
  destruct (getSession link) as [[viewId|]|e] eqn:Es;
    rewrite ?EffFacts.bind_ok, ?EffFacts.bind_throw; try no_redirect.
  destruct (findView viewId) as [[[[|ec email']|]|]|e] eqn:Ev;
    rewrite ?EffFacts.bind_ok, ?EffFacts.bind_throw; try no_redirect.
  set (email := ec :: email').
  destruct (getJob jobId) as [[job|]|e] eqn:Ej;
    rewrite ?EffFacts.bind_ok, ?EffFacts.bind_throw; try no_redirect.
  destruct (optEqb (linkId job) _) eqn:El; cbn [negb orb];
    [|no_redirect].
  destruct (optEqb (option_map normalize (viewerEmail job)) _) eqn:Ee;
    cbn [negb];
    [|no_redirect].
  destruct (statusEq (status job) COMPLETED) eqn:Est; cbn [negb orb];
    [|no_redirect].
  destruct (nonEmpty (downloadUrls job)); cbn [negb]; [|no_redirect].
  intros H.
  assert (Hcode : code = 302).
  { destruct (Num.parseInt partIndex) as [index|]; [|discriminate].
    destruct ((index <? 0) || _); [discriminate|].
    rewrite (EffFacts.eta (Eff.bind _ _)) in H.
    rewrite EffFacts.outcome_bind in H.
    destruct (match downloadS3Keys job with
              | Some ks => Num.at_ ks index | None => None end) as [k|];
      [destruct (teamId job) as [|tc team']|].
    - cbn [Eff.ret Eff.outcome snd] in H. injection H as _ <- _.
      reflexivity.
    - rewrite EffFacts.outcome_tryCatch, EffFacts.outcome_bind in H.
      destruct (Eff.outcome (generateFreshPresignedUrl _ _ _ _));
        cbn [Eff.ret Eff.outcome snd] in H.
      + injection H as _ <- _. reflexivity.
      + rewrite EffFacts.outcome_bind in H.
        cbn [Eff.emit Eff.ret Eff.outcome snd] in H.
        injection H as _ <- _. reflexivity.
    - cbn [Eff.ret Eff.outcome snd] in H. injection H as _ <- _.
      reflexivity. }
  split; [exact Em|]. split; [exact Hcode|].
  exists link, jobId, viewId, email, job.
  repeat split; try reflexivity; try assumption.
  - discriminate.
  - now apply optEqb_eq.
  - now apply optEqb_eq.
  - now apply statusEq_eq.
Qed.

Lemma redirect_only_to_own_completed_job_witness :
  lit "GET" = "GET" /\ 302 = 302 /\
  exists link jobId viewId email job,
    Some (lit "link1") = Some link /\ Some (lit "job1") = Some jobId /\
    Sample.session link = Ok (Some viewId) /\
    Sample.view viewId = Ok (Some (Some email)) /\ email <> [] /\
    Sample.store (Some [Sample.partKey]) jobId = Ok (Some job) /\
    linkId job = Some link /\
    option_map Sample.normalized (viewerEmail job)
    = Some (Sample.normalized email) /\
    status job = COMPLETED.
Proof.
  exact (redirect_only_to_own_completed_job Sample.config Sample.signer
           Sample.normalized Sample.session Sample.view
           (Sample.store (Some [Sample.partKey]))
           "GET" (Some (lit "link1")) (Some (lit "job1")) (Some (lit "0"))
           _ 302 (Some (lit "https://fresh.example/part0")) eq_refl).
Defined.

End PartsAccess.

Module DebounceMore.
Import Debounce DebounceFacts.
Local Open Scope Z_scope.

Section Route.

Variable runs_list : ListQuery -> result (list Run).
Variable runs_cancel : str -> result unit.

#[local] Abbreviation notify := (notifyUpload runs_list runs_cancel true).

(** The runs step 4 cancels once the listing has answered. *)
Lemma cancelled_notifyUpload teamId dataroomId linkId viewerId docId now
      allRuns :
  runs_list (pendingQuery dataroomId linkId viewerId) = Ok allRuns ->
  cancelled (Eff.trace (notify teamId dataroomId linkId viewerId docId now))
  = map runId (matchingRuns (requiredTags dataroomId linkId viewerId)
                            allRuns).
Proof.
  intros Hlist.
  rewrite (notifyUpload_trace runs_list runs_cancel teamId dataroomId
             linkId viewerId docId now allRuns Hlist).
  rewrite cancelled_app, cancelled_cancels.
  destruct (Eff.outcome _); cbn [cancelled flat_map app theTrigger];
    apply app_nil_r.
Qed.

Lemma triggers_app t1 t2 : triggers (t1 ++ t2) = triggers t1 ++ triggers t2.
Proof. apply filter_app. Qed.

(** Step 4 catches whatever the scheduler throws. *)
Lemma notifyUpload_ok enable teamId dataroomId linkId viewerId docId now :
  Eff.outcome (notifyUpload runs_list runs_cancel enable
                 teamId dataroomId linkId viewerId docId now) = Ok tt.
Proof.
  unfold notifyUpload. destruct enable; [|reflexivity].
  rewrite EffFacts.outcome_tryCatch, EffFacts.outcome_bind.
  cbn [Eff.lift Eff.outcome snd].
  destruct (runs_list _) as [allRuns|e]; [|reflexivity].
  rewrite EffFacts.outcome_bind.
  destruct (Eff.outcome (Eff.all _ _)) as [us|e]; reflexivity.
Qed.

End Route.

(** The tags of a trigger contain the required tags of its own
    correlation. *)
Lemma own_trigger_matches (team d l v : str) run :
  tags run = Some (triggerTags team d l v) ->
  hasEvery (requiredTags d l v) run = true.
Proof.
  intros Ht. apply hasEvery_spec. intros tag Hin.
  exists (triggerTags team d l v). split; [exact Ht|].
  unfold requiredTags in Hin. unfold triggerTags. cbn [In] in *.
  intuition.
Qed.

End DebounceMore.

Module DebounceContained.
Import Debounce DebounceFacts DebounceMore.
Local Open Scope Z_scope.

(** X7.  Step 4 of the upload route never throws, so a scheduler failure
    cannot fail the upload: with notifications off it does nothing; when
    listing the pending runs fails it logs that error and neither
    cancels nor schedules anything. *)
Theorem notification_step_never_throws :
  forall runs_list runs_cancel (enableNotification : bool)
         (teamId dataroomId linkId viewerId docId : str) (now : Z),
    let run :=
      notifyUpload runs_list runs_cancel enableNotification
        teamId dataroomId linkId viewerId docId now in
    Eff.outcome run = Ok tt /\
    (enableNotification = false -> Eff.trace run = []) /\
    (forall e,
       enableNotification = true ->
       runs_list (pendingQuery dataroomId linkId viewerId) = Throw e ->
       Eff.trace run
       = [ConsoleError "Error triggering upload notification:" e]).
Proof.
  intros runs_list runs_cancel enable teamId dataroomId linkId viewerId
         docId now run.
  subst run. unfold notifyUpload.
  fold (pendingQuery dataroomId linkId viewerId).
  split; [|split].
  - apply notifyUpload_ok.
  - now intros ->.
  - intros e -> He. now rewrite He.
Qed.

End DebounceContained.

Module DebounceLostTrigger.
Import Debounce DebounceFacts DebounceMore.
Local Open Scope Z_scope.

(** X8.  When cancelling one of the matching runs fails, every matching run
    has still been asked to cancel, the error is logged, and no new
    trigger is scheduled for the upload. *)
Theorem failed_cancel_schedules_nothing :
  forall runs_list runs_cancel
         (teamId dataroomId linkId viewerId docId : str) (now : Z) allRuns,
    runs_list (pendingQuery dataroomId linkId viewerId) = Ok allRuns ->
    let matching :=
      matchingRuns (requiredTags dataroomId linkId viewerId) allRuns in
    (exists run e, In run matching /\ runs_cancel (runId run) = Throw e) ->
    let t := Eff.trace (notifyUpload runs_list runs_cancel true
                          teamId dataroomId linkId viewerId docId now) in
    triggers t = [] /\
    cancelled t = map runId matching /\
    exists e,
      t = map (fun run => RunsCancel (runId run)) matching ++
          [ConsoleError "Error triggering upload notification:" e].
Proof.
  intros runs_list runs_cancel teamId dataroomId linkId viewerId docId now
         allRuns Hlist matching (run & e & Hin & He) t.
  assert (Hfail : exists e',
             Eff.outcome (Eff.all (cancelOne runs_cancel) matching)
             = Throw e').
  { apply EffFacts.all_throws. exists run, e. split; [exact Hin|].
    unfold cancelOne. rewrite EffFacts.outcome_bind.
    cbn [Eff.emit Eff.lift Eff.outcome snd]. exact He. }
  destruct Hfail as [e' He'].
  pose proof (notifyUpload_trace runs_list runs_cancel teamId dataroomId
                linkId viewerId docId now allRuns Hlist) as Ht.
  cbv zeta in Ht. fold matching in Ht. rewrite He' in Ht. fold t in Ht.
  split; [|split].
  - rewrite Ht, triggers_app, triggers_cancels. reflexivity.
  - subst t. now apply cancelled_notifyUpload.
  - now exists e'.
Qed.

Lemma failed_cancel_schedules_nothing_witness :
  triggers (Eff.trace
              (notifyUpload SampleRuns.listing
                 (fun _ => Throw (Err "run is already executing")) true
                 "team1" "room1" "link1" "viewer1" "doc9" 0)) = [] /\
  cancelled (Eff.trace
               (notifyUpload SampleRuns.listing
                  (fun _ => Throw (Err "run is already executing")) true
                  "team1" "room1" "link1" "viewer1" "doc9" 0))
  = [lit "run1"] /\
  exists e,
    Eff.trace
      (notifyUpload SampleRuns.listing
         (fun _ => Throw (Err "run is already executing")) true
         "team1" "room1" "link1" "viewer1" "doc9" 0)
    = [RunsCancel "run1"] ++
      [ConsoleError "Error triggering upload notification:" e].
Proof.
  apply (failed_cancel_schedules_nothing SampleRuns.listing
           (fun _ => Throw (Err "run is already executing"))
           "team1" "room1" "link1" "viewer1" "doc9" 0
           [SampleRuns.ownRun; SampleRuns.otherRun] eq_refl).
  exists SampleRuns.ownRun, (Err "run is already executing").
  split; [left; reflexivity|reflexivity].
Defined.

End DebounceLostTrigger.

Module DebounceNext.
Import Debounce DebounceFacts DebounceMore.
Local Open Scope Z_scope.

(** X9.  Debouncing composes: a pending run that carries the tags the route
    wrote for an earlier upload of the same dataroom, link and viewer
    (whatever the team and document) is cancelled by the next upload of
    that correlation, provided the listing returns it. *)
Theorem next_upload_cancels_previous_trigger :
  forall runs_list runs_cancel
         (team0 teamId dataroomId linkId viewerId docId : str) (now : Z)
         allRuns run,
    runs_list (pendingQuery dataroomId linkId viewerId) = Ok allRuns ->
    In run allRuns ->
    tags run = Some (triggerTags team0 dataroomId linkId viewerId) ->
    In (runId run)
       (cancelled (Eff.trace (notifyUpload runs_list runs_cancel true
                                teamId dataroomId linkId viewerId docId
                                now))).
Proof.
  intros runs_list runs_cancel team0 teamId dataroomId linkId viewerId docId
         now allRuns run Hlist Hin Htags.
  rewrite (cancelled_notifyUpload runs_list runs_cancel _ _ _ _ _ _ _ Hlist).
  apply in_map. unfold matchingRuns. apply filter_In. split; [exact Hin|].
  now apply (own_trigger_matches team0).
Qed.

Lemma next_upload_cancels_previous_trigger_witness :
  In (lit "run1")
     (cancelled (Eff.trace (notifyUpload SampleRuns.listing
                              SampleRuns.cancelling true
                              "team1" "room1" "link1" "viewer1" "doc10"
                              300000))).
Proof.
  exact (next_upload_cancels_previous_trigger SampleRuns.listing
           SampleRuns.cancelling "team1" "team1" "room1" "link1" "viewer1"
           "doc10" 300000 [SampleRuns.ownRun; SampleRuns.otherRun]
           SampleRuns.ownRun eq_refl (or_introl eq_refl) eq_refl).
Defined.

End DebounceNext.

Module ConvertMore.
Import Convert ConvertFacts Observe.
Local Open Scope Z_scope.

Section Task.

Variable team_findUnique : str -> result (option unit).
Variable document_findUnique : ConvertPayload -> result (option Document).
Variable getFile : str -> str -> result str.
Variable convertFromUrl : str -> result Response.
Variable convertFile : str -> str -> str -> result Response.
Variable fetchFile : str -> result Response.
Variable writeFile : str -> str -> result unit.
Variable readFile : str -> result str.
Variable runSanitizer : str -> str -> result str.
Variable saveConverted : Document -> Version -> str -> result unit.

#[local] Abbreviation sanitizeAndRetry :=
  (Convert.sanitizeAndRetry convertFile fetchFile writeFile readFile
     runSanitizer).

(** The DOCX branch ends by unlinking both temporary files, and unlinks
    nothing before. *)
Lemma sanitize_unlinks_last doc contentType fileUrl response input output :
  exists t,
    Eff.trace (sanitizeAndRetry doc contentType fileUrl response
                 input output)
    = t ++ [Unlink input; Unlink output] /\
    filter isUnlink t = [].
Proof.
  unfold Convert.sanitizeAndRetry, attemptConversion. run_effects.
  repeat break_match; eexists; (split; [reflexivity|reflexivity]).
Qed.

#[local] Abbreviation task :=
  (convertFilesToPdfTask team_findUnique document_findUnique getFile
     convertFromUrl convertFile fetchFile writeFile readFile runSanitizer
     saveConverted).

(** The run of the task on a DOCX whose primary request failed: what was
    done before the DOCX branch, then the branch, then the saving. *)
Lemma docx_failure_run payload input output docName version more
      (contentType fileUrl : str) :
  PrimaryFails team_findUnique document_findUnique getFile convertFromUrl
               payload docName version more contentType fileUrl ->
  contentType = DOCX ->
  exists before response,
    filter isTempFile before = [] /\
    let doc := {| name := docName; versions := version :: more |} in
    let branch :=
      sanitizeAndRetry doc contentType fileUrl response input output in
    Eff.trace (task payload input output) = before ++ Eff.trace branch /\
    Eff.outcome (task payload input output)
    = match Eff.outcome branch with
      | Ok buffer => saveConverted doc version buffer
      | Throw e => Throw e
      end.
Proof.
  intros [Hteam Hdoc (original & Ho & Hone & Hfile) [Hct Hcne] Hfail] Hdocx.
  destruct version as [vo vc vs].
  cbn [originalFile Convert.contentType storageType] in *. subst vo vc.
  destruct original as [|oc original']; [congruence|].
  destruct contentType as [|cc contentType']; [congruence|].
  assert (Edocx : Str.eqb (cc :: contentType') DOCX = true)
    by now apply StrFacts.eqb_eq.
  unfold convertFilesToPdfTask. run_effects.
  rewrite Hteam, Hdoc. cbv beta iota zeta. rewrite Hfile, Edocx.
  destruct Hfail as [[e He]|(r & He & Hr)]; rewrite He; [|rewrite Hr];
    cbv beta iota delta [negb ok].
  - exists [UpdateStatus 0 "Initializing..."; UpdateStatus 10 "Retrieving file...";
            UpdateStatus 20 "Converting document…"; ConvertRequest false;
            LoggerWarn
              "Gotenberg conversion failed, will attempt sanitization"],
           unreachable.
    split; [reflexivity|]. unfold unreachable.
    destruct (Convert.sanitizeAndRetry _ _ _ _ _ _ _ _ _ _ _)
      as [ts [buffer|err]];
      cbn [app]; rewrite ?app_nil_r; split; reflexivity.
  - exists [UpdateStatus 0 "Initializing..."; UpdateStatus 10 "Retrieving file...";
            UpdateStatus 20 "Converting document…"; ConvertRequest false],
           r.
    split; [reflexivity|].
    destruct (Convert.sanitizeAndRetry _ _ _ _ _ _ _ _ _ _ _)
      as [ts [buffer|err]];
      cbn [app]; rewrite ?app_nil_r; split; reflexivity.
Qed.

Lemma no_temp_no_unlink t :
  filter isTempFile t = [] -> filter isUnlink t = [].
Proof.
  induction t as [|ev t IH]; [reflexivity|]. cbn [filter].
  destruct ev; cbn [isTempFile isUnlink]; try exact IH; discriminate.
Qed.

End Task.
End ConvertMore.

Module ConvertCleanup.
Import Convert ConvertFacts Observe ConvertMore.
Local Open Scope Z_scope.


Lemma docx_primary_fails :
  PrimaryFails SampleConversion.team0 SampleConversion.document0
    SampleConversion.getFile0 SampleConversion.convertFromUrl0
    SampleConversion.payload0 "report" SampleConversion.version0 [] DOCX
    "https://files.example/report.docx".
Proof.
  constructor; try reflexivity.
  - exists (lit "doc_1/report.docx"). repeat split. discriminate.
  - split; [reflexivity|discriminate].
  - right. exists SampleConversion.refused. now split.
Defined.


End ConvertCleanup.

Module ConvertFailureMessage.
Import Convert ConvertFacts Observe ConvertMore.
Local Open Scope Z_scope.

(** X11.  For a document that is no DOCX, a failed primary request makes the
    task throw [Conversion failed: <message> (<status>)]: the message is
    the [message] of the JSON body, else the status text, else
    [Unknown error]; and when the request itself throws (time-out,
    unreachable backend) the error is exactly
    [Conversion failed: Conversion timed out or unreachable (504)]. *)
Theorem failed_conversion_message :
  forall team_findUnique document_findUnique getFile convertFromUrl
         convertFile fetchFile writeFile readFile runSanitizer saveConverted
         payload (input output docName : str) version more
         (contentType fileUrl : str),
    PrimaryFails team_findUnique document_findUnique getFile convertFromUrl
                 payload docName version more contentType fileUrl ->
    contentType <> DOCX ->
    let outcome :=
      Eff.outcome
        (convertFilesToPdfTask team_findUnique document_findUnique getFile
           convertFromUrl convertFile fetchFile writeFile readFile
           runSanitizer saveConverted payload input output) in
    (forall r,
       convertFromUrl fileUrl = Ok r ->
       outcome
       = Throw (Err ("Conversion failed: " +++ failureMessage r +++ " ("
                     +++ Num.toString (status r) +++ ")")) /\
       (forall m, jsonMessage r = Ok (Some m) -> failureMessage r = m) /\
       (jsonMessage r = Ok None -> failureMessage r = statusText r) /\
       (forall e, jsonMessage r = Throw e ->
                  failureMessage r
                  = match statusText r with
                    | [] => lit "Unknown error"
                    | text => text
                    end)) /\
    (forall e,
       convertFromUrl fileUrl = Throw e ->
       outcome
       = Throw (Err
           "Conversion failed: Conversion timed out or unreachable (504)")).
Proof.
  intros team_findUnique document_findUnique getFile convertFromUrl
         convertFile fetchFile writeFile readFile runSanitizer saveConverted
         payload input output docName version more contentType fileUrl
         [Hteam Hdoc (original & Ho & Hone & Hfile) [Hct Hcne] Hfail] Hdocx
         outcome.
  destruct version as [vo vc vs].
  cbn [originalFile Convert.contentType storageType] in *. subst vo vc.
  destruct original as [|oc original']; [congruence|].
  destruct contentType as [|cc contentType']; [congruence|].
  apply StrFacts.eqb_neq in Hdocx.
  subst outcome. unfold convertFilesToPdfTask. run_effects.
  rewrite Hteam, Hdoc. cbv beta iota zeta. rewrite Hfile, Hdocx.
  split.
  - intros r Hr. rewrite Hr.
    destruct Hfail as [[e He]|(r' & He & Hok)]; [congruence|].
    assert (r' = r) by congruence. subst r'. rewrite Hok.
    cbv beta iota delta [negb]. split; [reflexivity|].
    unfold failureMessage. split; [|split].
    + now intros m ->.
    + now intros ->.
    + now intros e ->.
  - intros e He. rewrite He. reflexivity.
Qed.

Lemma failed_conversion_message_witness :
  Eff.outcome
    (convertFilesToPdfTask SampleConversion.team0
       (fun _ => Ok (Some {| name := "slides";
                             versions := [ {| originalFile :=
                                                Some (lit "doc_2/slides.pptx");
                                              contentType :=
                                                Some (lit "application/vnd.ms-powerpoint");
                                              storageType := "S3_PATH" |} ] |}))
       SampleConversion.getFile0
       (fun _ => Throw (mkError "TimeoutError" "The operation timed out"))
       SampleConversion.convertFile0 (fun _ => Ok SampleConversion.forbidden)
       SampleConversion.writeFile0 SampleConversion.readFile0
       SampleConversion.runSanitizer0 SampleConversion.saveConverted0
       SampleConversion.payload0 "/tmp/input-1.docx" "/tmp/output-1.docx")
  = Throw (Err "Conversion failed: Conversion timed out or unreachable (504)").
Proof.
  refine (proj2 (failed_conversion_message SampleConversion.team0 _
                   SampleConversion.getFile0
                   (fun _ => Throw (mkError "TimeoutError"
                                            "The operation timed out"))
                   _ _ _ _ _ _ SampleConversion.payload0 _ _ "slides"
                   {| originalFile := Some (lit "doc_2/slides.pptx");
                      contentType :=
                        Some (lit "application/vnd.ms-powerpoint");
                      storageType := "S3_PATH" |} []
                   "application/vnd.ms-powerpoint"
                   "https://files.example/report.docx" _ _) _ eq_refl).
  - constructor; try reflexivity.
    + exists (lit "doc_2/slides.pptx"). repeat split. discriminate.
    + split; [reflexivity|discriminate].
    + left. eexists. reflexivity.
  - discriminate.
Defined.

End ConvertFailureMessage.

Module ConvertGuards.
Import Convert ConvertFacts Observe ConvertMore.
Local Open Scope Z_scope.

(** X12.  The task asks the backend for a conversion only for a team that
    exists and a document found with a version that has its original
    file and its content type, and after the file's URL was obtained.
    When the team is missing, or the document is incomplete, the task
    logs an error and returns normally, so the scheduler does not retry
    it. *)
Theorem conversion_needs_a_complete_document :
  forall team_findUnique document_findUnique getFile convertFromUrl
         convertFile fetchFile writeFile readFile runSanitizer saveConverted
         payload (input output : str),
    let run :=
      convertFilesToPdfTask team_findUnique document_findUnique getFile
        convertFromUrl convertFile fetchFile writeFile readFile runSanitizer
        saveConverted payload input output in
    (count isPrimary (Eff.trace run) <> 0%nat ->
     (exists team, team_findUnique (teamId payload) = Ok (Some team)) /\
     exists docName version more original type fileUrl,
       document_findUnique payload
       = Ok (Some {| name := docName; versions := version :: more |}) /\
       originalFile version = Some original /\ original <> [] /\
       Convert.contentType version = Some type /\ type <> [] /\
       getFile original (storageType version) = Ok fileUrl) /\
    (team_findUnique (teamId payload) = Ok None ->
     run = ([UpdateStatus 0 "Initializing..."; LoggerError "Team not found"],
            Ok tt)) /\
    (forall team document,
       team_findUnique (teamId payload) = Ok (Some team) ->
       document_findUnique payload = Ok document ->
       incomplete document ->
       run = ([UpdateStatus 0 "Initializing...";
               UpdateStatus 0 "Document not found";
               LoggerError "Document not found"], Ok tt)).
Proof.
  intros team_findUnique document_findUnique getFile convertFromUrl
         convertFile fetchFile writeFile readFile runSanitizer saveConverted
         payload input output run.
  subst run. unfold convertFilesToPdfTask. split; [|split].
  - run_effects.
    destruct (team_findUnique (teamId payload)) as [[team|]|e];
      try (intros H; exfalso; apply H; reflexivity).
    destruct (document_findUnique payload)
      as [[[docName [|[[[|oc original]|] [[|cc type]|] storage] more]]|]|e];
      try (intros H; exfalso; apply H; reflexivity).
    destruct (getFile (oc :: original) storage) as [fileUrl|e] eqn:Efile;
      try (intros H; exfalso; apply H; reflexivity).
    intros _. split; [now exists team|].
    exists docName,
      {| originalFile := Some (oc :: original);
         Convert.contentType := Some (cc :: type);
         storageType := storage |},
      more, (oc :: original), (cc :: type), fileUrl.
    repeat split; try discriminate. exact Efile.
  - intros Hteam. run_effects. now rewrite Hteam.
  - intros team document Hteam Hdoc Hinc. run_effects.
    rewrite Hteam, Hdoc. unfold incomplete in Hinc.
    destruct document as [[docName [|[[[|oc original]|] [[|cc type]|] storage]
                                      more]]|];
      cbn in Hinc; try reflexivity;
      destruct Hinc as [Hinc|Hinc]; discriminate Hinc.
Qed.

End ConvertGuards.

Module BatchFacts.
Import Presign Batch Observe.
Local Open Scope Z_scope.

Lemma sameToken_eq (a b : option str) : sameToken a b = true <-> a = b.
Proof.
  destruct a as [x|], b as [y|]; cbn; split; try congruence.
  - intros H. apply StrFacts.eqb_eq in H. now subst.
  - intros H. injection H as ->. apply StrFacts.eqb_refl.
Qed.

End BatchFacts.

Module BatchToken.
Import Presign Batch Observe BatchFacts.
Local Open Scope Z_scope.

(** X13.  A POST is refused with 401 exactly when the second word of the
    Authorization header differs from INTERNAL_API_KEY, compared as
    JavaScript values: when the key is not configured, a request with no
    Authorization header (or a header of one word) is not refused. *)
Theorem unauthorised_exactly_when_token_differs :
  forall (Number : Type) (isZero : Number -> bool) ToString JSON_parse
         new_URL getLambdaClientForTeam getTeamStorageConfigById send
         (authorization key : option str) (body : value Number),
    let answer :=
      processBatch isZero ToString JSON_parse new_URL
        getLambdaClientForTeam getTeamStorageConfigById send
        "POST" authorization key body in
    (bearer authorization <> key <->
     answer = ([], Ok (Json 401 (MessageBody "Unauthorized")))) /\
    (bearer authorization <> key <->
     exists r, Eff.outcome answer = Ok r /\ Observe.code r = 401) /\
    (key = None ->
     authorization = None \/
     (exists word, authorization = Some word /\ Str.noSep " " word = true) ->
     forall r, Eff.outcome answer = Ok r -> Observe.code r <> 401).
Proof.
  intros Number isZero ToString JSON_parse new_URL getLambdaClientForTeam
         getTeamStorageConfigById send authorization key body answer.
  assert (Hno : bearer authorization = key ->
                forall r, Eff.outcome answer = Ok r -> Observe.code r <> 401).
  { intros Hk r Hr. subst answer.
    unfold Batch.processBatch in Hr. apply sameToken_eq in Hk.
    rewrite StrFacts.eqb_refl, Hk in Hr. cbn [negb] in Hr.
    rewrite EffFacts.outcome_tryCatch in Hr.
    revert Hr. ConvertFacts.run_effects.
    repeat ConvertFacts.break_match; intros Hr; injection Hr as <-;
      discriminate. }
  assert (Hyes : bearer authorization <> key ->
                 answer = ([], Ok (Json 401 (MessageBody "Unauthorized")))).
  { intros Hk. subst answer. unfold Batch.processBatch.
    destruct (sameToken (bearer authorization) key) eqn:E.
    - apply sameToken_eq in E. contradiction.
    - reflexivity. }
  split; [|split].
  - split; [exact Hyes|].
    intros Ha Hk. apply (Hno Hk (Json 401 (MessageBody "Unauthorized"))).
    + now rewrite Ha.
    + reflexivity.
  - split.
    + intros Hk. rewrite (Hyes Hk). eexists. split; reflexivity.
    + intros (r & Hr & Hc) Hk. now apply (Hno Hk r).
  - intros -> Hauth. apply Hno.
    destruct Hauth as [->|(word & -> & Hw)]; [reflexivity|].
    unfold bearer. now rewrite (StrFacts.split_noSep _ _ Hw).
Qed.

End BatchToken.

Module BatchInvocation.
Import Presign Batch BatchFacts.
Local Open Scope Z_scope.

(** X14.  The backend is invoked only for an authorised, complete request:
    whenever the endpoint invokes a function, the method is POST, the
    bearer token equals INTERNAL_API_KEY, the body is an object whose
    teamId, sourceBucket, fileKeys and folderStructure are all truthy,
    the team's client and storage configuration were obtained, and the
    function is the one named in that configuration. *)
Theorem backend_invoked_only_when_authorised :
  forall (Number : Type) (isZero : Number -> bool) ToString JSON_parse
         new_URL getLambdaClientForTeam getTeamStorageConfigById send
         (method : str) (authorization key : option str)
         (body : value Number) (functionName : str),
    In (LambdaInvoke functionName)
       (Eff.trace
          (processBatch isZero ToString JSON_parse new_URL
             getLambdaClientForTeam getTeamStorageConfigById send
             method authorization key body)) ->
    method = "POST" /\ bearer authorization = key /\
    exists fields config,
      body = Some (JObj fields) /\
      (forall k, In k requiredFields ->
                 isTruthy isZero (lookup k fields) = true) /\
      getLambdaClientForTeam (jsString ToString (lookup "teamId" fields))
      = Ok tt /\
      getTeamStorageConfigById (jsString ToString (lookup "teamId" fields))
      = Ok config /\
      functionName = Mint.lambdaFunctionName config.
Proof.
  intros Number isZero ToString JSON_parse new_URL getLambdaClientForTeam
         getTeamStorageConfigById send method authorization key body
         functionName.
  unfold Batch.processBatch.
  destruct (Str.eqb method "POST") eqn:Em; cbn [negb];
    [|intros []].
  apply StrFacts.eqb_eq in Em.
  destruct (sameToken (bearer authorization) key) eqn:Ek; cbn [negb];
    [|intros []].
  apply sameToken_eq in Ek.
  destruct body as [[| | | | |fields]|];
    try (intros H; exfalso; revert H; ConvertFacts.run_effects; cbn;
         intuition discriminate).
  cbn [get]. unfold value. rewrite !EffFacts.bind_ok.
  destruct (isTruthy isZero (lookup "teamId" fields)) eqn:E1;
    [|intros H; exfalso; revert H; cbn; intuition discriminate].
  destruct (isTruthy isZero (lookup "sourceBucket" fields)) eqn:E2;
    [|intros H; exfalso; revert H; cbn; intuition discriminate].
  destruct (isTruthy isZero (lookup "fileKeys" fields)) eqn:E3;
    [|intros H; exfalso; revert H; cbn; intuition discriminate].
  destruct (isTruthy isZero (lookup "folderStructure" fields)) eqn:E4;
    [|intros H; exfalso; revert H; cbn; intuition discriminate].
  cbn [negb orb].
  destruct (getLambdaClientForTeam _) as [[]|e1] eqn:Ec;
    [|intros H; exfalso; revert H;
      destruct (getTeamStorageConfigById _); cbn; intuition discriminate].
  destruct (getTeamStorageConfigById _) as [config|e2] eqn:Eg;
    [|intros H; exfalso; revert H; cbn; intuition discriminate].
  intros H.
  assert (Hf : functionName = Mint.lambdaFunctionName config).
  { assert (Hin : In (LambdaInvoke functionName)
                     [LambdaInvoke (Mint.lambdaFunctionName config)]).
    { match type of H with
      | In _ ?t =>
          replace [LambdaInvoke (Mint.lambdaFunctionName config)]
            with (filter isInvoke t);
          [apply filter_In; split; [exact H|reflexivity]|]
      end.
      cbn [Eff.both Eff.lift]. ConvertFacts.run_effects.
      cbv beta iota zeta.
      repeat ConvertFacts.break_match; reflexivity. }
    destruct Hin as [Hin|[]]. now injection Hin. }
  split; [exact Em|]. split; [exact Ek|].
  exists fields, config. repeat split; try assumption.
  intros k Hk. unfold requiredFields in Hk. cbn [In] in Hk.
  destruct Hk as [<-|[<-|[<-|[<-|[]]]]]; assumption.
Qed.

Lemma backend_invoked_only_when_authorised_witness :
  lit "POST" = "POST" /\
  bearer (Some (lit "Bearer secret")) = Some (lit "secret") /\
  exists fields config,
    Some (JObj SampleBatch.request) = Some (JObj fields) /\
    (forall k, In k requiredFields ->
               isTruthy (fun _ : unit => false) (lookup k fields) = true) /\
    SampleBatch.client
      (jsString SampleBatch.render (lookup "teamId" fields)) = Ok tt /\
    Sample.config (jsString SampleBatch.render (lookup "teamId" fields))
    = Ok config /\
    lit "bulk-download" = Mint.lambdaFunctionName config.
Proof.
  apply (backend_invoked_only_when_authorised unit (fun _ : unit => false)
           SampleBatch.render SampleBatch.parser httpsURL SampleBatch.client
           Sample.config SampleBatch.backend
           "POST" (Some (lit "Bearer secret")) (Some (lit "secret"))
           (Some (JObj SampleBatch.request)) "bulk-download").
  left. reflexivity.
Defined.

End BatchInvocation.

Module NotifyFacts.
Import Notify.
Local Open Scope Z_scope.

Lemma sameEmail_refl (e : str) : sameEmail (Some e) e = true.
Proof. apply StrFacts.eqb_refl. Qed.

(** The list in copy before the link's owner is considered leaves out
    the primary recipient. *)
Lemma others_exclude (admin : str) emails :
  ~ In (Some admin)
       (filter (fun e => negb (sameEmail e admin)) emails).
Proof.
  intros H. apply filter_In in H as [_ H].
  now rewrite sameEmail_refl in H.
Qed.

Lemma orElse_not_nil o (d : str) : d <> [] -> orElse o d <> [].
Proof. intros Hd. destruct o as [[|c s]|]; cbn; congruence. Qed.

Ltac run_task :=
  cbv beta iota zeta delta
    [Eff.bind Eff.both Eff.tryCatch Eff.emit Eff.lift Eff.throw Eff.ret
     Eff.trace Eff.outcome fst snd].

End NotifyFacts.

Module NotifyRecipients.
Import Notify NotifyFacts.
Local Open Scope Z_scope.

(** X15.  Whenever the task asks the send endpoint for a notification, there
    were recent uploads, the recipient is the e-mail address of the
    first ADMIN among the team's members, that address is not also in
    copy, and there is one document name per upload, none of them empty
    (a missing name reads [Untitled document]). *)
Theorem notification_is_addressed_to_the_admin :
  forall documentUpload_findMany dataroom_findUnique link_findUnique
         userTeam_findMany userTeam_findUnique postNotification
         payload (now : Z) (owner : str) copy names,
    In (SendNotification owner copy names)
       (Eff.trace
          (sendDataroomUploadNotificationTask documentUpload_findMany
             dataroom_findUnique link_findUnique userTeam_findMany
             userTeam_findUnique postNotification payload now)) ->
    exists uploads users admin,
      documentUpload_findMany payload (now - 10 * 60 * 1000) = Ok uploads /\
      uploads <> [] /\
      userTeam_findMany (teamId payload) = Ok users /\
      find isAdmin users = Some admin /\
      email admin = Some owner /\ owner <> [] /\
      ~ In (Some owner) copy /\
      names = map (fun upload => orElse (originalFilename upload)
                                        "Untitled document") uploads /\
      Forall (fun name => name <> []) names.
Proof.
  intros documentUpload_findMany dataroom_findUnique link_findUnique
         userTeam_findMany userTeam_findUnique postNotification
         payload now owner copy names.
  unfold sendDataroomUploadNotificationTask. run_task.
  destruct (documentUpload_findMany payload (now - 10 * 60 * 1000))
    as [[|first rest]|e] eqn:Eu;
    try (cbn; intuition discriminate).
  destruct (dataroom_findUnique (dataroomId payload)) as [[room|]|e1];
    destruct (link_findUnique (linkId payload)) as [link|e2];
    try (cbn; intuition discriminate).
  destruct (userTeam_findMany (teamId payload)) as [users|e] eqn:Eusers;
    try (cbn; intuition discriminate).
  destruct (find isAdmin users) as [admin|] eqn:Eadmin;
    try (cbn; intuition discriminate).
  destruct (email admin) as [[|c adminEmail]|] eqn:Eemail;
    try (cbn; intuition discriminate).
  set (names0 := map (fun upload => orElse (originalFilename upload)
                                           "Untitled document")
                     (first :: rest)).
  set (others := filter (fun e => negb (sameEmail e (c :: adminEmail)))
                        (map email users)).
  assert (Hnames : Forall (fun name : str => name <> []) names0).
  { subst names0. apply Forall_forall. intros name Hin.
    apply in_map_iff in Hin as (upload & <- & _).
    apply orElse_not_nil. discriminate. }
  assert (Hothers : ~ In (Some (c :: adminEmail)) others)
    by apply others_exclude.
  intros H.
  assert (Hsent : owner = c :: adminEmail /\ names = names0 /\
                  (copy = others \/
                   exists ownerEmail,
                     copy = others ++ [Some ownerEmail] /\
                     Str.eqb ownerEmail (c :: adminEmail) = false)).
  { revert H.
    destruct link as [[linkName [[|oc ownerId]|]]|];
      try destruct (userTeam_findUnique _ _) as [[[[|c' ownerEmail]|]|]|e];
      try destruct (negb (Str.eqb _ _)) eqn:Eneq; cbn [andb];
      try destruct (negb (includesEmail _ _));
      repeat ConvertFacts.break_match; cbn [In app];
      intros H; repeat (destruct H as [H|H]; try discriminate H);
      try contradiction; injection H as <- <- <-;
      (split; [reflexivity|]); (split; [reflexivity|]);
      try (left; reflexivity);
      right; eexists; (split; [reflexivity|]);
      now apply negb_true_iff in Eneq. }
  destruct Hsent as (-> & -> & Hcopy).
  exists (first :: rest), users, admin.
  repeat split; try assumption; try discriminate.
  destruct Hcopy as [->|(ownerEmail & -> & Hne)]; [exact Hothers|].
  intros Hin. apply in_app_or in Hin as [Hin|[Hin|[]]]; [now apply Hothers|].
  injection Hin as ->. now rewrite StrFacts.eqb_refl in Hne.
Qed.

Lemma notification_is_addressed_to_the_admin_witness :
  exists uploads users admin,
    SampleTask.uploads0 SampleTask.payload0 (0 - 10 * 60 * 1000)
    = Ok uploads /\
    uploads <> [] /\
    SampleTaskAdmin.members0 (teamId SampleTask.payload0) = Ok users /\
    find isAdmin users = Some admin /\
    email admin = Some (lit "admin@example.com") /\
    lit "admin@example.com" <> [] /\
    ~ In (Some (lit "admin@example.com"))
         [Some (lit "manager@example.com")] /\
    [lit "a.pdf"]
    = map (fun upload => orElse (originalFilename upload)
                                "Untitled document") uploads /\
    Forall (fun name : str => name <> []) [lit "a.pdf"].
Proof.
  apply (notification_is_addressed_to_the_admin SampleTask.uploads0
           SampleTask.dataroom0 SampleTask.link0 SampleTaskAdmin.members0
           SampleTask.owner0 SampleTask.post0 SampleTask.payload0 0
           "admin@example.com" [Some (lit "manager@example.com")]
           [lit "a.pdf"]).
  left. reflexivity.
Defined.

End NotifyRecipients.


Module NotifyErrors.
Import Notify NotifyFacts.
Local Open Scope Z_scope.

(** X16.  The task throws (and is retried by the scheduler) only when one of
    its reads of the database throws: a send endpoint that cannot be
    reached, answers with an error status, or answers with a body that
    cannot be read is logged and the task returns normally. *)
Theorem task_throws_only_database_errors :
  forall documentUpload_findMany dataroom_findUnique link_findUnique
         userTeam_findMany userTeam_findUnique postNotification
         payload (now : Z) (e : error),
    Eff.outcome
      (sendDataroomUploadNotificationTask documentUpload_findMany
         dataroom_findUnique link_findUnique userTeam_findMany
         userTeam_findUnique postNotification payload now) = Throw e ->
    documentUpload_findMany payload (now - 10 * 60 * 1000) = Throw e \/
    dataroom_findUnique (dataroomId payload) = Throw e \/
    link_findUnique (linkId payload) = Throw e \/
    userTeam_findMany (teamId payload) = Throw e \/
    exists user, userTeam_findUnique user (teamId payload) = Throw e.
Proof.
  intros documentUpload_findMany dataroom_findUnique link_findUnique
         userTeam_findMany userTeam_findUnique postNotification
         payload now e.
  unfold sendDataroomUploadNotificationTask. run_task.
  destruct (documentUpload_findMany payload (now - 10 * 60 * 1000))
    as [[|first rest]|e0] eqn:Eu;
    try discriminate; [|intros H; injection H as <-; now left].
  destruct (dataroom_findUnique (dataroomId payload)) as [[room|]|e1];
    destruct (link_findUnique (linkId payload)) as [link|e2];
    try discriminate;
    try (intros H; injection H as <-; tauto).
  destruct (userTeam_findMany (teamId payload)) as [users|e3];
    [|intros H; injection H as <-; tauto].
  destruct (find isAdmin users) as [admin|]; try discriminate.
  destruct (email admin) as [[|c adminEmail]|]; try discriminate.
  destruct link as [[linkName [[|oc ownerId]|]]|];
    try destruct (userTeam_findUnique (oc :: ownerId) (teamId payload))
      as [[[[|c' ownerEmail]|]|]|e4] eqn:Eowner;
    try destruct (negb (Str.eqb _ _) && _);
    repeat ConvertFacts.break_match; try discriminate;
    intros H; injection H as <-;
    right; right; right; right; eexists; exact Eowner.
Qed.

Lemma task_throws_only_database_errors_witness :
  SampleTaskAdmin.lostUploads SampleTask.payload0 (0 - 10 * 60 * 1000)
  = Throw (Err "connection lost") \/
  SampleTask.dataroom0 (dataroomId SampleTask.payload0)
  = Throw (Err "connection lost") \/
  SampleTask.link0 (linkId SampleTask.payload0)
  = Throw (Err "connection lost") \/
  SampleTaskAdmin.members0 (teamId SampleTask.payload0)
  = Throw (Err "connection lost") \/
  exists user,
    SampleTask.owner0 user (teamId SampleTask.payload0)
    = Throw (Err "connection lost").
Proof.
  exact (task_throws_only_database_errors SampleTaskAdmin.lostUploads
           SampleTask.dataroom0 SampleTask.link0 SampleTaskAdmin.members0
           SampleTask.owner0 SampleTask.post0 SampleTask.payload0 0
           (Err "connection lost") eq_refl).
Defined.

End NotifyErrors.

Module FxFacts.

Lemma fx_outcome_tryCatch {E A} (m : Fx.T E A) (h : error -> Fx.T E A) :
  Fx.outcome (Fx.tryCatch m h) =
  match Fx.outcome m with
  | Ok a => Ok a
  | Throw e => Fx.outcome (h e)
  end.
Proof.
  destruct m as [t [a|e]]; cbn; [reflexivity|]. now destruct (h e).
Qed.

Lemma fx_bind_ok {E A B} (a : A) (f : A -> Fx.T E B) :
  Fx.bind (Fx.lift (Ok a)) f = f a.
Proof. cbn. now destruct (f a). Qed.

Lemma fx_bind_ret {E A B} (a : A) (f : A -> Fx.T E B) :
  Fx.bind (Fx.ret a) f = f a.
Proof. cbn. now destruct (f a). Qed.

Ltac run :=
  cbv beta iota delta
    [Fx.bind Fx.tryCatch Fx.emit Fx.lift Fx.throw Fx.ret Fx.embed
     Fx.trace Fx.outcome fst snd].

End FxFacts.

Module UploadFacts.
Import Upload FxFacts.
Local Open Scope Z_scope.

Section Route.

Variable request_json : result (option Body).
Variable verifyDataroomSession : str -> str -> result (option DataroomSession).
Variable link_findUnique : str -> str -> result (option Link).
Variable viewer_findUnique : str -> str -> str -> result (option unit).
Variable supportsAdvancedExcelMode : str -> bool.
Variable processDocument : ProcessArgs -> result Document.
Variable dataroomFolder_findUnique : str -> str -> result (option str).
Variable dataroomDocument_create :
  str -> str -> option str -> result str.
Variable documentUpload_create :
  Document -> str -> str -> str -> str -> str -> str -> result unit.
Variable runs_list : Debounce.ListQuery -> result (list Debounce.Run).
Variable runs_cancel : str -> result unit.

#[local] Abbreviation POST :=
  (Upload.POST request_json verifyDataroomSession link_findUnique
     viewer_findUnique supportsAdvancedExcelMode processDocument
     dataroomFolder_findUnique dataroomDocument_create documentUpload_create
     runs_list runs_cancel).
#[local] Abbreviation Accepted :=
  (Upload.Accepted request_json verifyDataroomSession link_findUnique
     viewer_findUnique).
#[local] Abbreviation processArgs :=
  (Upload.processArgs supportsAdvancedExcelMode).
#[local] Abbreviation Folder := (Upload.Folder dataroomFolder_findUnique).

Lemma always_answers paramsId now :
  exists r, Fx.outcome (POST paramsId now) = Ok r /\
            In (status r) [400; 401; 403; 404; 200; 500].
Proof.
  unfold Upload.POST. rewrite fx_outcome_tryCatch.
  match goal with
  | |- context [match Fx.outcome ?m with _ => _ end] =>
      assert (H : (exists e, Fx.outcome m = Throw e) \/
                  (exists r, Fx.outcome m = Ok r /\
                             In (status r) [400; 401; 403; 404; 200]));
      [|destruct H as [[e ->]|(r & -> & Hr)];
        [eexists; split; [reflexivity|cbn; auto 8]
        |exists r; split; [reflexivity|cbn in *; intuition]]]
  end.
  run.
  repeat ConvertFacts.break_match;
    try (left; eexists; reflexivity);
    right; eexists; (split; [reflexivity|]); cbn; auto 8.
Qed.

Lemma accepted_run paramsId now body data room session viewer link linkTeam :
  Accepted paramsId body data room session viewer link linkTeam ->
  POST paramsId now
  = Fx.tryCatch
      (Fx.bind (Fx.emit (ProcessDocument (processArgs data link linkTeam)))
       (fun _ =>
       Fx.bind (Fx.lift (processDocument (processArgs data link linkTeam)))
       (fun document =>
       Fx.bind
         (match uploadFolderId link with
          | Some ((_ :: _) as uploadFolder) =>
              Fx.bind (Fx.lift (dataroomFolder_findUnique uploadFolder room))
                      (fun dataroomFolder => Fx.ret (orNull dataroomFolder None))
          | _ => Fx.ret (orNull (folderId body) None)
          end)
       (fun dataroomFolderId =>
       Fx.bind (Fx.emit (CreateDataroomDocument room (documentId document)
                                                dataroomFolderId))
       (fun _ =>
       Fx.bind (Fx.lift (dataroomDocument_create room (documentId document)
                           dataroomFolderId))
       (fun newDataroomDocument =>
          match fileSizes document with
          | [] => Fx.throw (mkError "TypeError"
                    "Cannot read properties of undefined (reading 'fileSize')")
          | _ :: _ =>
              Fx.bind (Fx.emit (CreateDocumentUpload (documentId document) viewer
                                  (viewId session) paramsId))
              (fun _ =>
              Fx.bind (Fx.lift (documentUpload_create document viewer
                                  (viewId session) paramsId room
                                  newDataroomDocument linkTeam))
              (fun _ =>
              Fx.bind (Fx.embed Step4
                         (Debounce.notifyUpload runs_list runs_cancel
                            (enableNotification link) linkTeam room paramsId
                            viewer newDataroomDocument now))
              (fun _ => Fx.ret Success)))
          end))))))
      (fun error =>
         Fx.bind (Fx.emit (LogError "Error uploading document:" error))
                 (fun _ => Fx.ret (Message 500 "Error uploading document"))).
Proof.
  intros [Hl Hb Hd [Hr Hrne] Hs [Hv Hvne] Hf Hu Hdr [Ht Htne] [v Hk]].
  unfold Upload.POST, Upload.processArgs. rewrite Hb.
  destruct paramsId as [|pc params']; [congruence|].
  destruct room as [|rc room']; [congruence|].
  destruct viewer as [|vc viewer']; [congruence|].
  destruct linkTeam as [|tc linkTeam']; [congruence|].
  destruct session as [sv sview]. cbn [viewerId viewId] in *. subst sv.
  destruct link as [lid lup lnot lfolder lroom lteam ltm].
  cbn [enableUpload linkDataroomId teamId enableNotification uploadFolderId
       team] in *.
  subst lup lroom lteam.
  f_equal. rewrite fx_bind_ok, Hd, Hr, Hs, fx_bind_ok, Hf, fx_bind_ok.
  rewrite StrFacts.eqb_refl. cbn [negb]. rewrite Hk, fx_bind_ok.
  reflexivity.
Qed.

(** The run of an accepted upload whose three writes succeed. *)
Lemma written_run paramsId now body data room session viewer link linkTeam
      document folder newId :
  Accepted paramsId body data room session viewer link linkTeam ->
  processDocument (processArgs data link linkTeam) = Ok document ->
  fileSizes document <> [] ->
  Folder link body room folder ->
  dataroomDocument_create room (documentId document) folder = Ok newId ->
  documentUpload_create document viewer (viewId session) paramsId room newId
                        linkTeam = Ok tt ->
  POST paramsId now
  = ([ProcessDocument (processArgs data link linkTeam);
      CreateDataroomDocument room (documentId document) folder;
      CreateDocumentUpload (documentId document) viewer (viewId session)
                           paramsId] ++
     map Step4
       (Eff.trace (Debounce.notifyUpload runs_list runs_cancel
                     (enableNotification link) linkTeam room paramsId viewer
                     newId now)),
     Ok Success).
Proof.
  intros Hacc Hdoc Hsizes Hfolder Hcreate Hupload.
  rewrite (accepted_run _ now _ _ _ _ _ _ _ Hacc).
  rewrite Hdoc.
  assert (Hf : match uploadFolderId link with
               | Some ((_ :: _) as uploadFolder) =>
                   Fx.bind
                     (Fx.lift (dataroomFolder_findUnique uploadFolder room))
                     (fun dataroomFolder =>
                        Fx.ret (orNull dataroomFolder None))
               | _ => Fx.ret (orNull (folderId body) None)
               end = (@Fx.ret call _ folder)).
  { unfold Folder in Hfolder.
    destruct (uploadFolderId link) as [[|fc f]|];
      rewrite ?Hfolder, ?fx_bind_ok; unfold orNull;
      try rewrite <- Hfolder; now destruct folder. }
  rewrite fx_bind_ok, Hf, fx_bind_ret.
  destruct (fileSizes document) as [|size sizes] eqn:Es; [congruence|].
  pose proof (DebounceMore.notifyUpload_ok runs_list runs_cancel
                (enableNotification link) linkTeam room paramsId viewer
                newId now) as Hn.
  run. rewrite Hcreate, Hupload.
  destruct (Debounce.notifyUpload _ _ _ _ _ _ _ _ _) as [t r].
  cbn [Eff.outcome Eff.trace fst snd] in *. subst r.
  cbn [app]. now rewrite !app_nil_r.
Qed.

End Route.

(** The sample upload is an accepted one. *)
Lemma sample_accepted :
  Accepted SampleUpload.json0 SampleUpload.verify0 SampleUpload.findLink0
           SampleUpload.findViewer0 "link1" SampleUpload.body0
           SampleUpload.data0 "room1" SampleUpload.session0 "viewer1"
           SampleUpload.link0 "team1".
Proof.
  constructor; try reflexivity; try discriminate;
    try (split; [reflexivity|discriminate]).
  now exists tt.
Defined.

End UploadFacts.

Module UploadAnswers.
Import Upload FxFacts UploadFacts.
Local Open Scope Z_scope.

(** X17.  The upload route always answers and never throws: whatever the
    request, the session, the database, the document processing and the
    scheduler do, its status is 400, 401, 403, 404, 200 or 500. *)
Theorem upload_route_always_answers :
  forall request_json verifyDataroomSession link_findUnique
         viewer_findUnique supportsAdvancedExcelMode processDocument
         dataroomFolder_findUnique dataroomDocument_create
         documentUpload_create runs_list runs_cancel (paramsId : str)
         (now : Z),
    exists r,
      Fx.outcome
        (POST request_json verifyDataroomSession link_findUnique
           viewer_findUnique supportsAdvancedExcelMode processDocument
           dataroomFolder_findUnique dataroomDocument_create
           documentUpload_create runs_list runs_cancel paramsId now)
      = Ok r /\
      In (status r) [400; 401; 403; 404; 200; 500].
Proof. intros. apply always_answers. Qed.

End UploadAnswers.

Module UploadScheduler.
Import Upload FxFacts UploadFacts.
Local Open Scope Z_scope.

(** X18.  An accepted upload whose three writes succeed is answered with
    success whatever the scheduler does: the calls of step 4 come after
    the writes, and a failure to list, cancel or schedule leaves the
    answer as it is. *)
Theorem upload_succeeds_whatever_the_scheduler_does :
  forall request_json verifyDataroomSession link_findUnique
         viewer_findUnique supportsAdvancedExcelMode processDocument
         dataroomFolder_findUnique dataroomDocument_create
         documentUpload_create runs_list runs_cancel (paramsId : str)
         (now : Z) body data (room : str) session (viewer : str) link
         (linkTeam : str) document folder (newId : str),
    Accepted request_json verifyDataroomSession link_findUnique
             viewer_findUnique paramsId body data room session viewer link
             linkTeam ->
    processDocument (processArgs supportsAdvancedExcelMode data link linkTeam)
    = Ok document ->
    fileSizes document <> [] ->
    Folder dataroomFolder_findUnique link body room folder ->
    dataroomDocument_create room (documentId document) folder = Ok newId ->
    documentUpload_create document viewer (viewId session) paramsId room
                          newId linkTeam = Ok tt ->
    let run :=
      POST request_json verifyDataroomSession link_findUnique
        viewer_findUnique supportsAdvancedExcelMode processDocument
        dataroomFolder_findUnique dataroomDocument_create
        documentUpload_create runs_list runs_cancel paramsId now in
    Fx.outcome run = Ok Success /\
    exists step4,
      Fx.trace run
      = [ProcessDocument
           (processArgs supportsAdvancedExcelMode data link linkTeam);
         CreateDataroomDocument room (documentId document) folder;
         CreateDocumentUpload (documentId document) viewer (viewId session)
                              paramsId] ++ map Step4 step4.
Proof.
  intros request_json verifyDataroomSession link_findUnique
         viewer_findUnique supportsAdvancedExcelMode processDocument
         dataroomFolder_findUnique dataroomDocument_create
         documentUpload_create runs_list runs_cancel paramsId now body data
         room session viewer link linkTeam document folder newId
         Hacc Hdoc Hsizes Hfolder Hcreate Hupload run.
  subst run.
  rewrite (written_run _ _ _ _ _ _ _ _ _ runs_list runs_cancel _ now _ _ _ _
             _ _ _ _ _ _ Hacc Hdoc Hsizes Hfolder Hcreate Hupload).
  split; [reflexivity|]. eexists. reflexivity.
Qed.

Lemma upload_succeeds_whatever_the_scheduler_does_witness :
  Fx.outcome SampleUpload.run0 = Ok Success /\
  exists step4,
    Fx.trace SampleUpload.run0
    = [ProcessDocument
         (processArgs SampleUpload.excel0 SampleUpload.data0
                      SampleUpload.link0 "team1");
       CreateDataroomDocument "room1" "doc9"
                              (Some (lit "folder-of-the-link"));
       CreateDocumentUpload "doc9" "viewer1" "view1" "link1"] ++
      map Step4 step4.
Proof.
  refine (upload_succeeds_whatever_the_scheduler_does
            SampleUpload.json0 SampleUpload.verify0 SampleUpload.findLink0
            SampleUpload.findViewer0 SampleUpload.excel0
            SampleUpload.process0 SampleUpload.findFolder0
            SampleUpload.createDocument0 SampleUpload.createUpload0
            SampleUpload.noScheduler SampleRuns.cancelling "link1" 0
            SampleUpload.body0 SampleUpload.data0 "room1"
            SampleUpload.session0 "viewer1" SampleUpload.link0 "team1"
            SampleUpload.document0 (Some (lit "folder-of-the-link")) "dd1"
            sample_accepted eq_refl _ eq_refl eq_refl eq_refl).
  discriminate.
Defined.

End UploadScheduler.

Module UploadFolder.
Import Upload FxFacts UploadFacts.
Local Open Scope Z_scope.

(** X19.  The dataroom document of an accepted upload is created in the
    dataroom of the request, for the document just processed; when the
    link has an upload folder the document goes to that folder as it is
    found in this dataroom (to the root when it is not found there) and
    the folder named in the request is ignored; otherwise it goes to the
    folder of the request. *)
Theorem link_folder_overrides_request_folder :
  forall request_json verifyDataroomSession link_findUnique
         viewer_findUnique supportsAdvancedExcelMode processDocument
         dataroomFolder_findUnique dataroomDocument_create
         documentUpload_create runs_list runs_cancel (paramsId : str)
         (now : Z) body data (room : str) session (viewer : str) link
         (linkTeam : str) document (room' document' : str) folder',
    Accepted request_json verifyDataroomSession link_findUnique
             viewer_findUnique paramsId body data room session viewer link
             linkTeam ->
    processDocument (processArgs supportsAdvancedExcelMode data link linkTeam)
    = Ok document ->
    In (CreateDataroomDocument room' document' folder')
       (Fx.trace
          (POST request_json verifyDataroomSession link_findUnique
             viewer_findUnique supportsAdvancedExcelMode processDocument
             dataroomFolder_findUnique dataroomDocument_create
             documentUpload_create runs_list runs_cancel paramsId now)) ->
    room' = room /\ document' = documentId document /\
    Folder dataroomFolder_findUnique link body room folder'.
Proof.
  intros request_json verifyDataroomSession link_findUnique
         viewer_findUnique supportsAdvancedExcelMode processDocument
         dataroomFolder_findUnique dataroomDocument_create
         documentUpload_create runs_list runs_cancel paramsId now body data
         room session viewer link linkTeam document room' document' folder'
         Hacc Hdoc.
  rewrite (accepted_run _ _ _ _ _ _ _ _ _ runs_list runs_cancel _ now _ _ _ _
             _ _ _ Hacc).
  unfold Folder. rewrite Hdoc, fx_bind_ok.
  destruct (uploadFolderId link) as [[|fc f]|];
    try destruct (dataroomFolder_findUnique (fc :: f) room) as [[found|]|e];
    rewrite ?fx_bind_ok, ?fx_bind_ret; unfold orNull;
    try destruct (folderId body) as [requested|];
    run; repeat ConvertFacts.break_match;
    cbn [app In];
    rewrite ?app_nil_r, ?in_app_iff; cbn [In];
    intros H;
    repeat match goal with
           | H : _ \/ _ |- _ => destruct H as [H|H]
           | H : False |- _ => destruct H
           | H : In _ (map Step4 _) |- _ =>
               apply in_map_iff in H as (ev & H & _)
           end;
    try discriminate H; injection H as <- <- <-; auto.
Qed.

Lemma link_folder_overrides_request_folder_witness :
  lit "room1" = "room1" /\ lit "doc9" = documentId SampleUpload.document0 /\
  Folder SampleUpload.findFolder0 SampleUpload.link0 SampleUpload.body0
         "room1" (Some (lit "folder-of-the-link")).
Proof.
  refine (link_folder_overrides_request_folder
            SampleUpload.json0 SampleUpload.verify0 SampleUpload.findLink0
            SampleUpload.findViewer0 SampleUpload.excel0
            SampleUpload.process0 SampleUpload.findFolder0
            SampleUpload.createDocument0 SampleUpload.createUpload0
            SampleUpload.noScheduler SampleRuns.cancelling "link1" 0
            SampleUpload.body0 SampleUpload.data0 "room1"
            SampleUpload.session0 "viewer1" SampleUpload.link0 "team1"
            SampleUpload.document0 "room1" "doc9"
            (Some (lit "folder-of-the-link"))
            sample_accepted eq_refl _).
  right. left. reflexivity.
Defined.

End UploadFolder.

Module UploadGuards.
Import Upload FxFacts UploadFacts.
Local Open Scope Z_scope.

Ltac no_write :=
  run; cbn [app In];
  intros c H Hc;
  repeat match goal with
         | H : _ \/ _ |- _ => destruct H as [H|H]
         | H : False |- _ => destruct H
         end;
  subst c; discriminate Hc.

(** X20.  Nothing is written for a request that is not accepted: whenever the
    route processes a document or creates a dataroom document or an
    upload record, the request named a document and a dataroom, the
    session of the link gave a viewer, the link was found for that
    dataroom with uploads enabled and a team, and the viewer was found
    for that team and view. *)
Theorem nothing_is_written_unless_accepted :
  forall request_json verifyDataroomSession link_findUnique
         viewer_findUnique supportsAdvancedExcelMode processDocument
         dataroomFolder_findUnique dataroomDocument_create
         documentUpload_create runs_list runs_cancel (paramsId : str)
         (now : Z) (c : call),
    In c (Fx.trace
            (POST request_json verifyDataroomSession link_findUnique
               viewer_findUnique supportsAdvancedExcelMode processDocument
               dataroomFolder_findUnique dataroomDocument_create
               documentUpload_create runs_list runs_cancel paramsId now)) ->
    isCreate c = true ->
    exists body data room session viewer link linkTeam,
      Accepted request_json verifyDataroomSession link_findUnique
               viewer_findUnique paramsId body data room session viewer
               link linkTeam.
Proof.
  intros request_json verifyDataroomSession link_findUnique
         viewer_findUnique supportsAdvancedExcelMode processDocument
         dataroomFolder_findUnique dataroomDocument_create
         documentUpload_create runs_list runs_cancel paramsId now c.
  revert c. unfold Upload.POST.
  destruct request_json as [[body|]|e] eqn:Eb; try no_write.
  rewrite fx_bind_ok.
  destruct paramsId as [|pc params'] eqn:Ep; try no_write.
  destruct (documentData body) as [data|] eqn:Ed; try no_write.
  destruct (dataroomId body) as [[|rc room']|] eqn:Er; try no_write.
  destruct (verifyDataroomSession _ _)
    as [[[[[|vc viewer']|] view]|]|e] eqn:Es;
    rewrite ?fx_bind_ok; try no_write.
  destruct (link_findUnique _ _)
    as [[[lid [] lnot lfolder lroom [[|tc linkTeam']|] ltm]|]|e] eqn:El;
    rewrite ?fx_bind_ok; try no_write.
  destruct lroom as [lroom|]; cbn [negb]; try no_write.
  destruct (Str.eqb lroom (rc :: room')) eqn:Eroom; cbn [negb];
    try no_write.
  apply StrFacts.eqb_eq in Eroom. subst lroom.
  destruct (viewer_findUnique _ _ _) as [[v|]|e] eqn:Ev;
    rewrite ?fx_bind_ok; try no_write.
  intros c _ _.
  eexists body, data, (rc :: room'), _, (vc :: viewer'), _, (tc :: linkTeam').
  constructor; try eassumption; try reflexivity; try discriminate;
    try (split; [reflexivity|discriminate]).
  - split; [exact Er|discriminate].
  - now exists v.
Qed.

Lemma nothing_is_written_unless_accepted_witness :
  exists body data room session viewer link linkTeam,
    Accepted SampleUpload.json0 SampleUpload.verify0 SampleUpload.findLink0
             SampleUpload.findViewer0 "link1" body data room session viewer
             link linkTeam.
Proof.
  refine (nothing_is_written_unless_accepted
            SampleUpload.json0 SampleUpload.verify0 SampleUpload.findLink0
            SampleUpload.findViewer0 SampleUpload.excel0
            SampleUpload.process0 SampleUpload.findFolder0
            SampleUpload.createDocument0 SampleUpload.createUpload0
            SampleUpload.noScheduler SampleRuns.cancelling "link1" 0
            (CreateDocumentUpload "doc9" "viewer1" "view1" "link1") _
            eq_refl).
  right. right. left. reflexivity.
Defined.

End UploadGuards.

Module TrustedTeams.
Import Batch Trusted.

Lemma strings_In {Number} (items : list (json Number)) (s : str) :
  In s (strings Number items) <-> In (JStr s) items.
Proof.
  unfold strings. rewrite in_flat_map. split.
  - intros (item & Hin & Hs). destruct item; cbn in Hs; try contradiction.
    destruct Hs as [->|[]]. exact Hin.
  - intros H. exists (JStr s). split; [exact H|now left].
Qed.

(** X21.  A team is trusted exactly when the edge configuration is set up,
    its [trustedTeams] entry is read without error and is an array, and
    the team's id is one of its string items; in every other case (no
    configuration, an error, an entry that is no array) the answer is
    false. *)
Theorem trusted_exactly_when_listed :
  forall (Number : Type) (get : str -> result (value Number))
         (EDGE_CONFIG : option str) (teamId : str),
    isTrustedTeam Number get EDGE_CONFIG teamId = true <->
    truthy EDGE_CONFIG = true /\
    exists items,
      get "trustedTeams" = Ok (Some (JArr items)) /\
      In (JStr teamId) items.
Proof.
  intros Number get EDGE_CONFIG teamId. unfold isTrustedTeam.
  destruct (truthy EDGE_CONFIG); cbn [negb].
  2:{ split; [discriminate|]. intros [H _]. discriminate H. }
  destruct (get "trustedTeams") as [[[| | | |items|]|]|e];
    try (split; [discriminate|]; intros [_ (items' & H & _)];
         discriminate H).
  destruct (strings Number items) as [|first rest] eqn:Es.
  - split; [discriminate|]. intros [_ (items' & H & Hin)].
    injection H as <-. apply strings_In in Hin. rewrite Es in Hin.
    destruct Hin.
  - rewrite <- Es. rewrite DebounceFacts.includes_In, strings_In. split.
    + intros H. split; [reflexivity|]. now exists items.
    + intros [_ (items' & H & Hin)]. now injection H as <-.
Qed.

End TrustedTeams.

Module MailerFacts.
Import Mailer FxFacts.
Local Open Scope Z_scope.

(** The first part of a text without the separator is the text. *)
Lemma hd_split_noSep sep (s : str) :
  hd [] (Str.split sep s) = s <-> Str.noSep sep s = true.
Proof.
  split.
  - induction s as [|c s IH]; [reflexivity|].
    cbn [Str.split Str.noSep forallb].
    destruct (Ascii.eqb c sep) eqn:E; cbn [hd negb andb]; [discriminate|].
    pose proof (StrFacts.split_not_nil sep s) as Hne.
    destruct (Str.split sep s) as [|h t]; [congruence|].
    cbn [hd] in *. intros H. injection H as H. now apply IH.
  - intros H. now rewrite (StrFacts.split_noSep _ _ H).
Qed.

Lemma bearer_of_header (k : str) :
  Batch.bearer (Some ("Bearer " +++ k)) = Some (hd [] (Str.split " " k)).
Proof.
  unfold Batch.bearer.
  change ("Bearer " +++ k) with ("Bearer" +++ " "%char :: k).
  rewrite StrFacts.split_app_sep by reflexivity.
  pose proof (StrFacts.split_not_nil " " k) as Hne.
  destruct (Str.split " " k) as [|h t]; [congruence|reflexivity].
Qed.

End MailerFacts.

Module MailSilentFailure.
Import Mailer FxFacts MailerFacts.
Local Open Scope Z_scope.

(** X22.  An authorised request whose body has its document names is
    answered 200 [Successfully sent dataroom upload notification]
    whatever the mail service does, also when it throws: the one
    message goes to the owner address with the team members in copy and
    a subject that counts the documents, and a failure to send it is
    neither logged nor reported. *)
Theorem failed_email_is_answered_as_sent :
  forall (Template Data : Type) DataroomUploadNotification
         (sendEmail : Email Template -> result Data) (NODE_ENV : option str)
         (authorization key : option str) (body : Body) names,
    Batch.bearer authorization = key ->
    documentNames body = Some names ->
    exists email,
      handle Template Data DataroomUploadNotification sendEmail NODE_ENV
             "POST" authorization key (Some body)
      = ([SendEmail email],
         Ok (Json 200 "Successfully sent dataroom upload notification")) /\
      to email = ownerEmail body /\ cc email = teamMembers body /\
      subject email
      = subjectLine (uploaderEmail body) (Num.length names)
                    (dataroomName body) /\
      react email
      = DataroomUploadNotification (dataroomId body) (dataroomName body)
          (uploaderEmail body) names (linkName body).
Proof.
  intros Template Data DataroomUploadNotification sendEmail NODE_ENV
         authorization key body names Hk Hnames.
  apply BatchFacts.sameToken_eq in Hk.
  unfold handle, sendDataroomUploadNotification.
  rewrite StrFacts.eqb_refl, Hk, Hnames. cbn [negb].
  eexists. split.
  - run. destruct (sendEmail _); reflexivity.
  - repeat split.
Qed.

Lemma failed_email_is_answered_as_sent_witness :
  exists email,
    handle (list str) unit SampleMail.template0 SampleMail.refusing None
           "POST" (Some (lit "Bearer secret")) (Some (lit "secret"))
           (Some SampleMail.body0)
    = ([SendEmail email],
       Ok (Json 200 "Successfully sent dataroom upload notification")) /\
    to email = "admin@example.com" /\
    cc email = Some [lit "manager@example.com"] /\
    subject email
    = subjectLine (Some (lit "viewer@example.com")) 2 "Series A" /\
    react email = [lit "a.pdf"; lit "b.pdf"].
Proof.
  exact (failed_email_is_answered_as_sent (list str) unit
           SampleMail.template0 SampleMail.refusing None
           (Some (lit "Bearer secret")) (Some (lit "secret"))
           SampleMail.body0 [lit "a.pdf"; lit "b.pdf"] eq_refl eq_refl).
Defined.

End MailSilentFailure.

Module MailAuthorization.
Import Mailer FxFacts MailerFacts.
Local Open Scope Z_scope.


End MailAuthorization.

Module JacksonFacts.
Import Jackson.

Section Sanitize.

Variable toLowerCase : str -> str.

#[local] Abbreviation isSystem := (Jackson.isSystem toLowerCase).
#[local] Abbreviation removed := (Jackson.removed toLowerCase).

Lemma filter_filter {A} (f g : A -> bool) l :
  filter f (filter g l) = filter (fun x => g x && f x) l.
Proof.
  induction l as [|x l IH]; [reflexivity|]. cbn [filter].
  destruct (g x); cbn [filter andb]; [destruct (f x)|]; now rewrite IH.
Qed.

Lemma filter_all {A} (f : A -> bool) l :
  (forall x, f x = true) -> filter f l = l.
Proof.
  intros H. induction l as [|x l IH]; [reflexivity|].
  cbn [filter]. now rewrite H, IH.
Qed.

Lemma dropSystem_filter params param :
  dropSystem toLowerCase params param
  = filter (fun p => negb (removed [param] params p)) params.
Proof.
  unfold dropSystem, Jackson.removed. cbn [existsb].
  assert (Hp : forall p : str * str,
             negb ((Str.eqb (fst p) param || false)
                   && isSystem (get (fst p) params))
             = negb (Str.eqb (fst p) param
                     && isSystem (get param params))).
  { intros p. rewrite orb_false_r.
    destruct (Str.eqb (fst p) param) eqn:E; [|reflexivity].
    apply StrFacts.eqb_eq in E. now rewrite E. }
  rewrite (filter_ext _ _ Hp).
  destruct (get param params) as [value|]; cbn [Jackson.isSystem].
  - destruct (Str.eqb (toLowerCase value) "system").
    + unfold delete. apply filter_ext. intros p. now rewrite andb_true_r.
    + symmetry. apply filter_all. intros p. now rewrite andb_false_r.
  - symmetry. apply filter_all. intros p. now rewrite andb_false_r.
Qed.

Lemma get_filter_other name (keep : str * str -> bool) params :
  (forall p, Str.eqb (fst p) name = true -> keep p = true) ->
  get name (filter keep params) = get name params.
Proof.
  intros Hk. unfold get. induction params as [|p ps IH]; [reflexivity|].
  cbn [filter find]. destruct (Str.eqb (fst p) name) eqn:E.
  - rewrite (Hk p E). cbn [find]. now rewrite E.
  - destruct (keep p); cbn [find]; rewrite ?E; exact IH.
Qed.

Lemma fold_dropSystem names : forall params,
  NoDup names ->
  fold_left (dropSystem toLowerCase) names params
  = filter (fun p => negb (removed names params p)) params.
Proof.
  induction names as [|n ns IH]; intros params Hnd.
  - cbn [fold_left]. symmetry. now apply filter_all.
  - cbn [fold_left]. inversion Hnd as [|n' ns' Hnotin Hnd']; subst.
    rewrite (IH _ Hnd'), dropSystem_filter, filter_filter.
    apply filter_ext_in. intros p Hp. unfold Jackson.removed. cbn [existsb].
    destruct (Str.eqb (fst p) n) eqn:En; cbn [orb andb].
    + destruct (isSystem (get (fst p) params)); [reflexivity|].
      cbn [negb andb]. apply StrFacts.eqb_eq in En.
      destruct (existsb (Str.eqb (fst p)) ns) eqn:Ex; [|reflexivity].
      apply existsb_exists in Ex as (x & Hx & Ex).
      apply StrFacts.eqb_eq in Ex. congruence.
    + cbn [negb andb].
      destruct (existsb (Str.eqb (fst p)) ns) eqn:Ex; [|reflexivity].
      cbn [andb]. f_equal. f_equal.
      apply get_filter_other. intros q Hq.
      apply StrFacts.eqb_eq in Hq.
      destruct (Str.eqb (fst q) n) eqn:Eq; [|reflexivity].
      apply StrFacts.eqb_eq in Eq. apply StrFacts.eqb_neq in En.
      congruence.
Qed.

Lemma sslParams_NoDup : NoDup sslParams.
Proof.
  unfold sslParams.
  repeat (constructor; [cbn [In]; intuition discriminate|]).
  constructor.
Qed.

End Sanitize.
End JacksonFacts.

Module JacksonSanitizer.
Import Jackson JacksonFacts.

Lemma get_removed toLowerCase names params name :
  existsb (Str.eqb name) names = true ->
  get name (filter (fun p => negb (removed toLowerCase names params p))
                   params)
  = if isSystem toLowerCase (get name params) then None
    else get name params.
Proof.
  intros Hin.
  destruct (isSystem toLowerCase (get name params)) eqn:Es.
  - unfold get at 1.
    destruct (find _ _) as [p|] eqn:Ef; [|reflexivity].
    apply find_some in Ef as [Hp Hn]. apply filter_In in Hp as [_ Hp].
    apply StrFacts.eqb_eq in Hn. unfold removed in Hp.
    rewrite Hn, Hin, Es in Hp. discriminate Hp.
  - apply get_filter_other. intros p Hp. apply StrFacts.eqb_eq in Hp.
    unfold removed. now rewrite Hp, Es, andb_false_r.
Qed.

(** X24.  [sanitizePostgresUrl] removes a pair of the query exactly when its
    name is one of sslcert, sslrootcert, sslkey, sslcrl and the first
    value under that name is [system] in any case; every other pair is
    kept in its place.  So afterwards none of the four parameters has
    [system] as the value read first, while a [system] written after
    another value of the same name stays. *)
Theorem sanitizer_removes_by_first_value :
  forall new_URL toString toLowerCase (rawUrl : str) (parsed : URL),
    new_URL rawUrl = Ok parsed ->
    let params := searchParams parsed in
    let params' :=
      filter (fun p => negb (removed toLowerCase sslParams params p))
             params in
    sanitizePostgresUrl new_URL toString toLowerCase rawUrl
    = toString {| origin := origin parsed; searchParams := params' |} /\
    (forall name value,
       In name sslParams -> get name params' = Some value ->
       toLowerCase value <> "system") /\
    (forall p, In p params -> ~ In (fst p) sslParams -> In p params') /\
    (forall name value p,
       In name sslParams -> get name params = Some value ->
       toLowerCase value <> "system" ->
       In p params -> fst p = name -> In p params').
Proof.
  intros new_URL toString toLowerCase rawUrl parsed Hparse params params'.
  assert (Hin : forall name, In name sslParams ->
                             existsb (Str.eqb name) sslParams = true).
  { intros name H. apply existsb_exists. exists name.
    split; [exact H|apply StrFacts.eqb_refl]. }
  split; [|split; [|split]].
  - unfold sanitizePostgresUrl. rewrite Hparse.
    now rewrite (fold_dropSystem toLowerCase _ _ sslParams_NoDup).
  - intros name value Hname Hget Hsys.
    unfold params' in Hget. rewrite (get_removed _ _ _ _ (Hin _ Hname)) in Hget.
    destruct (isSystem toLowerCase (get name params)) eqn:Es;
      [discriminate|].
    rewrite Hget in Es. cbn [isSystem] in Es.
    rewrite Hsys, StrFacts.eqb_refl in Es. discriminate.
  - intros p Hp Hother. apply filter_In. split; [exact Hp|].
    unfold removed.
    destruct (existsb (Str.eqb (fst p)) sslParams) eqn:Ex; [|reflexivity].
    apply existsb_exists in Ex as (x & Hx & Ex).
    apply StrFacts.eqb_eq in Ex. subst x. contradiction.
  - intros name value p Hname Hget Hsys Hp Hfst.
    apply filter_In. split; [exact Hp|]. unfold removed.
    rewrite Hfst, Hget. cbn [isSystem].
    apply StrFacts.eqb_neq in Hsys. now rewrite Hsys, andb_false_r.
Qed.

Lemma sanitizer_removes_by_first_value_witness :
  sanitizePostgresUrl SampleJackson.parse SampleJackson.serialise
                      SampleJackson.lower SampleJackson.raw
  = "postgres://db.example/app?sslmode=require&sslkey=/k.pem&sslkey=system".
Proof.
  exact (proj1 (sanitizer_removes_by_first_value SampleJackson.parse
                  SampleJackson.serialise SampleJackson.lower
                  SampleJackson.raw SampleJackson.parsed eq_refl)).
Defined.

End JacksonSanitizer.

Module JacksonOnce.
Import Jackson JacksonFacts.

(** X25.  [jackson()] sets the library up once: after a call that returns,
    the three globals are set and are what was returned, and a further
    call makes no call to the library and returns the same controllers;
    a call that throws leaves the globals as they were, and when the
    database URL is missing the library is not called at all. *)
Theorem controllers_are_initialised_once :
  forall new_URL toString toLowerCase encryptionKeyOf (Controller : Type)
         (samlJackson : JacksonOption -> result (Controllers Controller))
         (env : Env) (globalThis : Globals Controller),
    let call1 :=
      jackson new_URL toString toLowerCase encryptionKeyOf Controller
              samlJackson env globalThis in
    (forall returned,
       Fx.outcome (snd call1) = Ok returned ->
       fst call1 = returned /\
       (exists a o d,
          returned = {| apiController := Some a; oauthController := Some o;
                        directorySyncController := Some d |}) /\
       forall samlJackson' env',
         jackson new_URL toString toLowerCase encryptionKeyOf Controller
                 samlJackson' env' (fst call1)
         = (returned, ([], Ok returned))) /\
    (forall e, Fx.outcome (snd call1) = Throw e -> fst call1 = globalThis) /\
    (forall e,
       getJacksonOptions new_URL toString toLowerCase encryptionKeyOf env
       = Throw e ->
       Fx.trace (snd call1) = []).
Proof.
  intros new_URL toString toLowerCase encryptionKeyOf Controller samlJackson
         env globalThis call1.
  subst call1. unfold jackson.
  destruct globalThis as [[a|] [o|] [d|]]; cbn [missing orb apiController
    oauthController directorySyncController];
    try (destruct (getJacksonOptions _ _ _ _ env) as [options|e0];
         [destruct (samlJackson options) as [ret|e1]|]);
    cbn [fst snd Fx.outcome Fx.trace];
    (split; [|split]);
    try (intros returned H; discriminate H);
    try (intros e H; discriminate H);
    try (intros e H; reflexivity);
    try (intros returned H; injection H as <-;
         split; [reflexivity|]; split; [eauto|];
         intros samlJackson' env'; reflexivity).
Qed.

End JacksonOnce.

Module DomainFacts.
Import DomainSection.

Lemma test_slugPattern (s : str) :
  test slugPattern s = true <-> s <> [] /\ forallb slugChar s = true.
Proof.
  unfold test, slugPattern. split.
  - destruct (Regex.exec _ s) as [caps|] eqn:E; [|discriminate].
    intros _. apply RegexFacts.exec_sound in E.
    destruct E as (cap & caps' & rest & _ & Hne & Hcls & -> & -> & _).
    rewrite app_nil_r. now split.
  - intros [Hne Hcls].
    destruct (Regex.exec _ s) as [caps|] eqn:E; [reflexivity|].
    exfalso. revert E. apply (RegexFacts.exec_complete _ s [s]).
    exists s, [], []. rewrite app_nil_r. repeat split; assumption.
Qed.

Lemma filter_slugChar text : forallb slugChar (filter slugChar text) = true.
Proof.
  apply forallb_forall. intros c Hc. now apply filter_In in Hc.
Qed.

Lemma filter_forallb {A} (f : A -> bool) l :
  forallb f l = true -> filter f l = l.
Proof.
  induction l as [|x l IH]; [reflexivity|]. cbn [forallb filter].
  intros H. apply andb_true_iff in H as [Hx Hl]. now rewrite Hx, IH.
Qed.

End DomainFacts.

Module SlugTyped.
Import DomainSection DomainFacts.

(** X26.  Whatever is typed into the slug field, the slug that is stored has
    only letters, digits and hyphens, so it can be invalid only by
    being a blocked path name: it is flagged invalid exactly when it is
    not empty and [/slug] is blocked, and typing the stored slug again
    stores it unchanged. *)
Theorem typed_slug_is_invalid_only_when_blocked :
  forall (BLOCKED_PATHNAMES : list str) (p : Props) (text : str)
         (s : State),
    isDisabled p (data s) = false ->
    let s' := fst (onSlugChange BLOCKED_PATHNAMES p text s) in
    let stored := filter slugChar text in
    slug (data s') = Some stored /\
    domain (data s') = domain (data s) /\
    forallb slugChar stored = true /\
    (isSlugInvalid BLOCKED_PATHNAMES (data s') = true <->
     stored <> [] /\ isBlocked BLOCKED_PATHNAMES stored = true) /\
    fst (onSlugChange BLOCKED_PATHNAMES p stored s') = s'.
Proof.
  intros BLOCKED p text s Hd s' stored. subst s'.
  unfold onSlugChange. rewrite Hd. cbn [fst data slug domain].
  fold stored.
  assert (Hs : forallb slugChar stored = true) by apply filter_slugChar.
  split; [reflexivity|]. split; [reflexivity|]. split; [exact Hs|]. split.
  - unfold isSlugInvalid. cbn [slug].
    destruct stored as [|c stored'] eqn:E.
    + split; [discriminate|]. intros [H _]. congruence.
    + rewrite (proj2 (test_slugPattern (c :: stored'))).
      * cbn [negb orb]. split; [intros H; split; [discriminate|exact H]|].
        now intros [_ H].
      * split; [discriminate|exact Hs].
  - assert (Hd' : isDisabled p {| domain := domain (data s);
                                  slug := Some stored |} = false).
    { revert Hd. unfold isDisabled, isEditingCustomDomain. cbn [domain].
      trivial. }
    rewrite Hd'. cbn [fst data domain displayValue isModalOpen
                      isUpgradeModalOpen].
    now rewrite (filter_forallb _ _ Hs).
Qed.

Lemma typed_slug_is_invalid_only_when_blocked_witness :
  slug (data (fst (onSlugChange [lit "/login"] 
                     {| editLink := false; linkType := "DOCUMENT_LINK";
                        isBusiness := false; isDatarooms := false;
                        isDataroomsPlus := false; customDomainOnPro := false;
                        customDomainInDataroom := false |}
                     "my deck/2024!"
                     {| data := {| domain := Some (lit "docs.example.com");
                                   slug := None |};
                        displayValue := "docs.example.com";
                        isModalOpen := false;
                        isUpgradeModalOpen := false |})))
  = Some (lit "mydeck2024").
Proof.
  refine (proj1 (typed_slug_is_invalid_only_when_blocked [lit "/login"]
                   {| editLink := false; linkType := "DOCUMENT_LINK";
                      isBusiness := false; isDatarooms := false;
                      isDataroomsPlus := false; customDomainOnPro := false;
                      customDomainInDataroom := false |}
                   "my deck/2024!"
                   {| data := {| domain := Some (lit "docs.example.com");
                                 slug := None |};
                      displayValue := "docs.example.com";
                      isModalOpen := false;
                      isUpgradeModalOpen := false |} eq_refl)).
Defined.

End SlugTyped.

Module DomainPlan.
Import DomainSection DomainFacts.

(** X27.  For a document or dataroom link, choosing a domain never sets a
    custom domain the plan does not allow: after [handleDomainChange]
    the shown value is the stored domain, the stored domain is a custom
    domain other than the one before only if the plan allows custom
    domains for the link type, and a slug that was there is kept (one is
    generated only when a custom domain is set and there was none). *)
Theorem custom_domain_needs_the_plan :
  forall (p : Props) (newSlug value : str) (s : State),
    linkType p = "DOCUMENT_LINK" \/ linkType p = "DATAROOM_LINK" ->
    let s' := handleDomainChange p newSlug value s in
    displayValue s' = domainOrDefault (data s') /\
    (isCustom (domain (data s')) = true ->
     domain (data s') <> domain (data s) ->
     allowed p = true /\ domain (data s') = Some value) /\
    (slug (data s') = slug (data s) \/
     (truthy (slug (data s)) = false /\ slug (data s') = Some newSlug /\
      domain (data s') = Some value /\ allowed p = true)).
Proof.
  intros p newSlug value s Htype s'. subst s'.
  unfold handleDomainChange, allowed.
  destruct Htype as [Ht|Ht]; rewrite Ht;
    cbn [Str.eqb]; rewrite ?StrFacts.eqb_refl;
    change (Str.eqb "DATAROOM_LINK" "DOCUMENT_LINK") with false;
    cbn [andb orb];
    destruct (isEditingCustomDomain p (data s));
    destruct (canUseCustomDomainForDocument p);
    destruct (canUseCustomDomainForDataroom p);
    cbn [andb orb negb];
    destruct (Str.eqb value "add_domain");
    destruct (Str.eqb value "add_dataroom_domain");
    destruct (Str.eqb value papermark) eqn:Ev;
    cbn [andb orb negb data displayValue domain slug domainOrDefault
         isCustom];
    try apply StrFacts.eqb_eq in Ev; subst;
    repeat split; auto; try discriminate; try congruence;
    try (destruct (truthy (slug (data s))) eqn:Es; auto; fail).
Qed.

Lemma custom_domain_needs_the_plan_witness :
  displayValue
    (handleDomainChange
       {| editLink := false; linkType := "DOCUMENT_LINK";
          isBusiness := false; isDatarooms := false;
          isDataroomsPlus := false; customDomainOnPro := false;
          customDomainInDataroom := false |}
       "Ab3dE5gH7j" "docs.example.com"
       {| data := {| domain := Some papermark; slug := None |};
          displayValue := papermark; isModalOpen := false;
          isUpgradeModalOpen := false |})
  = papermark.
Proof.
  refine (proj1 (custom_domain_needs_the_plan
                   {| editLink := false; linkType := "DOCUMENT_LINK";
                      isBusiness := false; isDatarooms := false;
                      isDataroomsPlus := false; customDomainOnPro := false;
                      customDomainInDataroom := false |}
                   "Ab3dE5gH7j" "docs.example.com"
                   {| data := {| domain := Some papermark; slug := None |};
                      displayValue := papermark; isModalOpen := false;
                      isUpgradeModalOpen := false |} _)).
  left. reflexivity.
Defined.

End DomainPlan.

Module StoredFacts.
Import Stored FxFacts.
Local Open Scope Z_scope.

Lemma lookingAt_docId (s : str) m :
  lookingAt docIdRe s = Some m ->
  exists run after,
    m = [run] /\ run <> [] /\ forallb notSlash run = true /\
    s = "doc_" +++ run +++ "/" +++ after.
Proof.
  unfold docIdRe. cbn [lookingAt].
  destruct (Str.stripPrefix "doc_" s) as [rest|] eqn:Ep; [|discriminate].
  apply StrFacts.stripPrefix_Some in Ep. subst s.
  destruct (Regex.plus notSlash _ rest) as [[cap caps]|] eqn:E;
    [|discriminate].
  intros H. injection H as <-.
  apply RegexFacts.plus_sound in E
    as (Hne & Hcls & rest' & -> & Hk).
  destruct (Str.stripPrefix "/" rest') as [after|] eqn:Es; [|discriminate].
  apply StrFacts.stripPrefix_Some in Es. subst rest'.
  injection Hk as <-. exists cap, after. repeat split; assumption.
Qed.

Lemma search_docId (s : str) m :
  search docIdRe s = Some m ->
  exists before run after,
    m = [run] /\ run <> [] /\ forallb notSlash run = true /\
    s = before +++ "doc_" +++ run +++ "/" +++ after.
Proof.
  induction s as [|c s IH]; cbn [search].
  - destruct (lookingAt docIdRe []) as [m'|] eqn:E; [|discriminate].
    intros H. injection H as <-.
    apply lookingAt_docId in E as (run & after & -> & _ & _ & E).
    discriminate E.
  - destruct (lookingAt docIdRe (c :: s)) as [m'|] eqn:E.
    + intros H. injection H as <-.
      apply lookingAt_docId in E as (run & after & -> & Hne & Hcls & E).
      exists [], run, after. repeat split; assumption.
    + intros H. apply IH in H
        as (before & run & after & -> & Hne & Hcls & ->).
      exists (c :: before), run, after. repeat split; assumption.
Qed.

Lemma contains_eq (sub s : str) :
  Str.contains sub s
  = match Str.stripPrefix sub s with
    | Some _ => true
    | None => match s with [] => false | _ :: r => Str.contains sub r end
    end.
Proof. destruct s; reflexivity. Qed.

Lemma contains_app (sub before after : str) :
  Str.contains sub (before +++ sub +++ after) = true.
Proof.
  induction before as [|c before IH]; cbn [app].
  - now rewrite contains_eq, StrFacts.stripPrefix_app.
  - rewrite contains_eq.
    destruct (Str.stripPrefix sub (c :: before +++ sub +++ after));
      [reflexivity|exact IH].
Qed.

End StoredFacts.

Module StoredDocId.
Import Stored FxFacts StoredFacts.
Local Open Scope Z_scope.

(** X28.  The document id read from the path of the original file is a part
    of that path: it begins with [doc_], has at least one more
    character, contains no slash and is followed by a slash in the
    path; a path in which [doc_] does not occur has no document id. *)
Theorem document_id_is_a_path_segment :
  forall (originalFile : str),
    (forall docId,
       docIdOf originalFile = Some docId ->
       exists before run after,
         docId = "doc_" +++ run /\ run <> [] /\
         forallb notSlash docId = true /\
         originalFile = before +++ docId +++ "/" +++ after) /\
    (Str.contains "doc_" originalFile = false ->
     docIdOf originalFile = None).
Proof.
  intros originalFile.
  assert (H : forall docId,
             docIdOf originalFile = Some docId ->
             exists before run after,
               docId = "doc_" +++ run /\ run <> [] /\
               forallb notSlash docId = true /\
               originalFile = before +++ docId +++ "/" +++ after).
  { intros docId. unfold docIdOf.
    destruct (search docIdRe originalFile) as [m|] eqn:E; [|discriminate].
    intros H. injection H as <-.
    apply search_docId in E as (before & run & after & -> & Hne & Hcls & ->).
    exists before, run, after. cbn [Presign.group Nat.sub nth].
    repeat split; assumption. }
  split; [exact H|].
  intros Hno. destruct (docIdOf originalFile) as [docId|] eqn:E;
    [|reflexivity].
  destruct (H docId eq_refl) as (before & run & after & -> & _ & _ & Hf).
  rewrite Hf in Hno.
  rewrite <- !List.app_assoc in Hno.
  now rewrite (contains_app "doc_" before _) in Hno.
Qed.

End StoredDocId.

Module StoredOrder.
Import Stored FxFacts StoredFacts.
Local Open Scope Z_scope.


End StoredOrder.

Module StoredFailure.
Import Stored FxFacts StoredFacts.
Local Open Scope Z_scope.

(** X30.  When the conversion API refuses a CAD or Keynote file, the task
    throws [Conversion failed: <message> <status>] and stores nothing;
    a refusal whose JSON body has no message reads
    [Conversion failed: undefined <status>], and a refusal whose body
    cannot be read as JSON throws the reader's error instead. *)
Theorem refused_drawing_is_reported_with_the_api_message :
  forall putFileServer documentVersion_update trigger team_findUnique
         document_findUnique getFile getExtensionFromContentType convertApi
         (k : kind) (payload : Convert.ConvertPayload)
         team (docName : str) version more (original contentType fileUrl : str)
         response,
    team_findUnique (Convert.teamId payload) = Ok (Some team) ->
    document_findUnique payload
    = Ok (Some {| Convert.name := docName;
                  Convert.versions := version :: more |}) ->
    Convert.originalFile version = Some original -> original <> [] ->
    Convert.contentType version = Some contentType -> contentType <> [] ->
    getFile original (Convert.storageType version) = Ok fileUrl ->
    convertApi (engineOf k) fileUrl docName
               (getExtensionFromContentType contentType) = Ok response ->
    Convert.ok response = false ->
    let run :=
      convertWithApi putFileServer documentVersion_update trigger
        team_findUnique document_findUnique getFile
        getExtensionFromContentType convertApi k payload in
    filter isPut (Fx.trace run) = [] /\
    (forall m, Convert.jsonMessage response = Ok (Some m) ->
               Fx.outcome run
               = Throw (Err ("Conversion failed: " +++ m +++ " "
                             +++ Num.toString (Convert.status response)))) /\
    (Convert.jsonMessage response = Ok None ->
     Fx.outcome run
     = Throw (Err ("Conversion failed: undefined "
                   +++ Num.toString (Convert.status response)))) /\
    (forall e, Convert.jsonMessage response = Throw e ->
               Fx.outcome run = Throw e).
Proof.
  intros putFileServer documentVersion_update trigger team_findUnique
         document_findUnique getFile getExtensionFromContentType convertApi
         k payload team docName version more original contentType fileUrl
         response Hteam Hdoc Ho Hone Hct Hcne Hfile Hapi Hok run.
  destruct version as [vo vc vs].
  cbn [Convert.originalFile Convert.contentType Convert.storageType] in *.
  subst vo vc.
  destruct original as [|oc original']; [congruence|].
  destruct contentType as [|cc contentType']; [congruence|].
  subst run. unfold convertWithApi.
  rewrite Hteam, fx_bind_ok, Hdoc, fx_bind_ok, Hfile, fx_bind_ok.
  run. rewrite Hapi, Hok. cbv beta iota delta [negb].
  destruct (Convert.jsonMessage response) as [[m|]|e];
    repeat split; try discriminate; try congruence;
    intros x H; try discriminate H; now injection H as <-.
Qed.

Lemma refused_drawing_is_reported_with_the_api_message_witness :
  Fx.outcome
    (convertCadToPdfTask SampleStored.put0 SampleStored.update0
       SampleStored.trigger0 SampleConversion.team0 SampleStored.findDrawing
       SampleConversion.getFile0 SampleStored.extension SampleStored.api0
       SampleConversion.payload0)
  = Throw (Err "Conversion failed: undefined 422").
Proof.
  refine (proj1 (proj2 (proj2
            (refused_drawing_is_reported_with_the_api_message
               SampleStored.put0 SampleStored.update0 SampleStored.trigger0
               SampleConversion.team0 SampleStored.findDrawing
               SampleConversion.getFile0 SampleStored.extension
               SampleStored.api0 Cad SampleConversion.payload0 tt "plan"
               SampleStored.drawing [] "team1/doc_7/plan.dwg"
               "image/vnd.dwg" "https://files.example/report.docx"
               SampleStored.refusal
               eq_refl eq_refl eq_refl _ eq_refl _ eq_refl eq_refl eq_refl)))
            eq_refl); discriminate.
Defined.

End StoredFailure.
